(** * MultiAgentSystem: the tool registry and the agent loop

    A shallow embedding of [tools.py], [llm_client.py], [agents.py] and
    [main.py], and the properties of the specification proved on it.

    - [Py]: the fragment of the Python runtime the tools rely on: JSON-shaped
      values, exceptions as results, arithmetic on [int]/[float]/[bool]
      (floats are IEEE binary64), sequence concatenation and repetition,
      keyword-argument binding.
    - [Tools]: [calculadora], [obtener_hora], [calcular_calorias] and the
      dispatcher [ejecutar_herramienta].
    - [LLM]: [ToolCall], [LLMResponse], history messages and the [LLMClient]
      interface with the two providers' message encoders.
    - [Agents]: [AgenteBase], [AgenteConHerramientas], the experts and
      [AgenteOrquestador] with their [pensar] / [procesar] loops, written in
      a state-and-exception monad; the [while True] loops take fuel.
    - [Stub]: a scripted provider, the test double the loop properties are
      stated against.
    - [Propiedades], [Ejemplos]: the predicates the statements use and the
      inputs of the worked runs.
    - [Gemini]: [GeminiClient] below its interface: [_build_contents], what
      [chat_with_tools] makes of a response, and the identifier counter.
    - [Catalogo]: [TOOLS_DEFINITION] in full and [_convert_tools_to_gemini].
    - [Fabrica], [Main]: [crear_cliente], [obtener_cliente] and the REPL of
      [main].
    - [Vocabulario], [Casos]: further predicates and inputs.

    Then the proofs: the loops one step at a time, histories that only grow,
    and one section per property; after the properties of the specification
    come further properties of the same code, numbered X1 onwards.

    Console output ([print]) is not modelled; it has no effect on results
    except where building the printed text can raise, which is kept. *)

From Stdlib Require Import ZArith String Ascii List Bool Lia.
From Stdlib Require Floats.PrimFloat Floats.SpecFloat Floats.FloatOps Floats.FloatAxioms.
From stdpp Require Import gmap strings pretty.

Set Warnings "-register-all".
Local Open Scope string_scope.
Local Open Scope Z_scope.

(* ===================================================================== *)
(** ** Python values and the runtime operations the tools use             *)
(* ===================================================================== *)

Module Py.

Abbreviation float := PrimFloat.float.

(** Values that reach the tools: what [json.loads] (OpenAI) or [dict(fc.args)]
    (Gemini) can produce.  A [dict] is kept as an association list in
    insertion order; lookup takes the first binding of a key. *)
Inductive pyval :=
| PNone
| PBool (b : bool)
| PInt (z : Z)
| PFloat (f : float)
| PStr (s : string)
| PList (l : list pyval)
| PDict (d : list (string * pyval)).

(** The built-in exceptions that the modelled code can raise, and
    [ProviderError] for whatever the provider SDK raises (transport,
    authentication, rate limit). *)
Inductive exn :=
| TypeError | KeyError | AttributeError | ZeroDivisionError
| OverflowError | ValueError | ProviderError.

(** The result of evaluating a Python expression or a call without loops. *)
Inductive res (A : Type) :=
| Ret (a : A)
| Raise (e : exn).
Arguments Ret {A} a.
Arguments Raise {A} e.

Definition res_bind {A B} (r : res A) (k : A -> res B) : res B :=
  match r with
  | Ret a => k a
  | Raise e => Raise e
  end.

Declare Scope res_scope.
Notation "'let*' x ':=' r 'in' k" := (res_bind r (fun x => k))
  (at level 10, x pattern, r at level 100, k at level 200) : res_scope.
Delimit Scope res_scope with res.
Local Open Scope res_scope.

(** What cannot be written down here of the runtime: Unicode lower-casing and
    the [repr] of floats and containers.  The tools only pass their output
    through into the result text. *)
Class PyRuntime := {
  str_lower : string -> string;       (* str.lower() *)
  repr_float : float -> string;       (* repr(x) for a float *)
  repr_container : pyval -> string;   (* repr(x) for a list or a dict *)
}.

(** *** Strings *)

(** [sub in s] on strings. *)
Fixpoint contiene (s sub : string) : bool :=
  String.prefix sub s ||
  match s with
  | EmptyString => false
  | String _ s' => contiene s' sub
  end.

Fixpoint repite (n : nat) (s : string) : string :=
  match n with
  | O => ""
  | S n' => s +:+ repite n' s
  end.

(** [sep.join(l)] *)
Fixpoint join (sep : string) (l : list string) : string :=
  match l with
  | [] => ""
  | [x] => x
  | x :: rest => x +:+ sep +:+ join sep rest
  end.

Definition nl : string := String (ascii_of_nat 10) EmptyString.   (* chr(10) *)
Definition comillas : string := String (ascii_of_nat 34) EmptyString.

Fixpoint caracteres (s : string) : list string :=
  match s with
  | EmptyString => []
  | String c s' => String c EmptyString :: caracteres s'
  end.

(** *** Dictionaries *)

Fixpoint dict_get (d : list (string * pyval)) (k : string) : option pyval :=
  match d with
  | [] => None
  | (k', v) :: rest => if String.eqb k' k then Some v else dict_get rest k
  end.

(** Calling [def f(p1, ..., pn)] (no defaults) with the dict [d] unpacked as
    keyword arguments: every key must name a parameter and every parameter
    must be given. *)
Definition bind_kwargs (params : list string) (d : list (string * pyval))
  : res (list pyval) :=
  if forallb (fun kv => existsb (String.eqb (fst kv)) params) d then
    (fix go (ps : list string) : res (list pyval) :=
       match ps with
       | [] => Ret []
       | p :: ps' =>
           match dict_get d p with
           | None => Raise TypeError
           | Some v => let* vs := go ps' in Ret (v :: vs)
           end
       end) params
  else Raise TypeError.

(** [v[k]] for a string key [k]. *)
Definition py_getitem (v : pyval) (k : string) : res pyval :=
  match v with
  | PDict d => match dict_get d k with Some x => Ret x | None => Raise KeyError end
  | _ => Raise TypeError
  end.

(** [for x in v]: the elements visited.  A string yields its characters (here
    one per byte), a dict its keys. *)
Definition py_iter (v : pyval) : res (list pyval) :=
  match v with
  | PList l => Ret l
  | PStr s => Ret (map PStr (caracteres s))
  | PDict d => Ret (map (fun kv => PStr (fst kv)) d)
  | _ => Raise TypeError
  end.

(** *** Numbers *)

Inductive numero :=
| NInt (z : Z)
| NFloat (f : float).

(** [bool] is a subclass of [int]. *)
Definition como_numero (v : pyval) : option numero :=
  match v with
  | PBool b => Some (NInt (Z.b2z b))
  | PInt z => Some (NInt z)
  | PFloat f => Some (NFloat f)
  | _ => None
  end.

Definition de_numero (n : numero) : pyval :=
  match n with
  | NInt z => PInt z
  | NFloat f => PFloat f
  end.

Definition sf_of_Z (z : Z) : SpecFloat.spec_float :=
  match z with
  | Z0 => SpecFloat.S754_zero false
  | Zpos m => SpecFloat.S754_finite false m 0
  | Zneg m => SpecFloat.S754_finite true m 0
  end.

Definition es_infinito (f : float) : bool :=
  match FloatOps.Prim2SF f with
  | SpecFloat.S754_infinity _ => true
  | _ => false
  end.

(** [float(z)]: round to nearest even, [OverflowError] beyond the range. *)
Definition float_of_int (z : Z) : res float :=
  let f := FloatOps.SF2Prim
             (SpecFloat.binary_normalize FloatOps.prec FloatOps.emax z 0 false) in
  if es_infinito f then Raise OverflowError else Ret f.

Definition a_float (n : numero) : res float :=
  match n with
  | NInt z => float_of_int z
  | NFloat f => Ret f
  end.

Definition num_binop (fi : Z -> Z -> Z) (ff : float -> float -> float)
    (x y : numero) : res numero :=
  match x, y with
  | NInt a, NInt b => Ret (NInt (fi a b))
  | _, _ => let* a := a_float x in let* b := a_float y in Ret (NFloat (ff a b))
  end.

(** [x / y]: int by int is the correctly rounded quotient. *)
Definition num_truediv (x y : numero) : res float :=
  match x, y with
  | NInt a, NInt b =>
      if b =? 0 then Raise ZeroDivisionError
      else
        let q := FloatOps.SF2Prim
                   (SpecFloat.SFdiv FloatOps.prec FloatOps.emax
                      (sf_of_Z a) (sf_of_Z b)) in
        if es_infinito q then Raise OverflowError else Ret q
  | _, _ =>
      let* a := a_float x in let* b := a_float y in
      if PrimFloat.eqb b PrimFloat.zero then Raise ZeroDivisionError
      else Ret (PrimFloat.div a b)
  end.

(** [int(x)] for a number: truncation toward zero. *)
Definition num_int (x : numero) : res Z :=
  match x with
  | NInt z => Ret z
  | NFloat f =>
      match FloatOps.Prim2SF f with
      | SpecFloat.S754_zero _ => Ret 0
      | SpecFloat.S754_finite s m e =>
          let a := match e with
                   | Zneg p => Z.shiftr (Zpos m) (Zpos p)
                   | _ => Z.shiftl (Zpos m) e
                   end in
          Ret (if s then - a else a)
      | SpecFloat.S754_infinity _ => Raise OverflowError
      | SpecFloat.S754_nan => Raise ValueError
      end
  end.

(** [n != 0] and [n > 0] against the int literal. *)
Definition num_es_cero (n : numero) : bool :=
  match n with
  | NInt z => z =? 0
  | NFloat f => PrimFloat.eqb f PrimFloat.zero
  end.

Definition num_positivo (n : numero) : bool :=
  match n with
  | NInt z => 0 <? z
  | NFloat f => PrimFloat.ltb PrimFloat.zero f
  end.

(** *** Operators on values *)

Definition PY_SSIZE_T_MAX : Z := 2 ^ 63 - 1.

(** [seq * n]: the count must fit an index; a count below one gives the empty
    sequence.  Memory is not bounded in this model. *)
Definition veces {A} (n : Z) (rep : nat -> A) : res A :=
  if (n >? PY_SSIZE_T_MAX) || (n <? - PY_SSIZE_T_MAX - 1) then Raise OverflowError
  else Ret (rep (Z.to_nat n)).

Definition como_indice (v : pyval) : option Z :=
  match v with
  | PBool b => Some (Z.b2z b)
  | PInt z => Some z
  | _ => None
  end.

Definition py_add (x y : pyval) : res pyval :=
  match como_numero x, como_numero y with
  | Some a, Some b => let* n := num_binop Z.add PrimFloat.add a b in Ret (de_numero n)
  | _, _ =>
      match x, y with
      | PStr s, PStr t => Ret (PStr (s +:+ t))
      | PList l, PList m => Ret (PList (l ++ m)%list)
      | _, _ => Raise TypeError
      end
  end.

Definition py_sub (x y : pyval) : res pyval :=
  match como_numero x, como_numero y with
  | Some a, Some b => let* n := num_binop Z.sub PrimFloat.sub a b in Ret (de_numero n)
  | _, _ => Raise TypeError
  end.

Definition py_mul (x y : pyval) : res pyval :=
  match como_numero x, como_numero y with
  | Some a, Some b => let* n := num_binop Z.mul PrimFloat.mul a b in Ret (de_numero n)
  | _, _ =>
      match x, como_indice y, como_indice x, y with
      | PStr s, Some n, _, _ | _, _, Some n, PStr s =>
          veces n (fun k => PStr (repite k s))
      | PList l, Some n, _, _ | _, _, Some n, PList l =>
          veces n (fun k => PList (concat (repeat l k)))
      | _, _, _, _ => Raise TypeError
      end
  end.

Definition py_truediv (x y : pyval) : res pyval :=
  match como_numero x, como_numero y with
  | Some a, Some b => let* q := num_truediv a b in Ret (PFloat q)
  | _, _ => Raise TypeError
  end.

(** [y != 0]: defined for every value; only a numeric zero equals [0]. *)
Definition py_ne_cero (y : pyval) : bool :=
  match como_numero y with
  | Some n => negb (num_es_cero n)
  | None => true
  end.

(** [y > 0]: ordering against an int is defined for numbers only. *)
Definition py_gt_cero (y : pyval) : res bool :=
  match como_numero y with
  | Some n => Ret (num_positivo n)
  | None => Raise TypeError
  end.

(** [int(x)] for the values the tools pass to it (always numbers). *)
Definition py_int (x : pyval) : res Z :=
  match como_numero x with
  | Some n => num_int n
  | None => Raise TypeError
  end.

(** [x.lower()] *)
Definition py_lower `{PyRuntime} (x : pyval) : res string :=
  match x with
  | PStr s => Ret (str_lower s)
  | _ => Raise AttributeError
  end.

(** [f"{x}"] *)
Definition py_str `{PyRuntime} (x : pyval) : string :=
  match x with
  | PNone => "None"
  | PBool true => "True"
  | PBool false => "False"
  | PInt z => pretty z
  | PFloat f => repr_float f
  | PStr s => s
  | PList _ | PDict _ => repr_container x
  end.

(** [x in d] for a dict with string keys: list and dict are unhashable. *)
Definition hashable (x : pyval) : bool :=
  match x with
  | PList _ | PDict _ => false
  | _ => true
  end.

End Py.

(* ===================================================================== *)
(** ** tools.py                                                           *)
(* ===================================================================== *)

Module Tools.
Import Py.
Local Open Scope res_scope.

(** What a tool hands back to the loop: a [str], or [None]. *)
Definition texto := option string.

(** The wall clock: [datetime.now().strftime('%Y-%m-%d %H:%M:%S')] read in a
    world [W] that the reading may advance. *)
Class Reloj (W : Type) := ahora : W -> string * W.

(** The catalogue shown to the model.  Of each entry the name and the
    [required] parameter names are kept; descriptions and JSON schemas are
    only forwarded to the provider. *)
Record ToolSpec := { tool_name : string; required : list string }.

Definition TOOLS_DEFINITION : list ToolSpec :=
  [ {| tool_name := "calculadora"; required := ["operacion"; "a"; "b"] |};
    {| tool_name := "obtener_hora"; required := [] |};
    {| tool_name := "consultar_agente_experto";
       required := ["tipo_experto"; "consulta"] |};
    {| tool_name := "calcular_calorias";
       required := ["ingredientes"; "num_porciones"] |} ].

Section Herramientas.
Context `{PyRuntime}.

Definition division_por_cero : string := "Error: división por cero".

Definition operaciones : list (string * (pyval -> pyval -> res pyval)) :=
  [ ("sumar", py_add);
    ("restar", py_sub);
    ("multiplicar", py_mul);
    ("dividir", fun x y =>
       if py_ne_cero y then py_truediv x y else Ret (PStr division_por_cero)) ].

Fixpoint operaciones_get (l : list (string * (pyval -> pyval -> res pyval)))
    (k : string) : option (pyval -> pyval -> res pyval) :=
  match l with
  | [] => None
  | (k', f) :: rest => if String.eqb k' k then Some f else operaciones_get rest k
  end.

Definition no_reconocida (operacion : pyval) : string :=
  "Error: operación '" +:+ py_str operacion +:+ "' no reconocida".

Definition calculadora (operacion a b : pyval) : res string :=
  if negb (hashable operacion) then Raise TypeError
  else
    match operacion with
    | PStr op =>
        match operaciones_get operaciones op with
        | None => Ret (no_reconocida operacion)
        | Some f =>
            let* resultado := f a b in
            Ret ("El resultado de " +:+ py_str a +:+ " " +:+ op +:+ " "
                 +:+ py_str b +:+ " = " +:+ py_str resultado)
        end
    | _ => Ret (no_reconocida operacion)
    end.

Definition obtener_hora {W} `{Reloj W} (w : W) : string * W :=
  let '(t, w') := ahora w in ("Fecha y hora actual: " +:+ t, w').

(** Calories per 100 g, in the order of the dict literal. *)
Definition calorias_por_100g : list (string * Z) :=
  [ ("pollo", 165); ("pechuga de pollo", 165); ("carne", 250);
    ("carne de res", 250); ("cerdo", 242); ("pescado", 120); ("salmon", 208);
    ("atun", 130); ("huevo", 155); ("tofu", 76); ("jamon", 145);
    ("arroz", 130); ("pasta", 131); ("pan", 265); ("papa", 77);
    ("patata", 77); ("quinoa", 120); ("avena", 389); ("tortilla", 218);
    ("harina", 364); ("tomate", 18); ("cebolla", 40); ("ajo", 149);
    ("zanahoria", 41); ("brocoli", 34); ("espinaca", 23); ("lechuga", 15);
    ("pimiento", 31); ("champiñon", 22); ("calabacin", 17); ("berenjena", 25);
    ("leche", 42); ("queso", 402); ("crema", 340); ("yogur", 59);
    ("mantequilla", 717); ("aceite", 884); ("aceite de oliva", 884);
    ("mayonesa", 680); ("frijoles", 347); ("lentejas", 116);
    ("garbanzos", 164); ("manzana", 52); ("platano", 89); ("naranja", 47);
    ("limon", 29); ("azucar", 387); ("sal", 0); ("pimienta", 251);
    ("chocolate", 546) ].

(** [key in nombre or nombre in key] *)
Definition coincide (nombre key : string) : bool :=
  contiene nombre key || contiene key nombre.

(** The inner [for key, cal in ...items()] with its [break]: the first entry
    that matches, [None] when the loop runs to the end. *)
Fixpoint buscar (db : list (string * Z)) (nombre : string) : option Z :=
  match db with
  | [] => None
  | (key, cal) :: rest => if coincide nombre key then Some cal else buscar rest nombre
  end.

(** One pass of the ingredient loop on the accumulators
    [(total_calorias, detalles)]. *)
Definition paso_ingrediente (ing : pyval) (acc : pyval * list string)
  : res (pyval * list string) :=
  let '(total_calorias, detalles) := acc in
  let* n := py_getitem ing "nombre" in
  let* nombre := py_lower n in
  let* gramos := py_getitem ing "cantidad_gramos" in
  match buscar calorias_por_100g nombre with
  | None =>
      let* p := py_mul gramos (PInt 100) in
      let* q := py_truediv p (PInt 100) in
      let* k := py_int q in
      Ret (total_calorias,
           (detalles ++ ["  - " +:+ nombre +:+ ": " +:+ py_str gramos +:+ "g → ~"
                         +:+ pretty k +:+ " kcal (estimado)"])%list)
  | Some calorias_base =>
      let* p := py_mul gramos (PInt calorias_base) in
      let* calorias_ing := py_truediv p (PInt 100) in
      let* total := py_add total_calorias calorias_ing in
      let* k := py_int calorias_ing in
      Ret (total,
           (detalles ++ ["  - " +:+ nombre +:+ ": " +:+ py_str gramos +:+ "g → "
                         +:+ pretty k +:+ " kcal"])%list)
  end.

Fixpoint bucle_ingredientes (ings : list pyval) (acc : pyval * list string)
  : res (pyval * list string) :=
  match ings with
  | [] => Ret acc
  | ing :: rest => let* acc' := paso_ingrediente ing acc in bucle_ingredientes rest acc'
  end.

(** The result text, from the values the f-string interpolates. *)
Definition informe (detalles : list string) (total : Z) (num_porciones : pyval)
    (por_porcion : Z) : string :=
  "📊 ANÁLISIS NUTRICIONAL" +:+ nl
  +:+ repite 40 "=" +:+ nl
  +:+ "Desglose por ingrediente:" +:+ nl
  +:+ join nl detalles +:+ nl
  +:+ nl
  +:+ repite 40 "=" +:+ nl
  +:+ "🔥 Calorías totales: " +:+ pretty total +:+ " kcal" +:+ nl
  +:+ "🍽️  Porciones: " +:+ py_str num_porciones +:+ nl
  +:+ "📍 Calorías por porción: " +:+ pretty por_porcion +:+ " kcal" +:+ nl.

Definition calcular_calorias (ingredientes num_porciones : pyval) : res string :=
  let* ings := py_iter ingredientes in
  let* (total_calorias, detalles) := bucle_ingredientes ings (PInt 0, []) in
  let* positivo := py_gt_cero num_porciones in
  let* calorias_por_porcion :=
    (if positivo : bool then py_truediv total_calorias num_porciones
     else Ret total_calorias) in
  let* t := py_int total_calorias in
  let* p := py_int calorias_por_porcion in
  Ret (informe detalles t num_porciones p).

(** The dispatcher.  The reserved delegation name yields [None]. *)
Definition ejecutar_herramienta {W} `{Reloj W} (nombre : string)
    (argumentos : list (string * pyval)) (w : W) : res texto * W :=
  if String.eqb nombre "calculadora" then
    (let* args := bind_kwargs ["operacion"; "a"; "b"] argumentos in
     match args with
     | [operacion; a; b] => let* r := calculadora operacion a b in Ret (Some r)
     | _ => Raise TypeError
     end, w)
  else if String.eqb nombre "obtener_hora" then
    let '(r, w') := obtener_hora w in (Ret (Some r), w')
  else if String.eqb nombre "calcular_calorias" then
    (let* args := bind_kwargs ["ingredientes"; "num_porciones"] argumentos in
     match args with
     | [ingredientes; num_porciones] =>
         let* r := calcular_calorias ingredientes num_porciones in Ret (Some r)
     | _ => Raise TypeError
     end, w)
  else if String.eqb nombre "consultar_agente_experto" then
    (Ret None, w)
  else
    (Ret (Some ("Error: herramienta '" +:+ nombre +:+ "' no encontrada")), w).

End Herramientas.
End Tools.

(* ===================================================================== *)
(** ** llm_client.py                                                      *)
(* ===================================================================== *)

Module LLM.
Import Py Tools.

Module ToolCall.
Record t := { id : string; name : string; arguments : list (string * pyval) }.
End ToolCall.

(** A provider-native object held by reference ([raw_message: object]); the
    agents never look inside. *)
Record objeto := { oid : N }.

Module LLMResponse.
Record t := {
  content : texto;                 (* Optional[str] *)
  tool_calls : list ToolCall.t;
  raw_message : objeto;
}.
End LLMResponse.

(** An entry of a conversation history: a dict, or the provider's own message
    object echoed back. *)
Inductive Message :=
| MDict (d : list (string * pyval))
| MObject (o : objeto).

Definition de_texto (t : texto) : pyval :=
  match t with
  | Some s => PStr s
  | None => PNone
  end.

(** The dict literal with keys [role] and [content]. *)
Definition mensaje (role : string) (content : pyval) : Message :=
  MDict [("role", PStr role); ("content", content)].

(** The abstract base class.  [W] is the world the provider lives in: a call
    may change it and may raise.  The two encoders are pure in both
    implementations. *)
Class LLMClient (W : Type) := {
  chat : list Message -> option string -> W -> res texto * W;
  chat_with_tools :
    list Message -> list ToolSpec -> option string -> W -> res LLMResponse.t * W;
  create_tool_result_message : string -> texto -> string -> Message;
  create_assistant_message_with_tools : LLMResponse.t -> Message;
}.

(** The two implementations, over the transport to the vendor's API. *)
Section Proveedores.
Context {W : Type}.
Variable transport_chat : list Message -> option string -> W -> res texto * W.
Variable transport_tools :
  list Message -> list ToolSpec -> option string -> W -> res LLMResponse.t * W.

Definition OpenAIClient : LLMClient W := {|
  chat := transport_chat;
  chat_with_tools := transport_tools;
  create_tool_result_message tool_call_id result tool_name :=
    MDict [("role", PStr "tool");
           ("tool_call_id", PStr tool_call_id);
           ("content", de_texto result)];
  create_assistant_message_with_tools response :=
    MObject (LLMResponse.raw_message response);
|}.

Definition GeminiClient : LLMClient W := {|
  chat := transport_chat;
  chat_with_tools := transport_tools;
  create_tool_result_message tool_call_id result tool_name :=
    MDict [("role", PStr "tool");
           ("tool_call_id", PStr tool_call_id);
           ("content", de_texto result);
           ("name", PStr (if String.eqb tool_name "" then "tool" else tool_name))];
  create_assistant_message_with_tools response :=
    MDict [("role", PStr "model_function_call");
           ("function_calls",
            PList (map (fun tc =>
                          PDict [("name", PStr (ToolCall.name tc));
                                 ("args", PDict (ToolCall.arguments tc))])
                       (LLMResponse.tool_calls response)))];
|}.

End Proveedores.
End LLM.

(* ===================================================================== *)
(** ** agents.py                                                          *)
(* ===================================================================== *)

Module Agents.
Import Py Tools LLM.

(** *** Running a method: mutable state, exceptions, and fuel *)

(** How a call that may loop ends.  [OutOfFuel] is not a Python outcome: it
    marks a [while True] cut short by the bound of the model. *)
Inductive outcome (A : Type) :=
| Returned (a : A)
| Raised (e : exn)
| OutOfFuel.
Arguments Returned {A} a.
Arguments Raised {A} e.
Arguments OutOfFuel {A}.

(** A method over the mutable state [S].  The state that comes back is the one
    reached when the call ended, also when it ended by raising: what was
    appended before the exception stays appended. *)
Definition M (S A : Type) : Type := S -> outcome A * S.

Definition ret {S A} (a : A) : M S A := fun s => (Returned a, s).

Definition bind {S A B} (m : M S A) (k : A -> M S B) : M S B :=
  fun s =>
    match m s with
    | (Returned a, s') => k a s'
    | (Raised e, s') => (Raised e, s')
    | (OutOfFuel, s') => (OutOfFuel, s')
    end.

Declare Scope metodo_scope.
Delimit Scope metodo_scope with metodo.
Notation "'let!' x ':=' m 'in' k" := (bind m (fun x => k))
  (at level 10, x pattern, m at level 100, k at level 200) : metodo_scope.
Local Open Scope metodo_scope.

Definition raise {S A} (e : exn) : M S A := fun s => (Raised e, s).
Definition agotado {S A} : M S A := fun s => (OutOfFuel, s).

(** A call without loops. *)
Definition puro {S A} (r : res A) : M S A :=
  match r with
  | Ret a => ret a
  | Raise e => raise e
  end.

(** The state of a method of an object [X]: the object and the world. *)
Definition self {X W} : M (X * W) X := fun s => (Returned (fst s), s).

Definition mutar {X W} (f : X -> X) : M (X * W) unit :=
  fun s => (Returned tt, (f (fst s), snd s)).

(** A call that only touches the world (the provider, the clock). *)
Definition en_mundo {X W A} (f : W -> res A * W) : M (X * W) A :=
  fun s =>
    let '(r, w') := f (snd s) in
    (match r with Ret a => Returned a | Raise e => Raised e end, (fst s, w')).

(** *** AgenteBase and AgenteConHerramientas *)

Inductive Clase := ClaseBase | ClaseConHerramientas.

(** The attributes of an [AgenteBase] or of a subclass instance.  [tools]
    exists only from [AgenteConHerramientas] down; on a plain [AgenteBase] it
    is kept empty and never read. *)
Module Agente.
Record t := {
  clase : Clase;
  system_prompt : string;
  model : option string;
  messages : list Message;
  tools : list ToolSpec;
}.

Definition con_messages (a : t) (ms : list Message) : t :=
  {| clase := clase a; system_prompt := system_prompt a; model := model a;
     messages := ms; tools := tools a |}.

(** [self.messages.append(m)] *)
Definition append (m : Message) (a : t) : t :=
  con_messages a (messages a ++ [m])%list.
End Agente.

Module AgenteBase.
Section Metodos.
Context {W : Type} `{LLMClient W}.

Definition init (system_prompt : string) (model : option string) : Agente.t :=
  {| Agente.clase := ClaseBase;
     Agente.system_prompt := system_prompt;
     Agente.model := model;
     Agente.messages := [mensaje "system" (PStr system_prompt)];
     Agente.tools := [] |}.

Definition nueva_conversacion (a : Agente.t) : Agente.t :=
  Agente.con_messages a [mensaje "system" (PStr (Agente.system_prompt a))].

Definition pensar (msg : pyval) : M (Agente.t * W) texto :=
  let! _ := mutar (Agente.append (mensaje "user" msg)) in
  let! a := self in
  let! respuesta := en_mundo (chat (Agente.messages a) (Agente.model a)) in
  let! _ := mutar (Agente.append (mensaje "assistant" (de_texto respuesta))) in
  ret respuesta.

End Metodos.
End AgenteBase.

Module AgenteConHerramientas.
Section Metodos.
Context {W : Type} `{PyRuntime} `{Reloj W} `{LLMClient W}.

Definition init (system_prompt : string) (tools : option (list ToolSpec))
    (model : option string) : Agente.t :=
  {| Agente.clase := ClaseConHerramientas;
     Agente.system_prompt := system_prompt;
     Agente.model := model;
     Agente.messages := [mensaje "system" (PStr system_prompt)];
     Agente.tools := match tools with Some l => l | None => [] end |}.

(** The body of [for tool_call in response.tool_calls].  With [verbose] the
    preview [resultado[:80]] is evaluated, which raises on [None]. *)
Fixpoint ejecutar_llamadas (verbose : bool) (calls : list ToolCall.t)
  : M (Agente.t * W) unit :=
  match calls with
  | [] => ret tt
  | tool_call :: rest =>
      let! resultado :=
        en_mundo (ejecutar_herramienta (ToolCall.name tool_call)
                                       (ToolCall.arguments tool_call)) in
      let! _ := (if verbose then
                   match resultado with
                   | Some _ => ret tt
                   | None => raise TypeError
                   end
                 else ret tt) in
      let! _ := mutar (Agente.append
                         (create_tool_result_message (ToolCall.id tool_call)
                            resultado (ToolCall.name tool_call))) in
      ejecutar_llamadas verbose rest
  end.

(** [while True], bounded by [fuel] iterations. *)
Fixpoint bucle (fuel : nat) (verbose : bool) : M (Agente.t * W) texto :=
  match fuel with
  | O => agotado
  | S fuel' =>
      let! a := self in
      let! response :=
        en_mundo (chat_with_tools (Agente.messages a) (Agente.tools a)
                                  (Agente.model a)) in
      match LLMResponse.tool_calls response with
      | _ :: _ =>
          let! _ := mutar (Agente.append
                             (create_assistant_message_with_tools response)) in
          let! _ := ejecutar_llamadas verbose (LLMResponse.tool_calls response) in
          bucle fuel' verbose
      | [] =>
          let! _ := mutar (Agente.append
                             (mensaje "assistant"
                                (de_texto (LLMResponse.content response)))) in
          ret (LLMResponse.content response)
      end
  end.

Definition pensar (fuel : nat) (msg : pyval) (verbose : bool)
  : M (Agente.t * W) texto :=
  let! _ := mutar (Agente.append (mensaje "user" msg)) in
  let! a := self in
  match Agente.tools a with
  | [] =>
      let! respuesta := en_mundo (chat (Agente.messages a) (Agente.model a)) in
      let! _ := mutar (Agente.append (mensaje "assistant" (de_texto respuesta))) in
      ret respuesta
  | _ :: _ => bucle fuel verbose
  end.

End Metodos.
End AgenteConHerramientas.

(** Method resolution: the class of the object picks [pensar].  The caller's
    [verbose] reaches only the tool-using class. *)
Definition pensar_de {W : Type} `{PyRuntime} `{Reloj W} `{LLMClient W}
    (fuel : nat) (a : Agente.t) (msg : pyval) (verbose : bool)
  : M (Agente.t * W) texto :=
  match Agente.clase a with
  | ClaseConHerramientas => AgenteConHerramientas.pensar fuel msg verbose
  | ClaseBase => AgenteBase.pensar msg
  end.

(** *** The experts *)

Definition PROMPT_MATEMATICAS : string :=
  "Eres un experto en matemáticas. Tu trabajo es:
- Resolver problemas matemáticos paso a paso
- Explicar conceptos de forma clara
- Mostrar el razonamiento detrás de cada paso

Responde de forma concisa pero completa.".

Definition ExpertoMatematicas : Agente.t :=
  AgenteBase.init PROMPT_MATEMATICAS None.

Definition PROMPT_ESCRITURA : string :=
  "Eres un experto en escritura y redacción. Tu trabajo es:
- Ayudar a redactar textos claros y efectivos
- Corregir y mejorar la gramática
- Sugerir mejores formas de expresar ideas

Responde de forma concisa pero completa.".

Definition ExpertoEscritura : Agente.t :=
  AgenteBase.init PROMPT_ESCRITURA None.

Definition PROMPT_CODIGO : string :=
  "Eres un experto en programación. Tu trabajo es:
- Escribir código limpio y bien documentado
- Explicar conceptos de programación
- Ayudar a debuggear problemas

Responde de forma concisa. Usa ejemplos de código cuando sea útil.".

Definition ExpertoCodigo : Agente.t :=
  AgenteBase.init PROMPT_CODIGO None.

Definition TOOLS_COCINERO : list ToolSpec :=
  [ {| tool_name := "calcular_calorias";
       required := ["ingredientes"; "num_porciones"] |} ].

Definition PROMPT_COCINERO : string :=
  "Eres un chef experto y amigable. Tu trabajo es ayudar a crear recetas personalizadas.

FLUJO DE CONVERSACIÓN - Sigue estos pasos EN ORDEN:

PASO 1: Cuando el usuario pida una receta, PRIMERO pregunta:
   "
  +:+ comillas +:+ "🍽️ ¡Genial! Para preparar la mejor receta, necesito saber:
    - ¿Para cuántas personas será?"
  +:+ comillas +:+ "

PASO 2: Después de saber las porciones, pregunta:
   "
  +:+ comillas +:+ "¿Qué tipo de cocina prefieres? (italiana, mexicana, asiática, casera, etc.)"
  +:+ comillas +:+ "

PASO 3: Con esa información, presenta la receta completa con:
   - Nombre del plato
   - Ingredientes con cantidades en gramos (esto es IMPORTANTE para calcular calorías)
   - Pasos de preparación numerados
   - Tiempo estimado de preparación

   Luego indica: "
  +:+ comillas +:+ "📊 Voy a calcular las calorías de esta receta..."
  +:+ comillas +:+ "
   Y usa la herramienta calcular_calorias con los ingredientes.

PASO 4: Después de mostrar las calorías, pregunta:
   "
  +:+ comillas +:+ "⚠️ ¿Algún comensal tiene alergias alimentarias o restricciones dietéticas?
    (gluten, lactosa, frutos secos, mariscos, vegetariano, vegano, etc.)"
  +:+ comillas +:+ "

PASO 5: Si hay alergias/restricciones:
   - Modifica la receta sustituyendo ingredientes problemáticos
   - Presenta la nueva versión adaptada
   - Recalcula las calorías con calcular_calorias

Si NO hay alergias, responde: "
  +:+ comillas +:+ "¡Perfecto! Tu receta está lista. ¡Buen provecho! 👨‍🍳"
  +:+ comillas +:+ "

REGLAS IMPORTANTES:
- Sé cálido y entusiasta, usa emojis relacionados con comida
- Siempre especifica cantidades en GRAMOS para poder calcular calorías
- No saltes pasos, sigue el flujo en orden
- Si el usuario da toda la información de una vez, adapta el flujo
- Para las calorías, SIEMPRE usa la herramienta calcular_calorias".

Definition ExpertoCocinero : Agente.t :=
  AgenteConHerramientas.init PROMPT_COCINERO (Some TOOLS_COCINERO) None.

(** *** AgenteOrquestador *)

Definition PROMPT_ORQUESTADOR : string :=
  "Eres un asistente inteligente que orquesta tareas.

Tu trabajo es:
1. Analizar lo que el usuario necesita
2. Decidir si puedes responder directamente o necesitas usar herramientas
3. Para cálculos simples, usa la calculadora
4. Para preguntas sobre fecha/hora, usa obtener_hora
5. Para calcular calorías de recetas, usa calcular_calorias
6. Para tareas complejas que requieren expertise, consulta a un agente experto:
   - matematicas: problemas matemáticos y lógica
   - escritura: redacción y gramática
   - codigo: programación y debugging
   - cocina: recetas, nutrición y consejos culinarios

IMPORTANTE:
- Usa las herramientas disponibles cuando sea apropiado
- No inventes información, usa las herramientas para obtenerla
- Para recetas y comida, SIEMPRE delega al experto de cocina
- Sé conciso en tus respuestas".

Module AgenteOrquestador.

Record t := {
  model : option string;
  system_prompt : string;
  expertos : gmap string Agente.t;
  messages : list Message;
}.

Definition con_messages (o : t) (ms : list Message) : t :=
  {| model := model o; system_prompt := system_prompt o;
     expertos := expertos o; messages := ms |}.

Definition con_expertos (o : t) (es : gmap string Agente.t) : t :=
  {| model := model o; system_prompt := system_prompt o;
     expertos := es; messages := messages o |}.

Definition append (m : Message) (o : t) : t := con_messages o (messages o ++ [m])%list.

Definition init (model : option string) : t :=
  {| model := model;
     system_prompt := PROMPT_ORQUESTADOR;
     expertos := <["matematicas" := ExpertoMatematicas]>
                 (<["escritura" := ExpertoEscritura]>
                 (<["codigo" := ExpertoCodigo]>
                 (<["cocina" := ExpertoCocinero]> ∅)));
     messages := [mensaje "system" (PStr PROMPT_ORQUESTADOR)] |}.

Definition nueva_conversacion (o : t) : t :=
  con_messages o [mensaje "system" (PStr (system_prompt o))].

Section Metodos.
Context {W : Type} `{PyRuntime} `{Reloj W} `{LLMClient W}.

(** A method call on the expert stored under [k]: the expert object is
    changed in place, so the dict holds the changed object afterwards,
    however the call ends. *)
Definition en_experto {A} (k : string) (experto : Agente.t)
    (m : M (Agente.t * W) A) : M (t * W) A :=
  fun s =>
    let '(r, (experto', w')) := m (experto, snd s) in
    (r, (con_expertos (fst s) (<[k := experto']> (expertos (fst s))), w')).

(** [self.expertos] looked up with an arbitrary value: only a string can be
    one of its keys. *)
Definition expertos_get (o : t) (tipo_experto : pyval) : option (string * Agente.t) :=
  match tipo_experto with
  | PStr k => match expertos o !! k with
              | Some experto => Some (k, experto)
              | None => None
              end
  | _ => None
  end.

Definition _consultar_experto (fuel : nat) (tipo_experto consulta : pyval)
    (verbose : bool) : M (t * W) texto :=
  if negb (hashable tipo_experto) then raise TypeError
  else
    let! o := self in
    match expertos_get o tipo_experto with
    | None =>
        ret (Some ("Error: no existe el experto '" +:+ py_str tipo_experto +:+ "'"))
    | Some (k, experto) =>
        let! respuesta := en_experto k experto
                            (pensar_de fuel experto consulta verbose) in
        ret respuesta
    end.

(** The body of [for tool_call in response.tool_calls]. *)
Fixpoint ejecutar_llamadas (fuel : nat) (verbose : bool) (calls : list ToolCall.t)
  : M (t * W) unit :=
  match calls with
  | [] => ret tt
  | tool_call :: rest =>
      let nombre_herramienta := ToolCall.name tool_call in
      let argumentos := ToolCall.arguments tool_call in
      let! resultado :=
        (if String.eqb nombre_herramienta "consultar_agente_experto" then
           let! tipo_experto := puro (py_getitem (PDict argumentos) "tipo_experto") in
           let! consulta := puro (py_getitem (PDict argumentos) "consulta") in
           _consultar_experto fuel tipo_experto consulta verbose
         else
           en_mundo (ejecutar_herramienta nombre_herramienta argumentos)) in
      let! _ := mutar (append
                         (create_tool_result_message (ToolCall.id tool_call)
                            resultado nombre_herramienta)) in
      ejecutar_llamadas fuel verbose rest
  end.

(** [while True], bounded by [fuel] iterations; [fuel_expertos] bounds the
    loop of an expert consulted on the way. *)
Fixpoint bucle (fuel_expertos fuel : nat) (verbose : bool) : M (t * W) texto :=
  match fuel with
  | O => agotado
  | S fuel' =>
      let! o := self in
      let! response :=
        en_mundo (chat_with_tools (messages o) TOOLS_DEFINITION (model o)) in
      match LLMResponse.tool_calls response with
      | _ :: _ =>
          let! _ := mutar (append (create_assistant_message_with_tools response)) in
          let! _ := ejecutar_llamadas fuel_expertos verbose
                      (LLMResponse.tool_calls response) in
          bucle fuel_expertos fuel' verbose
      | [] =>
          let respuesta_final := LLMResponse.content response in
          let! _ := mutar (append (mensaje "assistant" (de_texto respuesta_final))) in
          ret respuesta_final
      end
  end.

Definition procesar (fuel : nat) (mensaje_usuario : string) (verbose : bool)
  : M (t * W) texto :=
  let! _ := mutar (append (mensaje "user" (PStr mensaje_usuario))) in
  bucle fuel fuel verbose.

End Metodos.
End AgenteOrquestador.

End Agents.

(* ===================================================================== *)
(** ** A scripted provider                                                *)
(* ===================================================================== *)

(** The test double the loop properties are stated against: a client that
    answers from two queues and logs every call it receives, with a clock
    that stands still.  An exhausted queue makes the call raise. *)
Module Stub.
Import Py Tools LLM.

Inductive llamada :=
| Chat (messages : list Message) (model : option string)
| ChatWithTools (messages : list Message) (tools : list ToolSpec)
                (model : option string).

Record mundo := {
  respuestas_tools : list LLMResponse.t;   (* answers of chat_with_tools *)
  respuestas_chat : list texto;            (* answers of chat *)
  hora : string;
  llamadas : list llamada;                 (* oldest first *)
}.

Definition stub_chat (messages : list Message) (model : option string)
    (w : mundo) : res texto * mundo :=
  let log := (llamadas w ++ [Chat messages model])%list in
  match respuestas_chat w with
  | [] =>
      (Raise ProviderError,
       {| respuestas_tools := respuestas_tools w; respuestas_chat := [];
          hora := hora w; llamadas := log |})
  | r :: rest =>
      (Ret r,
       {| respuestas_tools := respuestas_tools w; respuestas_chat := rest;
          hora := hora w; llamadas := log |})
  end.

Definition stub_chat_with_tools (messages : list Message) (tools : list ToolSpec)
    (model : option string) (w : mundo) : res LLMResponse.t * mundo :=
  let log := (llamadas w ++ [ChatWithTools messages tools model])%list in
  match respuestas_tools w with
  | [] =>
      (Raise ProviderError,
       {| respuestas_tools := []; respuestas_chat := respuestas_chat w;
          hora := hora w; llamadas := log |})
  | r :: rest =>
      (Ret r,
       {| respuestas_tools := rest; respuestas_chat := respuestas_chat w;
          hora := hora w; llamadas := log |})
  end.

#[global] Instance reloj : Reloj mundo := fun w => (hora w, w).

(** The stub speaking either provider's message dialect. *)
Definition openai : LLMClient mundo := OpenAIClient stub_chat stub_chat_with_tools.
Definition gemini : LLMClient mundo := GeminiClient stub_chat stub_chat_with_tools.

(** A stub client is any client whose two calls are the scripted ones. *)
Class Guionizado (c : LLMClient mundo) : Prop := {
  chat_guion : forall ms m w, @chat _ c ms m w = stub_chat ms m w;
  chat_with_tools_guion :
    forall ms ts m w, @chat_with_tools _ c ms ts m w = stub_chat_with_tools ms ts m w;
}.

#[global] Instance openai_guionizado : Guionizado openai.
Proof. split; reflexivity. Qed.

#[global] Instance gemini_guionizado : Guionizado gemini.
Proof. split; reflexivity. Qed.


(** A runtime for closed examples.  Lower-casing is exact on ASCII text; the
    [repr] of floats and containers is not rendered (an example that formats
    one shows the marker instead). *)
Definition ascii_lower (c : ascii) : ascii :=
  let n := nat_of_ascii c in
  if ((65 <=? n) && (n <=? 90))%nat then ascii_of_nat (n + 32) else c.

Fixpoint lower (s : string) : string :=
  match s with
  | EmptyString => EmptyString
  | String c s' => String (ascii_lower c) (lower s')
  end.

Definition runtime : PyRuntime := {|
  str_lower := lower;
  repr_float := fun _ => "<float>";
  repr_container := fun _ => "<container>";
|}.

Definition guion (tools : list LLMResponse.t) (chats : list texto) : mundo :=
  {| respuestas_tools := tools; respuestas_chat := chats;
     hora := "2024-01-01 12:00:00"; llamadas := [] |}.

(** Shorthands for scripted answers. *)
Definition final (content : string) : LLMResponse.t :=
  {| LLMResponse.content := Some content; LLMResponse.tool_calls := [];
     LLMResponse.raw_message := {| oid := 0 |} |}.

Definition pide (content : texto) (calls : list ToolCall.t) : LLMResponse.t :=
  {| LLMResponse.content := content; LLMResponse.tool_calls := calls;
     LLMResponse.raw_message := {| oid := 0 |} |}.

Definition llamar (id name : string) (arguments : list (string * pyval))
  : ToolCall.t :=
  {| ToolCall.id := id; ToolCall.name := name; ToolCall.arguments := arguments |}.

End Stub.

(* ===================================================================== *)
(** ** The vocabulary of the properties                                   *)
(* ===================================================================== *)

Module Propiedades.
Import Py Tools LLM Agents.

(** What a caller can do with an agent between construction and disposal. *)
Inductive op_agente :=
| Pensar (fuel : nat) (msg : pyval) (verbose : bool)
| NuevaConversacion.

Inductive op_orquestador :=
| Procesar (fuel : nat) (mensaje_usuario : string) (verbose : bool)
| Reiniciar.

Section Sesiones.
Context {W : Type} `{PyRuntime} `{Reloj W} `{LLMClient W}.

(** One call; its result is dropped, as is an exception it ends with (the
    REPL of [main.py] catches it and goes on with the same object). *)
Definition paso_agente (s : Agente.t * W) (op : op_agente) : Agente.t * W :=
  match op with
  | Pensar fuel msg verbose => snd (pensar_de fuel (fst s) msg verbose s)
  | NuevaConversacion => (AgenteBase.nueva_conversacion (fst s), snd s)
  end.

Definition paso_orquestador (s : AgenteOrquestador.t * W) (op : op_orquestador)
  : AgenteOrquestador.t * W :=
  match op with
  | Procesar fuel msg verbose => snd (AgenteOrquestador.procesar fuel msg verbose s)
  | Reiniciar => (AgenteOrquestador.nueva_conversacion (fst s), snd s)
  end.

Definition sesion_agente (ops : list op_agente) (s : Agente.t * W) : Agente.t * W :=
  fold_left paso_agente ops s.

Definition sesion_orquestador (ops : list op_orquestador)
    (s : AgenteOrquestador.t * W) : AgenteOrquestador.t * W :=
  fold_left paso_orquestador ops s.



End Sesiones.

(** An agent object later in its life: same class, prompt, model and tools,
    and a history that only grew. *)
Definition crece (a a' : Agente.t) : Prop :=
  Agente.clase a' = Agente.clase a /\
  Agente.system_prompt a' = Agente.system_prompt a /\
  Agente.model a' = Agente.model a /\
  Agente.tools a' = Agente.tools a /\
  Agente.messages a `prefix_of` Agente.messages a'.

(** The same for the orchestrator and the experts it holds. *)
Definition crece_orquestador (o o' : AgenteOrquestador.t) : Prop :=
  AgenteOrquestador.system_prompt o' = AgenteOrquestador.system_prompt o /\
  AgenteOrquestador.model o' = AgenteOrquestador.model o /\
  AgenteOrquestador.messages o `prefix_of` AgenteOrquestador.messages o' /\
  forall k, match AgenteOrquestador.expertos o !! k,
                  AgenteOrquestador.expertos o' !! k with
            | Some e, Some e' => crece e e'
            | None, None => True
            | _, _ => False
            end.


(** The history opens with the system message of prompt [sp]. *)
Definition encabezado (sp : string) (ms : list Message) : Prop :=
  hd_error ms = Some (mensaje "system" (PStr sp)).

Definition inv_agente (sp : string) (a : Agente.t) : Prop :=
  Agente.system_prompt a = sp /\ encabezado sp (Agente.messages a).

Definition inv_orquestador (sp : string) (o : AgenteOrquestador.t) : Prop :=
  AgenteOrquestador.system_prompt o = sp /\
  encabezado sp (AgenteOrquestador.messages o) /\
  forall k e, AgenteOrquestador.expertos o !! k = Some e ->
              inv_agente (Agente.system_prompt e) e.


(** The names the dispatcher has a branch for. *)
Definition NOMBRES_RECONOCIDOS : list string :=
  ["calculadora"; "obtener_hora"; "calcular_calorias"; "consultar_agente_experto"].

(** An evaluation that does not end in [ZeroDivisionError]. *)
Definition sin_zde {A} (r : res A) : Prop := r <> Raise ZeroDivisionError.

Section Ingredientes.
Context `{PyRuntime}.




End Ingredientes.

Section ConGuion.
Import Stub.
Context `{PyRuntime}.





End ConGuion.

End Propiedades.

(** Tool calls, scripts and inputs for the worked runs. *)
Module Ejemplos.
Import Py Tools LLM Agents Stub.

Definition suma_2_3 : ToolCall.t :=
  llamar "call_1" "calculadora"
    [("operacion", PStr "sumar"); ("a", PInt 2); ("b", PInt 3)].

Definition traducir : ToolCall.t := llamar "call_2" "traducir" [("texto", PStr "hola")].



Definition delegar (tipo_experto consulta : string) : ToolCall.t :=
  llamar "call_1" "consultar_agente_experto"
    [("tipo_experto", PStr tipo_experto); ("consulta", PStr consulta)].

(** The scenario of the spec: the model asks for the sum, then answers. *)
Definition guion_suma : mundo := guion [pide None [suma_2_3]; final "Result: 5"] [].

(** The model delegates to the cook, whose own loop takes the next answer. *)
Definition guion_cocina : mundo :=
  guion [pide None [delegar "cocina" "pasta"]; final "receta"; final "listo"] [].

Definition pollo_y_otro : pyval :=
  PList [PDict [("nombre", PStr "Pollo"); ("cantidad_gramos", PInt 200)];
         PDict [("nombre", PStr "xyz"); ("cantidad_gramos", PInt 150)]].

End Ejemplos.

(* ===================================================================== *)
(** ** llm_client.py: the Gemini client below its interface               *)
(* ===================================================================== *)

(** [GeminiClient] between the history it is given and the SDK call, and
    between the SDK's response and the [LLMResponse] it hands back.  The
    SDK itself stays outside: [Part] and [Content] record which constructor
    of [google.genai.types] is called with which arguments, and
    [generate_content] is the call on the vendor's API. *)
Module Gemini.
Import Py Tools LLM.
Local Open Scope res_scope.

Inductive Part :=
| from_text (text : pyval)
| from_function_response (name : pyval) (response : list (string * pyval))
| from_function_call (name : pyval) (args : pyval).

Record Content := { role : string; parts : list Part }.

(** [if v:] *)
Definition py_bool (v : pyval) : bool :=
  match v with
  | PNone => false
  | PBool b => b
  | PInt z => negb (z =? 0)
  | PFloat f => negb (PrimFloat.eqb f PrimFloat.zero)
  | PStr s => negb (String.eqb s "")
  | PList l => match l with [] => false | _ :: _ => true end
  | PDict d => match d with [] => false | _ :: _ => true end
  end.

(** [role == s] for a string literal [s]. *)
Definition rol_es (role : pyval) (s : string) : bool :=
  match role with
  | PStr r => String.eqb r s
  | _ => false
  end.

(** [d.get(k, v)] *)
Definition dict_get_or (d : list (string * pyval)) (k : string) (v : pyval) : pyval :=
  match dict_get d k with
  | Some x => x
  | None => v
  end.

(** The inner [for fc in msg.get("function_calls", [])]. *)
Fixpoint partes_de_llamadas (fcs : list pyval) : res (list Part) :=
  match fcs with
  | [] => Ret []
  | fc :: rest =>
      let* name := py_getitem fc "name" in
      let* args := py_getitem fc "args" in
      let* ps := partes_de_llamadas rest in
      Ret (from_function_call name args :: ps)
  end.

(** One pass of [for msg in messages] on [(system_instruction, contents)].
    A message that is not a dict cannot be subscripted. *)
Definition paso_contents (msg : Message) (acc : pyval * list Content)
  : res (pyval * list Content) :=
  let '(system_instruction, contents) := acc in
  match msg with
  | MObject _ => Raise TypeError
  | MDict d =>
      let* role := py_getitem (PDict d) "role" in
      let content := dict_get_or d "content" (PStr "") in
      if rol_es role "system" then Ret (content, contents)
      else if rol_es role "user" then
        Ret (system_instruction,
             (contents ++ [{| role := "user"; parts := [from_text content] |}])%list)
      else if rol_es role "assistant" || rol_es role "model" then
        if py_bool content then
          Ret (system_instruction,
               (contents ++ [{| role := "model"; parts := [from_text content] |}])%list)
        else Ret (system_instruction, contents)
      else if rol_es role "tool" then
        Ret (system_instruction,
             (contents ++
              [{| role := "user";
                  parts := [from_function_response (dict_get_or d "name" (PStr "tool"))
                              [("result", content)]] |}])%list)
      else if rol_es role "model_function_call" then
        let* fcs := py_iter (dict_get_or d "function_calls" (PList [])) in
        let* ps := partes_de_llamadas fcs in
        Ret (system_instruction, (contents ++ [{| role := "model"; parts := ps |}])%list)
      else Ret (system_instruction, contents)
  end.

Fixpoint bucle_contents (messages : list Message) (acc : pyval * list Content)
  : res (pyval * list Content) :=
  match messages with
  | [] => Ret acc
  | msg :: rest => let* acc' := paso_contents msg acc in bucle_contents rest acc'
  end.

Definition _build_contents (messages : list Message) : res (pyval * list Content) :=
  bucle_contents messages (PNone, []).

(** *** The response of [generate_content] *)

Record FunctionCall := {
  fc_name : string;
  fc_args : option (list (string * pyval));     (* [None] or a mapping *)
}.

Record ResponsePart := {
  function_call : option FunctionCall;
  text : option string;
}.

Record ResponseContent := { rparts : option (list ResponsePart) }.

Record Candidate := { content : option ResponseContent }.

Record Response := {
  candidates : option (list Candidate);
  response_text : texto;                          (* [response.text] *)
  referencia : objeto;                            (* the object itself *)
}.

(** [f"gemini_call_{n}"] *)
Definition gemini_call (n : nat) : string := "gemini_call_" +:+ pretty n.

(** [dict(fc.args) if fc.args else {}] *)
Definition argumentos_de (fc : FunctionCall) : list (string * pyval) :=
  match fc_args fc with
  | Some (kv :: d) => kv :: d
  | _ => []
  end.

(** One pass of [for part in ...parts] on
    [(self._tool_call_counter, tool_calls, content)]. *)
Definition paso_parte (part : ResponsePart) (acc : nat * list ToolCall.t * texto)
  : nat * list ToolCall.t * texto :=
  let '(counter, tool_calls, content) := acc in
  match function_call part with
  | Some fc =>
      (S counter,
       (tool_calls ++ [{| ToolCall.id := gemini_call (S counter);
                          ToolCall.name := fc_name fc;
                          ToolCall.arguments := argumentos_de fc |}])%list,
       content)
  | None =>
      match text part with
      | Some (String c s) => (counter, tool_calls, Some (String c s))
      | _ => (counter, tool_calls, content)
      end
  end.

(** What [chat_with_tools] does with the response: the [LLMResponse] and the
    counter afterwards. *)
Definition procesar_respuesta (counter : nat) (response : Response)
  : res (LLMResponse.t * nat) :=
  let fin (acc : nat * list ToolCall.t * texto) :=
    let '(counter', tool_calls, content) := acc in
    ({| LLMResponse.content := content;
        LLMResponse.tool_calls := tool_calls;
        LLMResponse.raw_message := referencia response |}, counter') in
  match candidates response with
  | Some (c :: _) =>
      match content c with
      | Some rc =>
          match rparts rc with
          | Some ps => Ret (fin (fold_left (fun acc p => paso_parte p acc) ps
                                           (counter, [], None)))
          | None => Raise TypeError
          end
      | None => Ret (fin (counter, [], None))
      end
  | _ => Ret (fin (counter, [], None))
  end.

(** *** The two calls *)

Definition default_model : string := "gemini-2.5-flash".

(** [model or self.default_model] *)
Definition model_name (model : option string) : string :=
  match model with
  | Some (String c s) => String c s
  | _ => default_model
  end.

(** [GenerateContentConfig]; [tools] is absent in [chat]. *)
Record Config := {
  system_instruction : pyval;
  config_tools : option (list ToolSpec);
}.

Section Llamadas.
Context {W : Type}.
Variable generate_content :
  string -> list Content -> option Config -> W -> res Response * W.

(** The client's own state is the counter, beside the world of the API. *)
Definition chat (messages : list Message) (model : option string)
    (s : W * nat) : res texto * (W * nat) :=
  match _build_contents messages with
  | Raise e => (Raise e, s)
  | Ret (si, contents) =>
      let config := if py_bool si
                    then Some {| system_instruction := si; config_tools := None |}
                    else None in
      let '(r, w') := generate_content (model_name model) contents config (fst s) in
      (let* response := r in Ret (response_text response), (w', snd s))
  end.

(** The declarations built from [tools] go to the API unread; the catalogue
    itself stands for them here. *)
Definition chat_with_tools (messages : list Message) (tools : list ToolSpec)
    (model : option string) (s : W * nat) : res LLMResponse.t * (W * nat) :=
  match _build_contents messages with
  | Raise e => (Raise e, s)
  | Ret (si, contents) =>
      let config := Some {| system_instruction := si; config_tools := Some tools |} in
      let '(r, w') := generate_content (model_name model) contents config (fst s) in
      match r with
      | Raise e => (Raise e, (w', snd s))
      | Ret response =>
          match procesar_respuesta (snd s) response with
          | Raise e => (Raise e, (w', snd s))
          | Ret (resp, counter') => (Ret resp, (w', counter'))
          end
      end
  end.

(** The whole client: these two calls with the encoders of [GeminiClient]. *)
Definition cliente : LLMClient (W * nat) := GeminiClient chat chat_with_tools.

End Llamadas.
End Gemini.

(* ===================================================================== *)
(** ** tools.py: the catalogue as the provider receives it                *)
(* ===================================================================== *)

(** [TOOLS_DEFINITION] in full, as the list of dicts of the source, and what
    [GeminiClient._convert_tools_to_gemini] makes of such a list. *)
Module Catalogo.
Import Py Tools LLM.
Local Open Scope res_scope.

Definition TOOLS_DEFINITION_JSON : list pyval :=
  [ PDict
      [("type", PStr "function");
       ("function", PDict
          [("name", PStr "calculadora");
           ("description",
            PStr "Realiza operaciones matemáticas básicas. Usa esta herramienta cuando el usuario pida calcular algo.");
           ("parameters", PDict
              [("type", PStr "object");
               ("properties", PDict
                  [("operacion", PDict
                      [("type", PStr "string");
                       ("enum",
                        PList [PStr "sumar"; PStr "restar"; PStr "multiplicar"; PStr "dividir"]);
                       ("description", PStr "La operación matemática a realizar")]);
                   ("a", PDict
                      [("type", PStr "number");
                       ("description", PStr "Primer número")]);
                   ("b", PDict
                      [("type", PStr "number");
                       ("description", PStr "Segundo número")])]);
               ("required", PList [PStr "operacion"; PStr "a"; PStr "b"])])])];
    PDict
      [("type", PStr "function");
       ("function", PDict
          [("name", PStr "obtener_hora");
           ("description",
            PStr "Obtiene la fecha y hora actual. Usa esta herramienta cuando pregunten qué hora es o qué día es.");
           ("parameters", PDict
              [("type", PStr "object");
               ("properties", PDict []);
               ("required", PList [])])])];
    PDict
      [("type", PStr "function");
       ("function", PDict
          [("name", PStr "consultar_agente_experto");
           ("description",
            PStr "Consulta a un agente especializado para tareas complejas. Úsalo cuando necesites ayuda experta en un tema específico.");
           ("parameters", PDict
              [("type", PStr "object");
               ("properties", PDict
                  [("tipo_experto", PDict
                      [("type", PStr "string");
                       ("enum",
                        PList [PStr "matematicas"; PStr "escritura"; PStr "codigo"; PStr "cocina"]);
                       ("description",
                        PStr "Tipo de experto a consultar: matematicas, escritura, codigo, cocina")]);
                   ("consulta", PDict
                      [("type", PStr "string");
                       ("description", PStr "La pregunta o tarea para el experto")])]);
               ("required", PList [PStr "tipo_experto"; PStr "consulta"])])])];
    PDict
      [("type", PStr "function");
       ("function", PDict
          [("name", PStr "calcular_calorias");
           ("description",
            PStr "Calcula las calorías aproximadas de una receta o lista de ingredientes. Usa esta herramienta para dar información nutricional.");
           ("parameters", PDict
              [("type", PStr "object");
               ("properties", PDict
                  [("ingredientes", PDict
                      [("type", PStr "array");
                       ("items", PDict
                          [("type", PStr "object");
                           ("properties", PDict
                              [("nombre", PDict
                                  [("type", PStr "string");
                                   ("description", PStr "Nombre del ingrediente")]);
                               ("cantidad_gramos", PDict
                                  [("type", PStr "number");
                                   ("description", PStr "Cantidad en gramos")])]);
                           ("required", PList [PStr "nombre"; PStr "cantidad_gramos"])]);
                       ("description",
                        PStr "Lista de ingredientes con sus cantidades en gramos")]);
                   ("num_porciones", PDict
                      [("type", PStr "number");
                       ("description",
                        PStr "Número de porciones en las que se divide la receta")])]);
               ("required", PList [PStr "ingredientes"; PStr "num_porciones"])])])] ].

(** What [ToolSpec] keeps of an entry: [function.name] and
    [function.parameters.required]. *)
Definition como_texto (v : pyval) : res string :=
  match v with
  | PStr s => Ret s
  | _ => Raise TypeError
  end.

Fixpoint como_textos (l : list pyval) : res (list string) :=
  match l with
  | [] => Ret []
  | v :: rest => let* s := como_texto v in let* ss := como_textos rest in Ret (s :: ss)
  end.

Definition resumen (tool : pyval) : res ToolSpec :=
  let* func := py_getitem tool "function" in
  let* name := py_getitem func "name" in
  let* n := como_texto name in
  let* parameters := py_getitem func "parameters" in
  let* req := py_getitem parameters "required" in
  let* l := py_iter req in
  let* r := como_textos l in
  Ret {| tool_name := n; required := r |}.

(** The parameter names a schema declares, and the values its [enum] allows
    for one of them. *)
Definition propiedades (tool : pyval) : res (list string) :=
  let* func := py_getitem tool "function" in
  let* parameters := py_getitem func "parameters" in
  let* props := py_getitem parameters "properties" in
  let* l := py_iter props in
  como_textos l.

Definition enum_de (tool : pyval) (param : string) : res (list pyval) :=
  let* func := py_getitem tool "function" in
  let* parameters := py_getitem func "parameters" in
  let* props := py_getitem parameters "properties" in
  let* p := py_getitem props param in
  let* e := py_getitem p "enum" in
  py_iter e.

(** [types.FunctionDeclaration(name=..., description=..., parameters=...)],
    as the arguments it is built from. *)
Record FunctionDeclaration := {
  fd_name : pyval;
  fd_description : pyval;
  fd_parameters : pyval;
}.

(** [func.get("parameters", {})], reached only after [func["name"]] went
    through, so [func] is a dict. *)
Definition parametros_de (func : pyval) : pyval :=
  match func with
  | PDict d => match dict_get d "parameters" with Some p => p | None => PDict [] end
  | _ => PDict []
  end.

(** [tool["type"] == "function"] *)
Definition es_funcion (ty : pyval) : bool :=
  match ty with
  | PStr s => String.eqb s "function"
  | _ => false
  end.

Fixpoint _convert_tools_to_gemini (tools : list pyval)
  : res (list FunctionDeclaration) :=
  match tools with
  | [] => Ret []
  | tool :: rest =>
      let* ty := py_getitem tool "type" in
      if es_funcion ty then
        let* func := py_getitem tool "function" in
        let* name := py_getitem func "name" in
        let* description := py_getitem func "description" in
        let* ds := _convert_tools_to_gemini rest in
        Ret ({| fd_name := name; fd_description := description;
                fd_parameters := parametros_de func |} :: ds)
      else _convert_tools_to_gemini rest
  end.

End Catalogo.

(* ===================================================================== *)
(** ** llm_client.py and main.py: choosing the client, and the REPL       *)
(* ===================================================================== *)

Module Fabrica.
Import Py Tools LLM.
Local Open Scope res_scope.

(** The two classes [crear_cliente] can instantiate. *)
Inductive ClaseCliente := ClaseOpenAI | ClaseGemini.

Definition proveedores : list (string * ClaseCliente) :=
  [("openai", ClaseOpenAI); ("gemini", ClaseGemini)].

Fixpoint proveedores_get (l : list (string * ClaseCliente)) (k : string)
  : option ClaseCliente :=
  match l with
  | [] => None
  | (k', c) :: rest => if String.eqb k' k then Some c else proveedores_get rest k
  end.

Definition MODELOS_DISPONIBLES : list (string * list string) :=
  [("openai", ["gpt-4o-mini"; "gpt-4o"; "gpt-4-turbo"; "gpt-3.5-turbo"]);
   ("gemini", ["gemini-2.5-flash"; "gemini-1.5-pro"; "gemini-2.0-flash"])].

Fixpoint modelos_get (l : list (string * list string)) (k : string)
  : option (list string) :=
  match l with
  | [] => None
  | (k', ms) :: rest => if String.eqb k' k then Some ms else modelos_get rest k
  end.

Section Crear.
Context `{PyRuntime} {C : Type}.

(** Calling the class with the key: the vendor's SDK builds its client
    there, which may raise. *)
Variable construir : ClaseCliente -> string -> res C.

Definition crear_cliente (proveedor api_key : string) : res C :=
  match proveedores_get proveedores (str_lower proveedor) with
  | None => Raise ValueError
  | Some clase => construir clase api_key
  end.

End Crear.
End Fabrica.

Module Main.
Import Py Tools LLM Agents Fabrica.
Local Open Scope res_scope.

(** How a run of [main] ends.  [FinDeEntrada] is [input()] finding the
    input closed ([EOFError], raised outside the [try]); [SinFin] marks a
    [procesar] cut short by the bound of the model. *)
Inductive salida :=
| SinCliente
| Excepcion (e : exn)
| Adios
| FinDeEntrada
| SinFin.

Definition PALABRAS_DE_SALIDA : list string := ["salir"; "exit"; "quit"].

Section Programa.
Context `{PyRuntime} {W : Type} `{Reloj W}.

(** [str.strip()], which the runtime provides. *)
Variable str_strip : string -> string.

Variable construir : ClaseCliente -> string -> res (LLMClient W).

(** [os.environ] once [load_dotenv()] has run is [env]. *)
Definition obtener_cliente (env : gmap string string)
  : res (option (LLMClient W * string)) :=
  let proveedor :=
    str_lower (match env !! "LLM_PROVIDER" with Some v => v | None => "openai" end) in
  let con_clave (api_key : option string) :=
    match api_key with
    | Some (String c k) =>
        let* cliente := crear_cliente construir proveedor (String c k) in
        Ret (Some (cliente, proveedor))
    | _ => Ret None
    end in
  if String.eqb proveedor "openai" then con_clave (env !! "OPENAI_API_KEY")
  else if String.eqb proveedor "gemini" then con_clave (env !! "GOOGLE_API_KEY")
  else Ret None.

(** [mensaje.lower() in ["salir", "exit", "quit"]] *)
Definition es_salida (mensaje : string) : bool :=
  existsb (String.eqb (str_lower mensaje)) PALABRAS_DE_SALIDA.

(** The [while True] of [main] over the lines [input()] will give. *)
Fixpoint bucle_principal `{LLMClient W} (fuel : nat) (entradas : list string)
    (s : AgenteOrquestador.t * W) : salida * (AgenteOrquestador.t * W) :=
  match entradas with
  | [] => (FinDeEntrada, s)
  | linea :: resto =>
      let mensaje := str_strip linea in
      if es_salida mensaje then (Adios, s)
      else if String.eqb mensaje "" then bucle_principal fuel resto s
      else
        match AgenteOrquestador.procesar fuel mensaje true s with
        | (OutOfFuel, s') => (SinFin, s')
        | (_, s') => bucle_principal fuel resto s'
        end
  end.

(** [main()]: the banner reads [MODELOS_DISPONIBLES[proveedor]]. *)
Definition main (fuel : nat) (env : gmap string string) (entradas : list string)
    (w : W) : salida * option (AgenteOrquestador.t * W) :=
  match obtener_cliente env with
  | Raise e => (Excepcion e, None)
  | Ret None => (SinCliente, None)
  | Ret (Some (client, proveedor)) =>
      let orquestador := AgenteOrquestador.init None in
      match modelos_get MODELOS_DISPONIBLES proveedor with
      | None => (Excepcion KeyError, Some (orquestador, w))
      | Some _ =>
          let '(fin, s) := @bucle_principal client fuel entradas (orquestador, w) in
          (fin, Some s)
      end
  end.

(** The lines of the input that reach [procesar]: those before the first
    exit word, stripped, the empty ones left out. *)
Fixpoint aceptadas (entradas : list string) : list string :=
  match entradas with
  | [] => []
  | linea :: resto =>
      let mensaje := str_strip linea in
      if es_salida mensaje then []
      else if String.eqb mensaje "" then aceptadas resto
      else mensaje :: aceptadas resto
  end.

End Programa.
End Main.

(* ===================================================================== *)
(** ** Further vocabulary                                                 *)
(* ===================================================================== *)

Module Vocabulario.
Import Py Tools LLM Agents Stub.

(** A conversation with a plain agent, question by question: the history it
    leaves and the calls the provider receives. *)
Fixpoint pares_chat (msgs : list pyval) (resps : list texto) : list Message :=
  match msgs, resps with
  | m :: ms, r :: rs =>
      mensaje "user" m :: mensaje "assistant" (de_texto r) :: pares_chat ms rs
  | _, _ => []
  end.

Fixpoint llamadas_chat (model : option string) (historial : list Message)
    (msgs : list pyval) (resps : list texto) : list llamada :=
  match msgs, resps with
  | m :: ms, r :: rs =>
      Chat (historial ++ [mensaje "user" m])%list model
      :: llamadas_chat model
           (historial ++ [mensaje "user" m; mensaje "assistant" (de_texto r)])%list
           ms rs
  | _, _ => []
  end.

(** The experts of an orchestrator later in its life: the same names, each
    with the same class, prompt, model and tools and a history that only
    grew. *)
Definition expertos_crecen (o o' : AgenteOrquestador.t) : Prop :=
  forall k, match AgenteOrquestador.expertos o !! k,
                  AgenteOrquestador.expertos o' !! k with
            | Some e, Some e' => Propiedades.crece e e'
            | None, None => True
            | _, _ => False
            end.

(** Where an entry of a history after the system message can come from: a
    user or assistant text, or one of the client's two encodings. *)
Inductive origen {W : Type} `{LLMClient W} : Message -> Prop :=
| origen_user c : origen (mensaje "user" c)
| origen_assistant c : origen (mensaje "assistant" c)
| origen_resultado id r n : origen (create_tool_result_message id r n)
| origen_llamadas r : origen (create_assistant_message_with_tools r).

(** [l'] is [l] with entries of those kinds added at the end. *)
Definition anade {W : Type} `{LLMClient W} (l l' : list Message) : Prop :=
  exists k, l' = (l ++ k)%list /\ Forall origen k.

Definition anade_orquestador {W : Type} `{LLMClient W}
    (o o' : AgenteOrquestador.t) : Prop :=
  anade (AgenteOrquestador.messages o) (AgenteOrquestador.messages o') /\
  forall k, match AgenteOrquestador.expertos o !! k,
                  AgenteOrquestador.expertos o' !! k with
            | Some e, Some e' => anade (Agente.messages e) (Agente.messages e')
            | None, None => True
            | _, _ => False
            end.

(** A history in good form: the system message of the prompt, then entries
    of those kinds only. *)
Definition historial_de {W : Type} `{LLMClient W} (sp : string)
    (ms : list Message) : Prop :=
  exists resto, ms = mensaje "system" (PStr sp) :: resto /\ Forall origen resto.

(** The histories of an agent, and of an orchestrator with its experts, in
    good form. *)
Definition forma_agente {W : Type} `{LLMClient W} (a : Agente.t) : Prop :=
  historial_de (Agente.system_prompt a) (Agente.messages a).

Definition forma_orquestador {W : Type} `{LLMClient W}
    (o : AgenteOrquestador.t) : Prop :=
  historial_de (AgenteOrquestador.system_prompt o) (AgenteOrquestador.messages o) /\
  forall k e, AgenteOrquestador.expertos o !! k = Some e -> forma_agente e.

(** What the Gemini client makes of its own two encodings. *)
Definition content_de_resultado (result : texto) (tool_name : string)
  : Gemini.Content :=
  {| Gemini.role := "user";
     Gemini.parts :=
       [Gemini.from_function_response
          (PStr (if String.eqb tool_name "" then "tool" else tool_name))
          [("result", de_texto result)]] |}.

Definition content_de_llamadas (calls : list ToolCall.t) : Gemini.Content :=
  {| Gemini.role := "model";
     Gemini.parts :=
       map (fun tc => Gemini.from_function_call (PStr (ToolCall.name tc))
                        (PDict (ToolCall.arguments tc))) calls |}.

(** The roles [_build_contents] has a branch for. *)
Definition ROLES_CONOCIDOS : list string :=
  ["system"; "user"; "assistant"; "model"; "tool"; "model_function_call"].

(** The tool calls [chat_with_tools] makes of the function calls of a
    response, numbered from the counter [n]. *)
Fixpoint numerar (n : nat) (fcs : list Gemini.FunctionCall) : list ToolCall.t :=
  match fcs with
  | [] => []
  | fc :: resto =>
      {| ToolCall.id := Gemini.gemini_call (S n);
         ToolCall.name := Gemini.fc_name fc;
         ToolCall.arguments := Gemini.argumentos_de fc |} :: numerar (S n) resto
  end.

(** The function calls of the parts of a response, and the non-empty texts
    of the parts that carry no function call, both in order. *)
Definition llamadas_de (ps : list Gemini.ResponsePart) : list Gemini.FunctionCall :=
  omap Gemini.function_call ps.

Definition texto_de (p : Gemini.ResponsePart) : option string :=
  match Gemini.function_call p, Gemini.text p with
  | None, Some (String c s) => Some (String c s)
  | _, _ => None
  end.

Definition textos_de (ps : list Gemini.ResponsePart) : list string :=
  omap texto_de ps.

(** The parts of a response, if it has a first candidate with content. *)
Definition partes_de (response : Gemini.Response) : option (list Gemini.ResponsePart) :=
  match Gemini.candidates response with
  | Some (c :: _) =>
      match Gemini.content c with
      | Some rc => Gemini.rparts rc
      | None => Some []
      end
  | _ => Some []
  end.

(** A tool of a catalogue that the Gemini conversion keeps: a dict whose
    [type] is [function]. *)
Definition es_herramienta_funcion (tool : pyval) : bool :=
  match py_getitem tool "type" with
  | Ret ty => Catalogo.es_funcion ty
  | Raise _ => false
  end.

(** The declaration made of a tool: its function's name, description and
    parameters (an empty dict when there are none). *)
Definition declara (tool : pyval) (d : Catalogo.FunctionDeclaration) : Prop :=
  exists func,
    py_getitem tool "function" = Ret func /\
    py_getitem func "name" = Ret (Catalogo.fd_name d) /\
    py_getitem func "description" = Ret (Catalogo.fd_description d) /\
    Catalogo.fd_parameters d = Catalogo.parametros_de func.

(** Two runs that end alike, unless the first one ended in [TypeError]. *)
Definition igual_o_TypeError {S A : Type} (r1 r2 : outcome A * S) : Prop :=
  r1 = r2 \/ exists s', r1 = (Raised TypeError, s').

End Vocabulario.

(** Inputs for the further worked runs. *)
Module Casos.
Import Py Tools LLM Agents Stub Fabrica.

(** [strip] on text whose only white space is the ASCII space. *)
Fixpoint recortar_izquierda (s : string) : string :=
  match s with
  | String " " s' => recortar_izquierda s'
  | _ => s
  end.

Definition recortar (s : string) : string :=
  String.rev (recortar_izquierda (String.rev (recortar_izquierda s))).

(** Building a client never fails here, and gives the scripted provider in
    the dialect of the class. *)
Definition construir_guion (clase : ClaseCliente) (api_key : string)
  : res (LLMClient mundo) :=
  Ret (match clase with
       | ClaseOpenAI => openai
       | ClaseGemini => gemini
       end).

Definition entorno_gemini : gmap string string :=
  <["LLM_PROVIDER" := "Gemini"]> (<["GOOGLE_API_KEY" := "clave"]> ∅).

Definition suma_desordenada : list (string * pyval) :=
  [("a", PInt 2); ("b", PInt 3); ("operacion", PStr "sumar")].

Definition delegar_sin_tipo : ToolCall.t :=
  llamar "call_1" "consultar_agente_experto" [("consulta", PStr "pasta")].

(** A Gemini response with a text part and two function calls. *)
Definition respuesta_gemini : Gemini.Response :=
  {| Gemini.candidates :=
       Some [{| Gemini.content :=
                  Some {| Gemini.rparts :=
                            Some [{| Gemini.function_call := None;
                                     Gemini.text := Some "Un momento" |};
                                  {| Gemini.function_call :=
                                       Some {| Gemini.fc_name := "obtener_hora";
                                               Gemini.fc_args := None |};
                                     Gemini.text := None |};
                                  {| Gemini.function_call :=
                                       Some {| Gemini.fc_name := "calculadora";
                                               Gemini.fc_args :=
                                                 Some [("operacion", PStr "sumar");
                                                       ("a", PInt 2); ("b", PInt 3)] |};
                                     Gemini.text := None |}] |} |}];
     Gemini.response_text := Some "Un momento";
     Gemini.referencia := {| oid := 7 |} |}.

(** An API that always answers with it. *)
Definition api_fija (model : string) (contents : list Gemini.Content)
    (config : option Gemini.Config) (w : unit) : res Gemini.Response * unit :=
  (Ret respuesta_gemini, w).

(** What the client is to make of it, with the counter at 0. *)
Definition respuesta_esperada : LLMResponse.t :=
  {| LLMResponse.content := Some "Un momento";
     LLMResponse.tool_calls :=
       [llamar "gemini_call_1" "obtener_hora" [];
        llamar "gemini_call_2" "calculadora"
          [("operacion", PStr "sumar"); ("a", PInt 2); ("b", PInt 3)]];
     LLMResponse.raw_message := {| oid := 7 |} |}.

(** A catalogue with an entry that is not a function tool. *)
Definition herramienta_hora : pyval :=
  PDict [("type", PStr "function");
         ("function", PDict [("name", PStr "obtener_hora");
                             ("description", PStr "La hora")])].

Definition catalogo_mixto : list pyval :=
  [PDict [("type", PStr "retrieval")]; herramienta_hora].

Definition declaracion_hora : Catalogo.FunctionDeclaration :=
  {| Catalogo.fd_name := PStr "obtener_hora";
     Catalogo.fd_description := PStr "La hora";
     Catalogo.fd_parameters := PDict [] |}.

(** What is typed at the prompt of the REPL, and the script that answers. *)
Definition entradas_repl : list string := ["  "; " hola "; "SALIR"; "otra"].

Definition guion_repl : mundo := guion [final "buenas"] [].

(** A recipe whose second ingredient has no name. *)
Definition ingrediente_pollo : pyval :=
  PDict [("nombre", PStr "Pollo"); ("cantidad_gramos", PInt 200)].

Definition ingrediente_sin_nombre : pyval := PDict [("cantidad_gramos", PInt 50)].

End Casos.

(* ===================================================================== *)
(** ** Proof steps used throughout                                        *)
(* ===================================================================== *)

Import Py Tools LLM Agents Propiedades.
Local Open Scope res_scope.

(** Unfold the monad's plumbing, leaving the calls it sequences. *)
Ltac desplegar :=
  cbv [bind self mutar ret raise agotado puro en_mundo]; cbn [fst snd].

(** Case analysis on whatever a [match] in the goal looks at. *)
Ltac romper :=
  repeat match goal with
         | |- context [match ?x with _ => _ end] => destruct x eqn:?; try discriminate
         end.

(* ===================================================================== *)
(** ** Properties of the tools                                            *)
(* ===================================================================== *)

Section Cadenas.

Lemma prefix_app (s t : string) : String.prefix s (s +:+ t) = true.
Proof.
  induction s as [|c s IH].
  - now destruct t.
  - change (String.prefix (String c s) (String c (s +:+ t)) = true).
    simpl. destruct (Ascii.ascii_dec c c) as [_|n]; [exact IH | now elim n].
Qed.

Lemma contiene_prefix (s sub : string) :
  String.prefix sub s = true -> contiene s sub = true.
Proof. intros Hp. destruct s; cbn [contiene]; rewrite Hp; reflexivity. Qed.

(** A string contains each piece it was concatenated from. *)
Lemma contiene_app (a b c : string) : contiene (a +:+ b +:+ c) b = true.
Proof.
  induction a as [|x a IH].
  - change (contiene (b +:+ c) b = true). apply contiene_prefix, prefix_app.
  - change (contiene (String x (a +:+ b +:+ c)) b = true).
    cbn [contiene]. rewrite IH. apply orb_true_r.
Qed.

Lemma contiene_app_r (a b : string) : contiene (a +:+ b) b = true.
Proof.
  induction a as [|x a IH].
  - change (contiene b b = true). apply contiene_prefix.
    clear. induction b as [|c b IH]; [reflexivity|].
    simpl. destruct (Ascii.ascii_dec c c) as [_|n]; [exact IH | now elim n].
  - change (contiene (String x (a +:+ b)) b = true).
    cbn [contiene]. rewrite IH. apply orb_true_r.
Qed.

(** What the tail of a string contains, the string contains. *)
Lemma contiene_app_l (s t sub : string) :
  contiene t sub = true -> contiene (s +:+ t) sub = true.
Proof.
  intros Ht. induction s as [|x s IH]; [exact Ht|].
  change (contiene (String x (s +:+ t)) sub = true).
  cbn [contiene]. rewrite IH. apply orb_true_r.
Qed.

End Cadenas.

Section Despachador.
Context `{PyRuntime} {W : Type} `{Reloj W}.

Lemma no_reconocido_eqb (nombre : string) :
  nombre ∉ NOMBRES_RECONOCIDOS ->
  String.eqb nombre "calculadora" = false /\
  String.eqb nombre "obtener_hora" = false /\
  String.eqb nombre "calcular_calorias" = false /\
  String.eqb nombre "consultar_agente_experto" = false.
Proof.
  intros Hn. unfold NOMBRES_RECONOCIDOS in Hn.
  repeat split; apply String.eqb_neq; intros ->; apply Hn; set_solver.
Qed.

Lemma ejecutar_herramienta_desconocida (nombre : string) argumentos (w : W) :
  nombre ∉ NOMBRES_RECONOCIDOS ->
  ejecutar_herramienta nombre argumentos w =
  (Ret (Some ("Error: herramienta '" +:+ nombre +:+ "' no encontrada")), w).
Proof.
  intros Hn. destruct (no_reconocido_eqb nombre Hn) as (E1 & E2 & E3 & E4).
  unfold ejecutar_herramienta. now rewrite E1, E2, E3, E4.
Qed.

End Despachador.

(* ===================================================================== *)
(** ** The loops, one step at a time                                      *)
(* ===================================================================== *)

Local Open Scope metodo_scope.

Section Pasos.
Context `{PyRuntime} {W : Type} `{Reloj W} `{LLMClient W}.

Lemma bind_eq {S A B} (m : M S A) (k : A -> M S B) (s : S) :
  bind m k s =
  match m s with
  | (Returned a, s') => k a s'
  | (Raised e, s') => (Raised e, s')
  | (OutOfFuel, s') => (OutOfFuel, s')
  end.
Proof. reflexivity. Qed.

(** One pass of the tool-using agent's [for] loop. *)
Lemma agente_llamadas_cons verbose tc rest (a : Agente.t) (w : W) :
  AgenteConHerramientas.ejecutar_llamadas verbose (tc :: rest) (a, w) =
  match ejecutar_herramienta (ToolCall.name tc) (ToolCall.arguments tc) w with
  | (Ret resultado, w') =>
      if verbose && negb (bool_decide (is_Some resultado))
      then (Raised TypeError, (a, w'))
      else AgenteConHerramientas.ejecutar_llamadas verbose rest
             (Agente.append (create_tool_result_message (ToolCall.id tc) resultado
                               (ToolCall.name tc)) a, w')
  | (Raise e, w') => (Raised e, (a, w'))
  end.
Proof.
  cbn [AgenteConHerramientas.ejecutar_llamadas]. rewrite bind_eq.
  unfold en_mundo at 1. cbn [fst snd].
  destruct (ejecutar_herramienta _ _ w) as [[resultado|e] w']; [|reflexivity].
  rewrite bind_eq. destruct verbose, resultado; reflexivity.
Qed.

(** One pass of the orchestrator's [for] loop on an ordinary tool. *)
Lemma orquestador_llamadas_cons_normal fuel verbose tc rest
    (o : AgenteOrquestador.t) (w : W) :
  ToolCall.name tc <> "consultar_agente_experto" ->
  AgenteOrquestador.ejecutar_llamadas fuel verbose (tc :: rest) (o, w) =
  match ejecutar_herramienta (ToolCall.name tc) (ToolCall.arguments tc) w with
  | (Ret resultado, w') =>
      AgenteOrquestador.ejecutar_llamadas fuel verbose rest
        (AgenteOrquestador.append
           (create_tool_result_message (ToolCall.id tc) resultado (ToolCall.name tc)) o,
         w')
  | (Raise e, w') => (Raised e, (o, w'))
  end.
Proof.
  intros Hn. apply String.eqb_neq in Hn.
  cbn [AgenteOrquestador.ejecutar_llamadas]. rewrite Hn, bind_eq.
  unfold en_mundo at 1. cbn [fst snd].
  destruct (ejecutar_herramienta _ _ w) as [[resultado|e] w']; reflexivity.
Qed.

(** One pass of the orchestrator's [for] loop on the delegation tool. *)
Lemma orquestador_llamadas_cons_experto fuel verbose tc rest
    (o : AgenteOrquestador.t) (w : W) tipo_experto consulta :
  ToolCall.name tc = "consultar_agente_experto" ->
  dict_get (ToolCall.arguments tc) "tipo_experto" = Some tipo_experto ->
  dict_get (ToolCall.arguments tc) "consulta" = Some consulta ->
  AgenteOrquestador.ejecutar_llamadas fuel verbose (tc :: rest) (o, w) =
  match AgenteOrquestador._consultar_experto fuel tipo_experto consulta verbose (o, w) with
  | (Returned resultado, (o', w')) =>
      AgenteOrquestador.ejecutar_llamadas fuel verbose rest
        (AgenteOrquestador.append
           (create_tool_result_message (ToolCall.id tc) resultado
              "consultar_agente_experto") o',
         w')
  | (Raised e, s') => (Raised e, s')
  | (OutOfFuel, s') => (OutOfFuel, s')
  end.
Proof.
  intros Hn Ht Hc.
  cbn [AgenteOrquestador.ejecutar_llamadas]. rewrite Hn. cbn [String.eqb Ascii.eqb Bool.eqb].
  rewrite !bind_eq. cbn [py_getitem]. rewrite Ht. cbn [puro]. unfold ret at 1.
  rewrite bind_eq. rewrite Hc. cbn [puro]. unfold ret at 1.
  destruct (AgenteOrquestador._consultar_experto _ _ _ _ _) as [[r|e|] [o' w']];
    reflexivity.
Qed.

End Pasos.

(* ===================================================================== *)
(** ** Histories only grow                                                *)
(* ===================================================================== *)

Section Crecimiento.
Context `{PyRuntime} {W : Type} `{Reloj W} `{LLMClient W}.

Lemma crece_refl a : crece a a.
Proof. unfold crece. repeat split; reflexivity. Qed.

Lemma crece_trans a b c : crece a b -> crece b c -> crece a c.
Proof.
  unfold crece. intros (?&?&?&?&?) (?&?&?&?&?).
  repeat split; try congruence. etrans; eassumption.
Qed.

Lemma crece_append m a : crece a (Agente.append m a).
Proof.
  unfold crece, Agente.append, Agente.con_messages; cbn.
  repeat split. now apply prefix_app_r.
Qed.

Lemma crece_append_r m a a' : crece a a' -> crece a (Agente.append m a').
Proof. intros Ha. eapply crece_trans; [exact Ha | apply crece_append]. Qed.

Lemma base_pensar_crece msg (a : Agente.t) (w : W) :
  crece a (fst (snd (AgenteBase.pensar msg (a, w)))).
Proof.
  unfold AgenteBase.pensar. desplegar.
  destruct (chat _ _ w) as [[r|e] w']; cbn [fst snd].
  - apply crece_append_r, crece_append.
  - apply crece_append.
Qed.

Lemma agente_llamadas_crece verbose calls (a : Agente.t) (w : W) :
  crece a (fst (snd (AgenteConHerramientas.ejecutar_llamadas verbose calls (a, w)))).
Proof.
  revert a w. induction calls as [|tc rest IH]; intros a w.
  - apply crece_refl.
  - rewrite agente_llamadas_cons.
    destruct (ejecutar_herramienta _ _ w) as [[r|e] w']; [|apply crece_refl].
    destruct (verbose && _); [apply crece_refl|].
    eapply crece_trans; [apply crece_append | apply IH].
Qed.

Lemma agente_bucle_crece fuel verbose (a : Agente.t) (w : W) :
  crece a (fst (snd (AgenteConHerramientas.bucle fuel verbose (a, w)))).
Proof.
  revert a w. induction fuel as [|fuel IH]; intros a w; [apply crece_refl|].
  cbn [AgenteConHerramientas.bucle]. desplegar.
  destruct (chat_with_tools _ _ _ w) as [[r|e] w']; [|apply crece_refl].
  destruct (LLMResponse.tool_calls r) as [|tc calls] eqn:Hc.
  - apply crece_append.
  - pose proof (agente_llamadas_crece verbose (tc :: calls)
                  (Agente.append (create_assistant_message_with_tools r) a) w') as Hl.
    destruct (AgenteConHerramientas.ejecutar_llamadas _ _ _) as [[[]|e|] [a2 w2]];
      cbn [fst snd] in Hl.
    + eapply crece_trans; [apply crece_append|].
      eapply crece_trans; [exact Hl | apply IH].
    + eapply crece_trans; [apply crece_append | exact Hl].
    + eapply crece_trans; [apply crece_append | exact Hl].
Qed.

Lemma agente_pensar_crece fuel msg verbose (a : Agente.t) (w : W) :
  crece a (fst (snd (AgenteConHerramientas.pensar fuel msg verbose (a, w)))).
Proof.
  unfold AgenteConHerramientas.pensar. desplegar.
  destruct (Agente.tools (Agente.append _ a)) as [|t ts]; cbn [fst snd].
  - destruct (chat _ _ w) as [[r|e] w']; cbn [fst snd].
    + apply crece_append_r, crece_append.
    + apply crece_append.
  - eapply crece_trans; [apply crece_append | apply agente_bucle_crece].
Qed.

Lemma pensar_de_crece fuel e msg verbose (a : Agente.t) (w : W) :
  crece a (fst (snd (pensar_de fuel e msg verbose (a, w)))).
Proof.
  unfold pensar_de. destruct (Agente.clase e).
  - apply base_pensar_crece.
  - apply agente_pensar_crece.
Qed.

End Crecimiento.

Section CrecimientoOrquestador.
Context `{PyRuntime} {W : Type} `{Reloj W} `{LLMClient W}.

Lemma crece_orquestador_refl o : crece_orquestador o o.
Proof.
  unfold crece_orquestador. repeat split; try reflexivity.
  intros k. destruct (AgenteOrquestador.expertos o !! k); [apply crece_refl | exact I].
Qed.

Lemma crece_orquestador_trans o1 o2 o3 :
  crece_orquestador o1 o2 -> crece_orquestador o2 o3 -> crece_orquestador o1 o3.
Proof.
  unfold crece_orquestador. intros (?&?&?&H12) (?&?&?&H23).
  repeat split; try congruence; [etrans; eassumption|].
  intros k. specialize (H12 k). specialize (H23 k).
  destruct (AgenteOrquestador.expertos o1 !! k),
           (AgenteOrquestador.expertos o2 !! k),
           (AgenteOrquestador.expertos o3 !! k); try tauto.
  eapply crece_trans; eassumption.
Qed.

Lemma crece_orquestador_append m o :
  crece_orquestador o (AgenteOrquestador.append m o).
Proof.
  unfold crece_orquestador, AgenteOrquestador.append, AgenteOrquestador.con_messages.
  cbn. repeat split; [now apply prefix_app_r|].
  intros k. destruct (AgenteOrquestador.expertos o !! k); [apply crece_refl | exact I].
Qed.

Lemma crece_orquestador_experto o k e e' :
  AgenteOrquestador.expertos o !! k = Some e -> crece e e' ->
  crece_orquestador o
    (AgenteOrquestador.con_expertos o (<[k := e']> (AgenteOrquestador.expertos o))).
Proof.
  intros Hk He. unfold crece_orquestador, AgenteOrquestador.con_expertos. cbn.
  repeat split; [reflexivity|].
  intros k'. destruct (decide (k = k')) as [<-|Hne].
  - rewrite lookup_insert_eq, Hk. exact He.
  - rewrite lookup_insert_ne by exact Hne.
    destruct (AgenteOrquestador.expertos o !! k'); [apply crece_refl | exact I].
Qed.

Lemma expertos_get_Some o tipo_experto k e :
  AgenteOrquestador.expertos_get o tipo_experto = Some (k, e) ->
  tipo_experto = PStr k /\ AgenteOrquestador.expertos o !! k = Some e.
Proof.
  unfold AgenteOrquestador.expertos_get.
  destruct tipo_experto as [| | | |s| |]; try discriminate.
  destruct (AgenteOrquestador.expertos o !! s) as [e0|] eqn:Hs; [|discriminate].
  intros [= <- <-]. split; [reflexivity | exact Hs].
Qed.

Lemma consultar_experto_crece fuel tipo_experto consulta verbose
    (o : AgenteOrquestador.t) (w : W) :
  crece_orquestador o
    (fst (snd (AgenteOrquestador._consultar_experto fuel tipo_experto consulta
                 verbose (o, w)))).
Proof.
  unfold AgenteOrquestador._consultar_experto.
  destruct (negb (hashable tipo_experto)); [apply crece_orquestador_refl|].
  desplegar.
  destruct (AgenteOrquestador.expertos_get o tipo_experto) as [[k e]|] eqn:Hg;
    [|apply crece_orquestador_refl].
  apply expertos_get_Some in Hg as [_ Hk].
  unfold AgenteOrquestador.en_experto. cbn [fst snd].
  pose proof (pensar_de_crece fuel e consulta verbose e w) as Hc.
  destruct (pensar_de fuel e consulta verbose (e, w)) as [[r|ex|] [e' w']];
    cbn [fst snd] in *; eapply crece_orquestador_experto; eassumption.
Qed.

Lemma orquestador_llamadas_crece fuel verbose calls (o : AgenteOrquestador.t) (w : W) :
  crece_orquestador o
    (fst (snd (AgenteOrquestador.ejecutar_llamadas fuel verbose calls (o, w)))).
Proof.
  revert o w. induction calls as [|tc rest IH]; intros o w;
    [apply crece_orquestador_refl|].
  destruct (String.eqb_spec (ToolCall.name tc) "consultar_agente_experto") as [Hn|Hn].
  - cbn [AgenteOrquestador.ejecutar_llamadas].
    apply String.eqb_eq in Hn as Hb. rewrite Hb. rewrite !bind_eq.
    destruct (py_getitem (PDict (ToolCall.arguments tc)) "tipo_experto") as [t|e];
      [|apply crece_orquestador_refl].
    cbn [puro]. unfold ret at 1. rewrite bind_eq.
    destruct (py_getitem (PDict (ToolCall.arguments tc)) "consulta") as [c|e];
      [|apply crece_orquestador_refl].
    cbn [puro]. unfold ret at 1.
    pose proof (consultar_experto_crece fuel t c verbose o w) as Hc.
    destruct (AgenteOrquestador._consultar_experto fuel t c verbose (o, w))
      as [[r|e|] [o' w']]; cbn [fst snd] in Hc; try exact Hc.
    rewrite bind_eq. cbn [mutar fst snd].
    eapply crece_orquestador_trans; [exact Hc|].
    eapply crece_orquestador_trans; [apply crece_orquestador_append | apply IH].
  - rewrite orquestador_llamadas_cons_normal by exact Hn.
    destruct (ejecutar_herramienta _ _ w) as [[r|e] w'];
      [|apply crece_orquestador_refl].
    eapply crece_orquestador_trans; [apply crece_orquestador_append | apply IH].
Qed.

Lemma orquestador_bucle_crece fuel_expertos fuel verbose
    (o : AgenteOrquestador.t) (w : W) :
  crece_orquestador o
    (fst (snd (AgenteOrquestador.bucle fuel_expertos fuel verbose (o, w)))).
Proof.
  revert o w. induction fuel as [|fuel IH]; intros o w;
    [apply crece_orquestador_refl|].
  cbn [AgenteOrquestador.bucle]. desplegar.
  destruct (chat_with_tools _ _ _ w) as [[r|e] w']; [|apply crece_orquestador_refl].
  destruct (LLMResponse.tool_calls r) as [|tc calls] eqn:Hc.
  - apply crece_orquestador_append.
  - pose proof (orquestador_llamadas_crece fuel_expertos verbose (tc :: calls)
                  (AgenteOrquestador.append (create_assistant_message_with_tools r) o)
                  w') as Hl.
    destruct (AgenteOrquestador.ejecutar_llamadas _ _ _ _) as [[[]|e|] [o2 w2]];
      cbn [fst snd] in Hl.
    + eapply crece_orquestador_trans; [apply crece_orquestador_append|].
      eapply crece_orquestador_trans; [exact Hl | apply IH].
    + eapply crece_orquestador_trans; [apply crece_orquestador_append | exact Hl].
    + eapply crece_orquestador_trans; [apply crece_orquestador_append | exact Hl].
Qed.

Lemma procesar_crece fuel msg verbose (o : AgenteOrquestador.t) (w : W) :
  crece_orquestador o
    (fst (snd (AgenteOrquestador.procesar fuel msg verbose (o, w)))).
Proof.
  unfold AgenteOrquestador.procesar. rewrite bind_eq. cbn [mutar fst snd].
  eapply crece_orquestador_trans;
    [apply crece_orquestador_append | apply orquestador_bucle_crece].
Qed.

End CrecimientoOrquestador.

(* ===================================================================== *)
(** ** The history invariant                                              *)
(* ===================================================================== *)

Section Historial.
Context `{PyRuntime} {W : Type} `{Reloj W} `{LLMClient W}.

Lemma encabezado_prefix sp (l l' : list Message) :
  l `prefix_of` l' -> encabezado sp l -> encabezado sp l'.
Proof.
  intros [extra ->]. unfold encabezado. destruct l; [discriminate | trivial].
Qed.

Lemma inv_agente_crece sp a a' : crece a a' -> inv_agente sp a -> inv_agente sp a'.
Proof.
  intros (_ & Hsp & _ & _ & Hpre) [Hp Hh]. split; [congruence|].
  eapply encabezado_prefix; eassumption.
Qed.

Lemma inv_agente_nueva sp a :
  Agente.system_prompt a = sp -> inv_agente sp (AgenteBase.nueva_conversacion a).
Proof. intros <-. split; reflexivity. Qed.

Lemma inv_orquestador_crece sp o o' :
  crece_orquestador o o' -> inv_orquestador sp o -> inv_orquestador sp o'.
Proof.
  intros (Hsp & _ & Hpre & He) (Hp & Hh & Hx). split; [congruence|]. split.
  - eapply encabezado_prefix; eassumption.
  - intros k e' Hk. specialize (He k). rewrite Hk in He.
    destruct (AgenteOrquestador.expertos o !! k) as [e|] eqn:Hk0; [|contradiction].
    pose proof (Hx k e Hk0) as Hi.
    pose proof He as (_ & Hsp' & _). rewrite Hsp'.
    eapply inv_agente_crece; [exact He | exact Hi].
Qed.

Lemma paso_agente_inv sp s op :
  inv_agente sp (fst s) -> inv_agente sp (fst (paso_agente s op)).
Proof.
  intros Hi. destruct op as [fuel msg verbose|]; cbn [paso_agente fst snd].
  - destruct s as [a w]. eapply inv_agente_crece; [apply pensar_de_crece | exact Hi].
  - apply inv_agente_nueva, Hi.
Qed.

Lemma sesion_agente_inv sp ops s :
  inv_agente sp (fst s) -> inv_agente sp (fst (sesion_agente ops s)).
Proof.
  revert s. induction ops as [|op ops IH]; intros s Hi; [exact Hi|].
  cbn [sesion_agente fold_left]. apply IH, paso_agente_inv, Hi.
Qed.

Lemma paso_orquestador_inv sp s op :
  inv_orquestador sp (fst s) -> inv_orquestador sp (fst (paso_orquestador s op)).
Proof.
  intros Hi. destruct op as [fuel msg verbose|]; cbn [paso_orquestador fst snd].
  - destruct s as [o w]. eapply inv_orquestador_crece; [apply procesar_crece | exact Hi].
  - destruct Hi as (Hp & _ & Hx). split; [exact Hp|]. split.
    + unfold encabezado. cbn. now rewrite Hp.
    + exact Hx.
Qed.

Lemma sesion_orquestador_inv sp ops s :
  inv_orquestador sp (fst s) -> inv_orquestador sp (fst (sesion_orquestador ops s)).
Proof.
  revert s. induction ops as [|op ops IH]; intros s Hi; [exact Hi|].
  cbn [sesion_orquestador fold_left]. apply IH, paso_orquestador_inv, Hi.
Qed.

Lemma init_inv_orquestador m :
  inv_orquestador PROMPT_ORQUESTADOR (AgenteOrquestador.init m).
Proof.
  split; [reflexivity|]. split; [reflexivity|].
  intros k e. unfold AgenteOrquestador.init. cbn [AgenteOrquestador.expertos].
  rewrite !lookup_insert, lookup_empty.
  repeat case_decide; intros [= <-]; split; reflexivity.
Qed.

(** C3.  Whatever sequence of [pensar] / [procesar] / [nueva_conversacion]
    calls an agent goes through, and however each call ends, its history
    still begins with the system message of the prompt given at construction
    (for an [AgenteBase], an [AgenteConHerramientas], an [AgenteOrquestador]
    and each of its experts); [nueva_conversacion] then leaves exactly that
    one message, and applying it twice is applying it once. *)
Theorem history_invariant_and_reset :
  (forall sp m ops (w : W),
     let a := fst (sesion_agente ops (AgenteBase.init sp m, w)) in
     hd_error (Agente.messages a) = Some (mensaje "system" (PStr sp)) /\
     Agente.messages (AgenteBase.nueva_conversacion a) = [mensaje "system" (PStr sp)]) /\
  (forall sp ts m ops (w : W),
     let a := fst (sesion_agente ops (AgenteConHerramientas.init sp ts m, w)) in
     hd_error (Agente.messages a) = Some (mensaje "system" (PStr sp)) /\
     Agente.messages (AgenteBase.nueva_conversacion a) = [mensaje "system" (PStr sp)]) /\
  (forall m ops (w : W),
     let o := fst (sesion_orquestador ops (AgenteOrquestador.init m, w)) in
     hd_error (AgenteOrquestador.messages o)
       = Some (mensaje "system" (PStr PROMPT_ORQUESTADOR)) /\
     AgenteOrquestador.messages (AgenteOrquestador.nueva_conversacion o)
       = [mensaje "system" (PStr PROMPT_ORQUESTADOR)] /\
     forall k e, AgenteOrquestador.expertos o !! k = Some e ->
       hd_error (Agente.messages e)
         = Some (mensaje "system" (PStr (Agente.system_prompt e)))) /\
  (forall a, AgenteBase.nueva_conversacion (AgenteBase.nueva_conversacion a)
             = AgenteBase.nueva_conversacion a) /\
  (forall o, AgenteOrquestador.nueva_conversacion (AgenteOrquestador.nueva_conversacion o)
             = AgenteOrquestador.nueva_conversacion o).
Proof.
  split; [|split; [|split; [|split]]].
  - intros sp m ops w a.
    assert (Hi : inv_agente sp a)
      by (apply sesion_agente_inv; split; reflexivity).
    destruct Hi as [Hp Hh]. split; [exact Hh|].
    cbn. now rewrite Hp.
  - intros sp ts m ops w a.
    assert (Hi : inv_agente sp a)
      by (apply sesion_agente_inv; split; reflexivity).
    destruct Hi as [Hp Hh]. split; [exact Hh|].
    cbn. now rewrite Hp.
  - intros m ops w o.
    assert (Hi : inv_orquestador PROMPT_ORQUESTADOR o)
      by (apply sesion_orquestador_inv, init_inv_orquestador).
    destruct Hi as (Hp & Hh & Hx). split; [exact Hh|]. split.
    + cbn. now rewrite Hp.
    + intros k e Hk. apply (Hx k e Hk).
  - reflexivity.
  - reflexivity.
Qed.

End Historial.

(* ===================================================================== *)
(** ** The dispatcher: unknown names, the reserved name, bad arguments    *)
(* ===================================================================== *)

Section Despacho.
Context `{PyRuntime} {W : Type} `{Reloj W} `{LLMClient W}.

(** The while loop of the tool-using agent on a response that asks for
    tools: the assistant message is appended, the calls are run, and the
    model is asked again. *)
Lemma agente_bucle_llamadas fuel verbose (a : Agente.t) (w w1 : W) r :
  chat_with_tools (Agente.messages a) (Agente.tools a) (Agente.model a) w = (Ret r, w1) ->
  LLMResponse.tool_calls r <> [] ->
  AgenteConHerramientas.bucle (S fuel) verbose (a, w) =
  match AgenteConHerramientas.ejecutar_llamadas verbose (LLMResponse.tool_calls r)
          (Agente.append (create_assistant_message_with_tools r) a, w1) with
  | (Returned _, s2) => AgenteConHerramientas.bucle fuel verbose s2
  | (Raised e, s2) => (Raised e, s2)
  | (OutOfFuel, s2) => (OutOfFuel, s2)
  end.
Proof.
  intros Hr Hc. cbn [AgenteConHerramientas.bucle]. desplegar. rewrite Hr.
  destruct (LLMResponse.tool_calls r) as [|tc calls]; [congruence|].
  destruct (AgenteConHerramientas.ejecutar_llamadas _ _ _) as [[[]|e|] s2];
    reflexivity.
Qed.

Lemma agente_bucle_final fuel verbose (a : Agente.t) (w w1 : W) r :
  chat_with_tools (Agente.messages a) (Agente.tools a) (Agente.model a) w = (Ret r, w1) ->
  LLMResponse.tool_calls r = [] ->
  AgenteConHerramientas.bucle (S fuel) verbose (a, w) =
  (Returned (LLMResponse.content r),
   (Agente.append (mensaje "assistant" (de_texto (LLMResponse.content r))) a, w1)).
Proof.
  intros Hr Hc. cbn [AgenteConHerramientas.bucle]. desplegar. rewrite Hr, Hc.
  reflexivity.
Qed.

Lemma orquestador_bucle_llamadas fuel_expertos fuel verbose
    (o : AgenteOrquestador.t) (w w1 : W) r :
  chat_with_tools (AgenteOrquestador.messages o) TOOLS_DEFINITION
    (AgenteOrquestador.model o) w = (Ret r, w1) ->
  LLMResponse.tool_calls r <> [] ->
  AgenteOrquestador.bucle fuel_expertos (S fuel) verbose (o, w) =
  match AgenteOrquestador.ejecutar_llamadas fuel_expertos verbose
          (LLMResponse.tool_calls r)
          (AgenteOrquestador.append (create_assistant_message_with_tools r) o, w1) with
  | (Returned _, s2) => AgenteOrquestador.bucle fuel_expertos fuel verbose s2
  | (Raised e, s2) => (Raised e, s2)
  | (OutOfFuel, s2) => (OutOfFuel, s2)
  end.
Proof.
  intros Hr Hc. cbn [AgenteOrquestador.bucle]. desplegar. rewrite Hr.
  destruct (LLMResponse.tool_calls r) as [|tc calls]; [congruence|].
  destruct (AgenteOrquestador.ejecutar_llamadas _ _ _ _) as [[[]|e|] s2];
    reflexivity.
Qed.

Lemma orquestador_bucle_final fuel_expertos fuel verbose
    (o : AgenteOrquestador.t) (w w1 : W) r :
  chat_with_tools (AgenteOrquestador.messages o) TOOLS_DEFINITION
    (AgenteOrquestador.model o) w = (Ret r, w1) ->
  LLMResponse.tool_calls r = [] ->
  AgenteOrquestador.bucle fuel_expertos (S fuel) verbose (o, w) =
  (Returned (LLMResponse.content r),
   (AgenteOrquestador.append
      (mensaje "assistant" (de_texto (LLMResponse.content r))) o, w1)).
Proof.
  intros Hr Hc. cbn [AgenteOrquestador.bucle]. desplegar. rewrite Hr, Hc.
  reflexivity.
Qed.

(** C5.  A tool name the dispatcher has no branch for never makes
    [ejecutar_herramienta] raise: the result is a text that carries the word
    Error and the offending name.  Both loops append that text as the tool
    result of the call and go on with the remaining calls of the turn; when
    it was the only call, the model is asked again. *)
Theorem unknown_tool_yields_error_text (nombre : string) :
  nombre ∉ NOMBRES_RECONOCIDOS ->
  let aviso := "Error: herramienta '" +:+ nombre +:+ "' no encontrada" in
  (forall argumentos (w : W),
     ejecutar_herramienta nombre argumentos w = (Ret (Some aviso), w)) /\
  contiene aviso "Error" = true /\
  contiene aviso nombre = true /\
  (forall verbose id argumentos rest (a : Agente.t) (w : W),
     AgenteConHerramientas.ejecutar_llamadas verbose
       ({| ToolCall.id := id; ToolCall.name := nombre;
           ToolCall.arguments := argumentos |} :: rest) (a, w) =
     AgenteConHerramientas.ejecutar_llamadas verbose rest
       (Agente.append (create_tool_result_message id (Some aviso) nombre) a, w)) /\
  (forall fuel verbose id argumentos rest (o : AgenteOrquestador.t) (w : W),
     AgenteOrquestador.ejecutar_llamadas fuel verbose
       ({| ToolCall.id := id; ToolCall.name := nombre;
           ToolCall.arguments := argumentos |} :: rest) (o, w) =
     AgenteOrquestador.ejecutar_llamadas fuel verbose rest
       (AgenteOrquestador.append
          (create_tool_result_message id (Some aviso) nombre) o, w)) /\
  (forall fuel verbose id argumentos (a : Agente.t) (w w1 : W) r,
     chat_with_tools (Agente.messages a) (Agente.tools a) (Agente.model a) w
       = (Ret r, w1) ->
     LLMResponse.tool_calls r
       = [{| ToolCall.id := id; ToolCall.name := nombre;
             ToolCall.arguments := argumentos |}] ->
     AgenteConHerramientas.bucle (S fuel) verbose (a, w) =
     AgenteConHerramientas.bucle fuel verbose
       (Agente.append (create_tool_result_message id (Some aviso) nombre)
          (Agente.append (create_assistant_message_with_tools r) a), w1)) /\
  (forall fuel_expertos fuel verbose id argumentos (o : AgenteOrquestador.t)
          (w w1 : W) r,
     chat_with_tools (AgenteOrquestador.messages o) TOOLS_DEFINITION
       (AgenteOrquestador.model o) w = (Ret r, w1) ->
     LLMResponse.tool_calls r
       = [{| ToolCall.id := id; ToolCall.name := nombre;
             ToolCall.arguments := argumentos |}] ->
     AgenteOrquestador.bucle fuel_expertos (S fuel) verbose (o, w) =
     AgenteOrquestador.bucle fuel_expertos fuel verbose
       (AgenteOrquestador.append (create_tool_result_message id (Some aviso) nombre)
          (AgenteOrquestador.append (create_assistant_message_with_tools r) o), w1)).
Proof.
  intros Hn aviso.
  assert (Hres : nombre <> "consultar_agente_experto")
    by (intros ->; apply Hn; unfold NOMBRES_RECONOCIDOS; set_solver).
  assert (Hag : forall verbose id argumentos rest (a : Agente.t) (w : W),
     AgenteConHerramientas.ejecutar_llamadas verbose
       ({| ToolCall.id := id; ToolCall.name := nombre;
           ToolCall.arguments := argumentos |} :: rest) (a, w) =
     AgenteConHerramientas.ejecutar_llamadas verbose rest
       (Agente.append (create_tool_result_message id (Some aviso) nombre) a, w)).
  { intros. rewrite agente_llamadas_cons. cbn [ToolCall.name ToolCall.arguments ToolCall.id].
    rewrite ejecutar_herramienta_desconocida by exact Hn.
    now destruct verbose. }
  assert (Hor : forall fuel verbose id argumentos rest (o : AgenteOrquestador.t) (w : W),
     AgenteOrquestador.ejecutar_llamadas fuel verbose
       ({| ToolCall.id := id; ToolCall.name := nombre;
           ToolCall.arguments := argumentos |} :: rest) (o, w) =
     AgenteOrquestador.ejecutar_llamadas fuel verbose rest
       (AgenteOrquestador.append
          (create_tool_result_message id (Some aviso) nombre) o, w)).
  { intros. rewrite orquestador_llamadas_cons_normal by exact Hres.
    cbn [ToolCall.name ToolCall.arguments ToolCall.id].
    now rewrite ejecutar_herramienta_desconocida by exact Hn. }
  refine (conj _ (conj _ (conj _ (conj Hag (conj Hor (conj _ _)))))).
  - intros. now apply ejecutar_herramienta_desconocida.
  - exact (contiene_app "" "Error" (": herramienta '" +:+ nombre +:+ "' no encontrada")).
  - exact (contiene_app "Error: herramienta '" nombre "' no encontrada").
  - intros fuel verbose id argumentos a w w1 r Hr Hc.
    rewrite (agente_bucle_llamadas fuel verbose a w w1 r Hr) by (rewrite Hc; discriminate).
    rewrite Hc, Hag. reflexivity.
  - intros fe fuel verbose id argumentos o w w1 r Hr Hc.
    rewrite (orquestador_bucle_llamadas fe fuel verbose o w w1 r Hr)
      by (rewrite Hc; discriminate).
    rewrite Hc, Hor. reflexivity.
Qed.

End Despacho.

Section Reservado.
Context `{PyRuntime} {W : Type} `{Reloj W} `{LLMClient W}.

Lemma ejecutar_herramienta_None nombre argumentos (w : W) :
  fst (ejecutar_herramienta nombre argumentos w) = Ret None ->
  nombre = "consultar_agente_experto".
Proof.
  unfold ejecutar_herramienta.
  destruct (String.eqb nombre "calculadora").
  { cbn [fst]. destruct (bind_kwargs _ argumentos) as [args|e]; [|discriminate].
    cbn [res_bind].
    destruct args as [|x [|y [|z [|? ?]]]]; try discriminate.
    destruct (calculadora x y z); discriminate. }
  destruct (String.eqb nombre "obtener_hora").
  { unfold obtener_hora. destruct (ahora w). discriminate. }
  destruct (String.eqb nombre "calcular_calorias").
  { cbn [fst]. destruct (bind_kwargs _ argumentos) as [args|e]; [|discriminate].
    cbn [res_bind].
    destruct args as [|x [|y [|? ?]]]; try discriminate.
    destruct (calcular_calorias x y); discriminate. }
  destruct (String.eqb_spec nombre "consultar_agente_experto"); [trivial|discriminate].
Qed.

(** C10.  The dispatcher answers the reserved name
    [consultar_agente_experto] with [None], whatever the arguments, and
    that is the only name for which a returning call does not give a string.
    [AgenteConHerramientas.pensar] passes every call it receives to the
    dispatcher, the reserved one too: its [None] becomes the content of the
    tool-result message (and with [verbose] the preview of it raises).
    [AgenteOrquestador.procesar] takes the reserved name before the
    dispatcher: the result of the call is that of [_consultar_experto]. *)
Theorem reserved_name_and_who_intercepts_it :
  (forall argumentos (w : W),
     ejecutar_herramienta "consultar_agente_experto" argumentos w = (Ret None, w)) /\
  (forall nombre argumentos (w : W) t,
     nombre <> "consultar_agente_experto" ->
     fst (ejecutar_herramienta nombre argumentos w) = Ret t ->
     exists s, t = Some s) /\
  (forall verbose tc rest (a : Agente.t) (w : W),
     AgenteConHerramientas.ejecutar_llamadas verbose (tc :: rest) (a, w) =
     match ejecutar_herramienta (ToolCall.name tc) (ToolCall.arguments tc) w with
     | (Ret resultado, w') =>
         if verbose && negb (bool_decide (is_Some resultado))
         then (Raised TypeError, (a, w'))
         else AgenteConHerramientas.ejecutar_llamadas verbose rest
                (Agente.append
                   (create_tool_result_message (ToolCall.id tc) resultado
                      (ToolCall.name tc)) a, w')
     | (Raise e, w') => (Raised e, (a, w'))
     end) /\
  (forall id argumentos rest (a : Agente.t) (w : W),
     AgenteConHerramientas.ejecutar_llamadas false
       ({| ToolCall.id := id; ToolCall.name := "consultar_agente_experto";
           ToolCall.arguments := argumentos |} :: rest) (a, w) =
     AgenteConHerramientas.ejecutar_llamadas false rest
       (Agente.append
          (create_tool_result_message id None "consultar_agente_experto") a, w)) /\
  (forall id argumentos rest (a : Agente.t) (w : W),
     AgenteConHerramientas.ejecutar_llamadas true
       ({| ToolCall.id := id; ToolCall.name := "consultar_agente_experto";
           ToolCall.arguments := argumentos |} :: rest) (a, w) =
     (Raised TypeError, (a, w))) /\
  (forall fuel verbose id argumentos rest (o : AgenteOrquestador.t) (w : W)
          tipo_experto consulta,
     dict_get argumentos "tipo_experto" = Some tipo_experto ->
     dict_get argumentos "consulta" = Some consulta ->
     AgenteOrquestador.ejecutar_llamadas fuel verbose
       ({| ToolCall.id := id; ToolCall.name := "consultar_agente_experto";
           ToolCall.arguments := argumentos |} :: rest) (o, w) =
     match AgenteOrquestador._consultar_experto fuel tipo_experto consulta verbose
             (o, w) with
     | (Returned resultado, (o', w')) =>
         AgenteOrquestador.ejecutar_llamadas fuel verbose rest
           (AgenteOrquestador.append
              (create_tool_result_message id resultado "consultar_agente_experto") o',
            w')
     | (Raised e, s') => (Raised e, s')
     | (OutOfFuel, s') => (OutOfFuel, s')
     end) /\
  (forall fuel verbose tc rest (o : AgenteOrquestador.t) (w : W),
     ToolCall.name tc <> "consultar_agente_experto" ->
     AgenteOrquestador.ejecutar_llamadas fuel verbose (tc :: rest) (o, w) =
     match ejecutar_herramienta (ToolCall.name tc) (ToolCall.arguments tc) w with
     | (Ret resultado, w') =>
         AgenteOrquestador.ejecutar_llamadas fuel verbose rest
           (AgenteOrquestador.append
              (create_tool_result_message (ToolCall.id tc) resultado
                 (ToolCall.name tc)) o, w')
     | (Raise e, w') => (Raised e, (o, w'))
     end).
Proof.
  refine (conj _ (conj _ (conj _ (conj _ (conj _ (conj _ _)))))).
  - reflexivity.
  - intros nombre argumentos w [s|] Hn Hr; [now exists s|].
    now apply ejecutar_herramienta_None in Hr.
  - intros. apply agente_llamadas_cons.
  - intros. now rewrite agente_llamadas_cons.
  - intros. now rewrite agente_llamadas_cons.
  - intros fuel verbose id argumentos rest o w tipo_experto consulta Ht Hc.
    exact (orquestador_llamadas_cons_experto fuel verbose
             {| ToolCall.id := id; ToolCall.name := "consultar_agente_experto";
                ToolCall.arguments := argumentos |} rest o w
             tipo_experto consulta eq_refl Ht Hc).
  - intros. now apply orquestador_llamadas_cons_normal.
Qed.

End Reservado.

Section Argumentos.
Context `{PyRuntime} {W : Type} `{Reloj W} `{LLMClient W}.



End Argumentos.

(* ===================================================================== *)
(** ** Division by zero and degenerate portions                           *)
(* ===================================================================== *)

Section DivisionPorCero.
Context `{PyRuntime} {W : Type} `{Reloj W}.

Lemma sin_zde_bind {A B} (r : res A) (k : A -> res B) :
  sin_zde r -> (forall a, sin_zde (k a)) -> sin_zde (res_bind r k).
Proof.
  intros Hr Hk. destruct r as [a|e]; [apply Hk|].
  intros Hc. apply Hr. cbn in Hc. congruence.
Qed.

Lemma float_of_int_sin_zde z : sin_zde (float_of_int z).
Proof. unfold sin_zde, float_of_int. romper. Qed.

Lemma a_float_sin_zde n : sin_zde (a_float n).
Proof. destruct n; [apply float_of_int_sin_zde | discriminate]. Qed.

Lemma num_binop_sin_zde fi ff x y : sin_zde (num_binop fi ff x y).
Proof.
  unfold num_binop. destruct x, y; try discriminate;
    (apply sin_zde_bind; [apply a_float_sin_zde|]; intros a;
     apply sin_zde_bind; [apply a_float_sin_zde|]; discriminate).
Qed.

Lemma veces_sin_zde {A} n (rep : nat -> A) : sin_zde (veces n rep).
Proof. unfold sin_zde, veces. romper. Qed.

Lemma py_mul_sin_zde x y : sin_zde (py_mul x y).
Proof.
  unfold py_mul.
  destruct (como_numero x) as [a|], (como_numero y) as [b|];
    try (apply sin_zde_bind; [apply num_binop_sin_zde | discriminate]);
    destruct x, y; cbn [como_indice]; try discriminate; apply veces_sin_zde.
Qed.

Lemma py_add_sin_zde x y : sin_zde (py_add x y).
Proof.
  unfold py_add.
  destruct (como_numero x) as [a|], (como_numero y) as [b|];
    try (apply sin_zde_bind; [apply num_binop_sin_zde | discriminate]);
    destruct x, y; discriminate.
Qed.

Lemma py_int_sin_zde x : sin_zde (py_int x).
Proof. unfold sin_zde, py_int, num_int. romper. Qed.

Lemma float_of_int_100 :
  exists f, float_of_int 100 = Ret f /\ PrimFloat.eqb f PrimFloat.zero = false.
Proof. eexists. split; vm_compute; reflexivity. Qed.

(** Dividing by the literal 100 cannot divide by zero. *)
Lemma py_truediv_100_sin_zde p : sin_zde (py_truediv p (PInt 100)).
Proof.
  unfold py_truediv. destruct (como_numero p) as [[z|f]|]; cbn [como_numero];
    [| |discriminate].
  - apply sin_zde_bind; [|discriminate].
    unfold sin_zde, num_truediv. cbn [Z.eqb]. romper.
  - apply sin_zde_bind; [|discriminate].
    unfold num_truediv. cbn [a_float res_bind].
    destruct float_of_int_100 as (c & -> & Hc). cbn [res_bind]. rewrite Hc.
    discriminate.
Qed.

Lemma paso_ingrediente_sin_zde ing acc : sin_zde (paso_ingrediente ing acc).
Proof.
  unfold paso_ingrediente. destruct acc as [total detalles].
  apply sin_zde_bind; [unfold sin_zde, py_getitem; romper|]. intros n.
  apply sin_zde_bind; [unfold sin_zde, py_lower; romper|]. intros nombre.
  apply sin_zde_bind; [unfold sin_zde, py_getitem; romper|]. intros gramos.
  destruct (buscar calorias_por_100g nombre) as [cal|].
  - apply sin_zde_bind; [apply py_mul_sin_zde|]. intros p.
    apply sin_zde_bind; [apply py_truediv_100_sin_zde|]. intros c.
    apply sin_zde_bind; [apply py_add_sin_zde|]. intros t.
    apply sin_zde_bind; [apply py_int_sin_zde|]. discriminate.
  - apply sin_zde_bind; [apply py_mul_sin_zde|]. intros p.
    apply sin_zde_bind; [apply py_truediv_100_sin_zde|]. intros c.
    apply sin_zde_bind; [apply py_int_sin_zde|]. discriminate.
Qed.

Lemma bucle_ingredientes_sin_zde ings acc : sin_zde (bucle_ingredientes ings acc).
Proof.
  revert acc. induction ings as [|ing rest IH]; intros acc; [discriminate|].
  cbn [bucle_ingredientes]. apply sin_zde_bind; [apply paso_ingrediente_sin_zde|].
  exact IH.
Qed.

(** C8.  [calculadora] asked to divide by a zero (the int [0], a float
    zero, [False]) returns a text that says so, whatever the dividend, and
    so does the dispatcher for [b = 0].  [calcular_calorias] with a number of
    portions that is not above zero performs no division by it: it never
    ends in [ZeroDivisionError], and once the ingredient loop has run and the
    total converts to an int, it returns the report with the total as the
    per-portion figure. *)
Theorem division_by_zero_is_reported :
  (forall a b,
     py_ne_cero b = false ->
     calculadora (PStr "dividir") a b =
     Ret ("El resultado de " +:+ py_str a +:+ " dividir " +:+ py_str b +:+ " = "
          +:+ "Error: división por cero") /\
     contiene ("El resultado de " +:+ py_str a +:+ " dividir " +:+ py_str b +:+ " = "
               +:+ "Error: división por cero") "división por cero" = true) /\
  (forall a (w : W),
     ejecutar_herramienta "calculadora"
       [("operacion", PStr "dividir"); ("a", a); ("b", PInt 0)] w =
     (Ret (Some ("El resultado de " +:+ py_str a
                 +:+ " dividir 0 = Error: división por cero")), w)) /\
  (forall ingredientes num_porciones,
     py_gt_cero num_porciones = Ret false ->
     calcular_calorias ingredientes num_porciones <> Raise ZeroDivisionError /\
     forall ings total detalles t,
       py_iter ingredientes = Ret ings ->
       bucle_ingredientes ings (PInt 0, []) = Ret (total, detalles) ->
       py_int total = Ret t ->
       calcular_calorias ingredientes num_porciones =
       Ret (informe detalles t num_porciones t)).
Proof.
  refine (conj _ (conj _ _)).
  - intros a b Hb. split.
    + unfold calculadora. cbn [hashable negb operaciones_get operaciones String.eqb
                               Ascii.eqb Bool.eqb].
      rewrite Hb. reflexivity.
    + do 5 apply contiene_app_l. reflexivity.
  - intros a w. reflexivity.
  - intros ingredientes n Hn. split.
    + unfold calcular_calorias.
      apply sin_zde_bind; [unfold sin_zde, py_iter; romper|]. intros ings.
      apply sin_zde_bind; [apply bucle_ingredientes_sin_zde|]. intros [total detalles].
      rewrite Hn. cbn [res_bind].
      apply sin_zde_bind; [apply py_int_sin_zde|]. intros t.
      apply sin_zde_bind; [apply py_int_sin_zde|]. discriminate.
    + intros ings total detalles t Hi Hb Ht.
      unfold calcular_calorias. rewrite Hi. cbn [res_bind]. rewrite Hb.
      cbn [res_bind]. rewrite Hn. cbn [res_bind]. rewrite Ht. reflexivity.
Qed.

End DivisionPorCero.

(* ===================================================================== *)
(** ** Which ingredients count toward the calories                        *)
(* ===================================================================== *)

Section Calorias.
Context `{PyRuntime}.






End Calorias.

(* ===================================================================== *)
(** ** One turn of the model                                              *)
(* ===================================================================== *)

Section Turno.
Context `{PyRuntime} {W : Type} `{Reloj W} `{LLMClient W}.






End Turno.

(* ===================================================================== *)
(** ** Final and acting responses                                         *)
(* ===================================================================== *)

Section Finalidad.
Context `{PyRuntime} {W : Type} `{Reloj W} `{LLMClient W}.

(** A return of the tool-using agent's loop comes from a response without
    tool calls, whose text is what is returned and what was appended last. *)
Lemma agente_bucle_Returned fuel verbose (s s' : Agente.t * W) t :
  AgenteConHerramientas.bucle fuel verbose s = (Returned t, s') ->
  exists (a1 : Agente.t) (w0 w1 : W) r,
    chat_with_tools (Agente.messages a1) (Agente.tools a1) (Agente.model a1) w0
      = (Ret r, w1) /\
    LLMResponse.tool_calls r = [] /\
    LLMResponse.content r = t /\
    s' = (Agente.append (mensaje "assistant" (de_texto t)) a1, w1).
Proof.
  revert s. induction fuel as [|fuel IH]; intros [a w]; [discriminate|].
  destruct (chat_with_tools (Agente.messages a) (Agente.tools a) (Agente.model a) w)
    as [[r|e] w1] eqn:Hr.
  - destruct (LLMResponse.tool_calls r) as [|tc calls] eqn:Hc.
    + rewrite (agente_bucle_final fuel verbose a w w1 r Hr Hc).
      intros [= <- <-]. now exists a, w, w1, r.
    + rewrite (agente_bucle_llamadas fuel verbose a w w1 r Hr)
        by (rewrite Hc; discriminate).
      destruct (AgenteConHerramientas.ejecutar_llamadas _ _ _) as [[[]|e|] s2];
        [apply IH | discriminate | discriminate].
  - cbn [AgenteConHerramientas.bucle]. desplegar. rewrite Hr. discriminate.
Qed.

Lemma orquestador_bucle_Returned fuel_expertos fuel verbose
    (s s' : AgenteOrquestador.t * W) t :
  AgenteOrquestador.bucle fuel_expertos fuel verbose s = (Returned t, s') ->
  exists (o1 : AgenteOrquestador.t) (w0 w1 : W) r,
    chat_with_tools (AgenteOrquestador.messages o1) TOOLS_DEFINITION
      (AgenteOrquestador.model o1) w0 = (Ret r, w1) /\
    LLMResponse.tool_calls r = [] /\
    LLMResponse.content r = t /\
    s' = (AgenteOrquestador.append (mensaje "assistant" (de_texto t)) o1, w1).
Proof.
  revert s. induction fuel as [|fuel IH]; intros [o w]; [discriminate|].
  destruct (chat_with_tools (AgenteOrquestador.messages o) TOOLS_DEFINITION
              (AgenteOrquestador.model o) w) as [[r|e] w1] eqn:Hr.
  - destruct (LLMResponse.tool_calls r) as [|tc calls] eqn:Hc.
    + rewrite (orquestador_bucle_final fuel_expertos fuel verbose o w w1 r Hr Hc).
      intros [= <- <-]. now exists o, w, w1, r.
    + rewrite (orquestador_bucle_llamadas fuel_expertos fuel verbose o w w1 r Hr)
        by (rewrite Hc; discriminate).
      destruct (AgenteOrquestador.ejecutar_llamadas _ _ _ _) as [[[]|e|] s2];
        [apply IH | discriminate | discriminate].
  - cbn [AgenteOrquestador.bucle]. desplegar. rewrite Hr. discriminate.
Qed.


End Finalidad.

(* ===================================================================== *)
(** ** Delegation                                                         *)
(* ===================================================================== *)

Section Delegacion.
Context `{PyRuntime} {W : Type} `{Reloj W} `{LLMClient W}.

Lemma consultar_experto_conocido fuel k consulta verbose
    (o : AgenteOrquestador.t) (w : W) e :
  AgenteOrquestador.expertos o !! k = Some e ->
  AgenteOrquestador._consultar_experto fuel (PStr k) consulta verbose (o, w) =
  let corrida := pensar_de fuel e consulta verbose (e, w) in
  (fst corrida,
   (AgenteOrquestador.con_expertos o
      (<[k := fst (snd corrida)]> (AgenteOrquestador.expertos o)),
    snd (snd corrida))).
Proof.
  intros Hk. unfold AgenteOrquestador._consultar_experto. cbn [hashable negb].
  desplegar. unfold AgenteOrquestador.expertos_get. rewrite Hk.
  unfold AgenteOrquestador.en_experto. cbn [fst snd].
  destruct (pensar_de fuel e consulta verbose (e, w)) as [[r|ex|] [e' w']];
    reflexivity.
Qed.

Lemma consultar_experto_desconocido fuel k consulta verbose
    (o : AgenteOrquestador.t) (w : W) :
  AgenteOrquestador.expertos o !! k = None ->
  AgenteOrquestador._consultar_experto fuel (PStr k) consulta verbose (o, w) =
  (Returned (Some ("Error: no existe el experto '" +:+ k +:+ "'")), (o, w)).
Proof.
  intros Hk. unfold AgenteOrquestador._consultar_experto. cbn [hashable negb].
  desplegar. unfold AgenteOrquestador.expertos_get. now rewrite Hk.
Qed.

(** C6.  When the orchestrator's loop executes the delegation tool for an
    expert held in the map (as [matematicas] is), [pensar] runs on that
    expert and on no other: afterwards the map holds that expert as the call
    left it, every other key holds what it held, and the orchestrator's own
    history has gained exactly the tool-result message whose text is what
    the expert returned.  For a plain expert whose [chat] call answers, this
    is spelled out.  A name that is not in the map gives the error text as
    the tool result, changes nothing else, and the loop goes on. *)
Theorem delegation_reaches_only_the_named_expert :
  (forall fuel verbose id argumentos rest (o : AgenteOrquestador.t) (w : W)
          k e consulta,
     dict_get argumentos "tipo_experto" = Some (PStr k) ->
     dict_get argumentos "consulta" = Some consulta ->
     AgenteOrquestador.expertos o !! k = Some e ->
     let corrida := pensar_de fuel e consulta verbose (e, w) in
     let o' := AgenteOrquestador.con_expertos o
                 (<[k := fst (snd corrida)]> (AgenteOrquestador.expertos o)) in
     AgenteOrquestador.ejecutar_llamadas fuel verbose
       ({| ToolCall.id := id; ToolCall.name := "consultar_agente_experto";
           ToolCall.arguments := argumentos |} :: rest) (o, w) =
     match fst corrida with
     | Returned respuesta =>
         AgenteOrquestador.ejecutar_llamadas fuel verbose rest
           (AgenteOrquestador.append
              (create_tool_result_message id respuesta "consultar_agente_experto") o',
            snd (snd corrida))
     | Raised ex => (Raised ex, (o', snd (snd corrida)))
     | OutOfFuel => (OutOfFuel, (o', snd (snd corrida)))
     end /\
     AgenteOrquestador.expertos o' !! k = Some (fst (snd corrida)) /\
     (forall k', k' <> k ->
        AgenteOrquestador.expertos o' !! k' = AgenteOrquestador.expertos o !! k') /\
     AgenteOrquestador.messages o' = AgenteOrquestador.messages o) /\
  (forall fuel verbose id argumentos rest (o : AgenteOrquestador.t) (w w1 : W)
          e consulta respuesta,
     dict_get argumentos "tipo_experto" = Some (PStr "matematicas") ->
     dict_get argumentos "consulta" = Some consulta ->
     AgenteOrquestador.expertos o !! "matematicas" = Some e ->
     Agente.clase e = ClaseBase ->
     chat (Agente.messages e ++ [mensaje "user" consulta])%list (Agente.model e) w
       = (Ret respuesta, w1) ->
     let e' := Agente.append (mensaje "assistant" (de_texto respuesta))
                 (Agente.append (mensaje "user" consulta) e) in
     let o' := AgenteOrquestador.con_expertos o
                 (<["matematicas" := e']> (AgenteOrquestador.expertos o)) in
     AgenteOrquestador.ejecutar_llamadas fuel verbose
       ({| ToolCall.id := id; ToolCall.name := "consultar_agente_experto";
           ToolCall.arguments := argumentos |} :: rest) (o, w) =
     AgenteOrquestador.ejecutar_llamadas fuel verbose rest
       (AgenteOrquestador.append
          (create_tool_result_message id respuesta "consultar_agente_experto") o',
        w1) /\
     AgenteOrquestador.expertos o' !! "escritura"
       = AgenteOrquestador.expertos o !! "escritura" /\
     AgenteOrquestador.expertos o' !! "codigo"
       = AgenteOrquestador.expertos o !! "codigo" /\
     AgenteOrquestador.expertos o' !! "cocina"
       = AgenteOrquestador.expertos o !! "cocina") /\
  (forall m,
     AgenteOrquestador.expertos (AgenteOrquestador.init m) !! "matematicas"
       = Some ExpertoMatematicas /\
     Agente.clase ExpertoMatematicas = ClaseBase) /\
  (forall fuel verbose id argumentos rest (o : AgenteOrquestador.t) (w : W)
          k consulta,
     dict_get argumentos "tipo_experto" = Some (PStr k) ->
     dict_get argumentos "consulta" = Some consulta ->
     AgenteOrquestador.expertos o !! k = None ->
     AgenteOrquestador._consultar_experto fuel (PStr k) consulta verbose (o, w) =
       (Returned (Some ("Error: no existe el experto '" +:+ k +:+ "'")), (o, w)) /\
     AgenteOrquestador.ejecutar_llamadas fuel verbose
       ({| ToolCall.id := id; ToolCall.name := "consultar_agente_experto";
           ToolCall.arguments := argumentos |} :: rest) (o, w) =
     AgenteOrquestador.ejecutar_llamadas fuel verbose rest
       (AgenteOrquestador.append
          (create_tool_result_message id
             (Some ("Error: no existe el experto '" +:+ k +:+ "'"))
             "consultar_agente_experto") o, w)).
Proof.
  refine (conj _ (conj _ (conj _ _))).
  - intros fuel verbose id argumentos rest o w k e consulta Ht Hc Hk corrida o'.
    split; [|split; [|split]].
    + rewrite (orquestador_llamadas_cons_experto fuel verbose
               {| ToolCall.id := id; ToolCall.name := "consultar_agente_experto";
                  ToolCall.arguments := argumentos |} rest o w
               (PStr k) consulta eq_refl Ht Hc).
    cbn [ToolCall.id].
      rewrite (consultar_experto_conocido fuel k consulta verbose o w e Hk).
      cbn zeta. fold corrida. fold o'.
      destruct (fst corrida); reflexivity.
    + subst o'. cbn [AgenteOrquestador.con_expertos AgenteOrquestador.expertos].
      apply lookup_insert_eq.
    + intros k' Hne. subst o'.
      cbn [AgenteOrquestador.con_expertos AgenteOrquestador.expertos].
      apply lookup_insert_ne. congruence.
    + reflexivity.
  - intros fuel verbose id argumentos rest o w w1 e consulta respuesta
           Ht Hc Hk Hclase Hchat e' o'.
    split; [|repeat split; subst o';
             cbn [AgenteOrquestador.con_expertos AgenteOrquestador.expertos];
             now apply lookup_insert_ne].
    rewrite (orquestador_llamadas_cons_experto fuel verbose
               {| ToolCall.id := id; ToolCall.name := "consultar_agente_experto";
                  ToolCall.arguments := argumentos |} rest o w
               (PStr "matematicas") consulta eq_refl Ht Hc).
    cbn [ToolCall.id].
    rewrite (consultar_experto_conocido fuel "matematicas" consulta verbose o w e Hk).
    unfold pensar_de. rewrite Hclase. unfold AgenteBase.pensar. desplegar.
    cbn [Agente.append Agente.con_messages Agente.messages Agente.model].
    rewrite Hchat. reflexivity.
  - intros m. split; reflexivity.
  - intros fuel verbose id argumentos rest o w k consulta Ht Hc Hk.
    split; [now apply consultar_experto_desconocido|].
    rewrite (orquestador_llamadas_cons_experto fuel verbose
               {| ToolCall.id := id; ToolCall.name := "consultar_agente_experto";
                  ToolCall.arguments := argumentos |} rest o w
               (PStr k) consulta eq_refl Ht Hc).
    cbn [ToolCall.id].
    now rewrite (consultar_experto_desconocido fuel k consulta verbose o w Hk).
Qed.

End Delegacion.

(* ===================================================================== *)
(** ** The loops against a scripted provider                              *)
(* ===================================================================== *)

Section Guion.
Import Stub.
Context `{PyRuntime} (c : LLMClient mundo) `{!Guionizado c}.


Lemma herramienta_hora nombre argumentos (w w' : mundo) :
  hora w = hora w' ->
  fst (ejecutar_herramienta nombre argumentos w)
  = fst (ejecutar_herramienta nombre argumentos w').
Proof.
  intros Hh. unfold ejecutar_herramienta.
  repeat match goal with |- context [if ?b then _ else _] => destruct b end;
    try reflexivity.
  unfold obtener_hora, ahora, reloj. cbn. now rewrite Hh.
Qed.










End Guion.

(* ===================================================================== *)
(** ** Worked runs                                                        *)
(* ===================================================================== *)

Section Corridas.
Import Stub Ejemplos.
#[local] Existing Instance runtime.
#[local] Existing Instance openai.






Lemma unknown_tool_witness :
("traducir" ∉ NOMBRES_RECONOCIDOS) /\
  ejecutar_herramienta "traducir" (ToolCall.arguments traducir) guion_suma
    = (Ret (Some "Error: herramienta 'traducir' no encontrada"), guion_suma).
Proof.
  assert (Hn : "traducir" ∉ NOMBRES_RECONOCIDOS).
  { unfold NOMBRES_RECONOCIDOS. intros Hin.
    repeat (apply elem_of_cons in Hin as [Hin|Hin]; [discriminate|]).
    now apply elem_of_nil in Hin. }
  split; [exact Hn|].
  apply (proj1 (@unknown_tool_yields_error_text runtime mundo reloj openai
                  "traducir" Hn)).
Defined.

Lemma delegation_witness :
  let argumentos := [("tipo_experto", PStr "matematicas"); ("consulta", PStr "2+2")] in
  let o := AgenteOrquestador.init None in
  let w := guion [] [Some "4"] in
  let w1 := snd (stub_chat (Agente.messages ExpertoMatematicas
                            ++ [mensaje "user" (PStr "2+2")])%list None w) in
  let e' := Agente.append (mensaje "assistant" (PStr "4"))
              (Agente.append (mensaje "user" (PStr "2+2")) ExpertoMatematicas) in
  let o' := AgenteOrquestador.con_expertos o
              (<["matematicas" := e']> (AgenteOrquestador.expertos o)) in
  AgenteOrquestador.ejecutar_llamadas 1 false
    [{| ToolCall.id := "call_1"; ToolCall.name := "consultar_agente_experto";
        ToolCall.arguments := argumentos |}] (o, w)
  = (Returned tt,
     (AgenteOrquestador.append
        (create_tool_result_message "call_1" (Some "4") "consultar_agente_experto") o',
      w1)) /\
  AgenteOrquestador.expertos o' !! "cocina" = Some ExpertoCocinero.
Proof.
  cbn zeta.
  destruct (proj1 (proj2 (@delegation_reaches_only_the_named_expert
                            runtime mundo reloj openai))
              1%nat false "call_1"
              [("tipo_experto", PStr "matematicas"); ("consulta", PStr "2+2")] []
              (AgenteOrquestador.init None) (guion [] [Some "4"]) _
              ExpertoMatematicas (PStr "2+2") (Some "4")
              eq_refl eq_refl eq_refl eq_refl eq_refl)
    as (Hstep & _ & _ & Hcocina).
  split; [exact Hstep|]. etrans; [exact Hcocina | vm_compute; reflexivity].
Defined.


Lemma division_by_zero_witness :
  py_ne_cero (PInt 0) = false /\
  calculadora (PStr "dividir") (PInt 5) (PInt 0)
    = Ret "El resultado de 5 dividir 0 = Error: división por cero" /\
  py_gt_cero (PInt 0) = Ret false /\
  calcular_calorias pollo_y_otro (PInt 0) <> Raise ZeroDivisionError.
Proof.
  split; [reflexivity|]. split.
  - apply (proj1 (proj1 (@division_by_zero_is_reported runtime mundo reloj)
                    (PInt 5) (PInt 0) eq_refl)).
  - split; [reflexivity|].
    apply (proj1 (proj2 (proj2 (@division_by_zero_is_reported runtime mundo reloj))
                    pollo_y_otro (PInt 0) eq_refl)).
Defined.


Lemma reserved_name_witness :
  "obtener_hora" <> "consultar_agente_experto" /\
  fst (ejecutar_herramienta "obtener_hora" [] guion_suma)
    = Ret (Some "Fecha y hora actual: 2024-01-01 12:00:00") /\
  exists s, Some "Fecha y hora actual: 2024-01-01 12:00:00" = Some s.
Proof.
  assert (Hn : "obtener_hora" <> "consultar_agente_experto") by discriminate.
  split; [exact Hn|]. split; [reflexivity|].
  apply (proj1 (proj2 (@reserved_name_and_who_intercepts_it runtime mundo reloj openai))
           "obtener_hora" [] guion_suma _ Hn eq_refl).
Defined.

End Corridas.

(* ===================================================================== *)
(** ** Further properties of the tools                                    *)
(* ===================================================================== *)

Section Vinculacion.
Context `{PyRuntime} {W : Type} `{Reloj W}.

(** With distinct keys, the order of the entries does not matter to a
    lookup. *)
Lemma dict_get_Permutation (d d' : list (string * pyval)) k :
  NoDup (map fst d) -> Permutation d d' -> dict_get d k = dict_get d' k.
Proof.
  intros Hn Hp.
  induction Hp as [|[k0 v0] l l' Hp IH|[k1 v1] [k2 v2] l|l1 l2 l3 H12 IH12 H23 IH23].
  - reflexivity.
  - cbn. cbn in Hn. apply NoDup_cons in Hn as [_ Hn]. rewrite (IH Hn). reflexivity.
  - cbn. cbn in Hn. apply NoDup_cons in Hn as [Hnotin _].
    destruct (String.eqb_spec k2 k), (String.eqb_spec k1 k); subst; try reflexivity.
    exfalso. apply Hnotin. now left.
  - rewrite IH12 by assumption. apply IH23.
    eapply NoDup_Permutation_proper; [|exact Hn].
    symmetry. now apply Permutation_map.
Qed.

Lemma bind_kwargs_Permutation params (d d' : list (string * pyval)) :
  NoDup (map fst d) -> Permutation d d' -> bind_kwargs params d = bind_kwargs params d'.
Proof.
  intros Hn Hp. unfold bind_kwargs.
  assert (Hf : forallb (fun kv => existsb (String.eqb (fst kv)) params) d
               = forallb (fun kv => existsb (String.eqb (fst kv)) params) d').
  { apply eq_true_iff_eq. rewrite !forallb_forall. split; intros Hall x Hx; apply Hall.
    - eapply Permutation_in; [symmetry; exact Hp | exact Hx].
    - eapply Permutation_in; [exact Hp | exact Hx]. }
  rewrite Hf. destruct (forallb _ d'); [|reflexivity]. clear Hf.
  generalize params. intros l. induction l as [|p ps IH]; [reflexivity|].
  rewrite (dict_get_Permutation d d' p Hn Hp).
  destruct (dict_get d' p); [|reflexivity]. f_equal. exact IH.
Qed.

(** X1.  The dispatcher unpacks the arguments by name: two argument dicts
    with the same entries in a different order (keys distinct, as in any
    Python dict) give the same result and the same world. *)
Theorem argument_order_is_irrelevant nombre (d d' : list (string * pyval)) (w : W) :
  NoDup (map fst d) -> Permutation d d' ->
  ejecutar_herramienta nombre d w = ejecutar_herramienta nombre d' w.
Proof.
  intros Hn Hp. unfold ejecutar_herramienta.
  rewrite !(bind_kwargs_Permutation _ d d' Hn Hp). reflexivity.
Qed.

(** A key that names no parameter fails the binding. *)
Lemma bind_kwargs_sobra params (d : list (string * pyval)) k :
  In k (map fst d) -> ~ In k params -> bind_kwargs params d = Raise TypeError.
Proof.
  intros Hk Hp. unfold bind_kwargs.
  destruct (forallb _ d) eqn:Hf; [|reflexivity].
  exfalso. rewrite forallb_forall in Hf.
  apply in_map_iff in Hk as ([k' v] & <- & Hin).
  specialize (Hf _ Hin). cbn in Hf.
  apply existsb_exists in Hf as (p & Hp' & He).
  apply String.eqb_eq in He. subst. now apply Hp.
Qed.

(** When every key names a parameter and every parameter is given, the
    binding yields the values in parameter order. *)
Lemma bind_kwargs_exacto params (d : list (string * pyval)) :
  (forall k, In k (map fst d) -> In k params) ->
  (forall p, In p params -> In p (map fst d)) ->
  exists vs, bind_kwargs params d = Ret vs /\
             map (dict_get d) params = map Some vs.
Proof.
  intros Hsub Hsup. unfold bind_kwargs.
  assert (Hf : forallb (fun kv => existsb (String.eqb (fst kv)) params) d = true).
  { apply forallb_forall. intros [k v] Hin. cbn. apply existsb_exists.
    exists k. split; [|apply String.eqb_refl].
    apply Hsub, in_map_iff. now exists (k, v). }
  rewrite Hf. clear Hf Hsub.
  induction params as [|p ps IH]; [now exists []|].
  assert (Hp : exists v, dict_get d p = Some v).
  { specialize (Hsup p (or_introl eq_refl)). clear IH.
    induction d as [|[k v] d IHd]; [destruct Hsup|].
    cbn. destruct (String.eqb_spec k p) as [->|Hne]; [now exists v|].
    apply IHd. destruct Hsup as [Heq|Hin]; [cbn in Heq; congruence | exact Hin]. }
  destruct Hp as [v Hv].
  destruct IH as (vs & Hvs & Hmap); [intros q Hq; apply Hsup; now right|].
  exists (v :: vs). rewrite Hv, Hvs. cbn. rewrite Hv, Hmap. split; reflexivity.
Qed.

(** X2.  What the dispatcher demands of the arguments of the two tools that
    take parameters: given exactly the parameters, the tool runs on the
    values found under their names; one key more and [TypeError] is raised
    before the tool runs.  [obtener_hora] is called without arguments, so
    whatever the model sent is ignored. *)
Theorem dispatcher_binds_exactly_the_parameters :
  (forall d (w : W),
     (forall k, In k (map fst d) <-> In k ["operacion"; "a"; "b"]) ->
     exists operacion a b,
       dict_get d "operacion" = Some operacion /\ dict_get d "a" = Some a /\
       dict_get d "b" = Some b /\
       ejecutar_herramienta "calculadora" d w
       = (let* r := calculadora operacion a b in Ret (Some r), w)) /\
  (forall d (w : W),
     (forall k, In k (map fst d) <-> In k ["ingredientes"; "num_porciones"]) ->
     exists ingredientes num_porciones,
       dict_get d "ingredientes" = Some ingredientes /\
       dict_get d "num_porciones" = Some num_porciones /\
       ejecutar_herramienta "calcular_calorias" d w
       = (let* r := calcular_calorias ingredientes num_porciones in Ret (Some r), w)) /\
  (forall d k (w : W),
     In k (map fst d) -> ~ In k ["operacion"; "a"; "b"] ->
     ejecutar_herramienta "calculadora" d w = (Raise TypeError, w)) /\
  (forall d k (w : W),
     In k (map fst d) -> ~ In k ["ingredientes"; "num_porciones"] ->
     ejecutar_herramienta "calcular_calorias" d w = (Raise TypeError, w)) /\
  (forall d (w : W),
     ejecutar_herramienta "obtener_hora" d w = ejecutar_herramienta "obtener_hora" [] w).
Proof.
  refine (conj _ (conj _ (conj _ (conj _ _)))).
  - intros d w Hk.
    destruct (bind_kwargs_exacto ["operacion"; "a"; "b"] d) as (vs & Hb & Hm);
      [intros k; apply Hk | intros k; apply Hk |].
    destruct vs as [|op [|a [|b [|? ?]]]]; try discriminate Hm.
    cbn in Hm. injection Hm as Hop Ha Hb'.
    exists op, a, b. refine (conj Hop (conj Ha (conj Hb' _))).
    unfold ejecutar_herramienta. cbn [String.eqb Ascii.eqb Bool.eqb].
    rewrite Hb. reflexivity.
  - intros d w Hk.
    destruct (bind_kwargs_exacto ["ingredientes"; "num_porciones"] d) as (vs & Hb & Hm);
      [intros k; apply Hk | intros k; apply Hk |].
    destruct vs as [|i [|n [|? ?]]]; try discriminate Hm.
    cbn in Hm. injection Hm as Hi Hn.
    exists i, n. refine (conj Hi (conj Hn _)).
    unfold ejecutar_herramienta. cbn [String.eqb Ascii.eqb Bool.eqb].
    rewrite Hb. reflexivity.
  - intros d k w Hin Hnot. unfold ejecutar_herramienta.
    cbn [String.eqb Ascii.eqb Bool.eqb].
    now rewrite (bind_kwargs_sobra _ d k Hin Hnot).
  - intros d k w Hin Hnot. unfold ejecutar_herramienta.
    cbn [String.eqb Ascii.eqb Bool.eqb].
    now rewrite (bind_kwargs_sobra _ d k Hin Hnot).
  - intros d w. reflexivity.
Qed.

(** X3.  Only [obtener_hora] touches the world: any other name, known or
    not, leaves the world as it was and gives a result that does not depend
    on it. *)
Theorem only_the_clock_tool_reads_the_world nombre argumentos (w w' : W) :
  nombre <> "obtener_hora" ->
  snd (ejecutar_herramienta nombre argumentos w) = w /\
  fst (ejecutar_herramienta nombre argumentos w)
  = fst (ejecutar_herramienta nombre argumentos w').
Proof.
  intros Hn. apply String.eqb_neq in Hn. unfold ejecutar_herramienta. rewrite Hn.
  repeat match goal with |- context [if ?b then _ else _] => destruct b end;
    split; reflexivity.
Qed.

End Vinculacion.

Section Calculadora.
Context `{PyRuntime}.


End Calculadora.

Section PrimeraCoincidencia.

(** The lookup loop stops at the first entry that matches. *)
Lemma buscar_primera db nombre cal :
  buscar db nombre = Some cal <->
  exists pre key post,
    db = (pre ++ (key, cal) :: post)%list /\
    coincide nombre key = true /\
    Forall (fun kc => coincide nombre (fst kc) = false) pre.
Proof.
  split.
  - induction db as [|[key c] rest IH]; [discriminate|].
    cbn. destruct (coincide nombre key) eqn:Hc.
    + intros [= <-]. exists [], key, rest. now repeat split.
    + intros Hb. destruct (IH Hb) as (pre & k & post & -> & Hk & Hpre).
      exists ((key, c) :: pre), k, post. repeat split; [exact Hk|].
      constructor; [exact Hc | exact Hpre].
  - intros (pre & key & post & -> & Hk & Hpre).
    induction Hpre as [|[k c] pre Hc Hpre IH]; cbn.
    + now rewrite Hk.
    + cbn in Hc. now rewrite Hc.
Qed.

(** X5.  An ingredient gets the calories of the first entry of the table, in
    the order of the source, whose key contains its name or is contained in
    it.  So any name that mentions [pollo] counts 165 kcal per 100 g, and so
    does the empty name, which is contained in the first key; and every key
    of the table used as a name gets its own value, with one exception: [sal]
    is found inside [salmon], which comes first, and counts 208 instead
    of 0. *)
Theorem first_matching_entry_wins :
  (forall db nombre cal,
     buscar db nombre = Some cal <->
     exists pre key post,
       db = (pre ++ (key, cal) :: post)%list /\
       coincide nombre key = true /\
       Forall (fun kc => coincide nombre (fst kc) = false) pre) /\
  (forall nombre,
     contiene nombre "pollo" = true -> buscar calorias_por_100g nombre = Some 165) /\
  buscar calorias_por_100g "" = Some 165 /\
  Forall (fun kc => buscar calorias_por_100g (fst kc)
                    = Some (if String.eqb (fst kc) "sal" then 208 else snd kc))
         calorias_por_100g.
Proof.
  refine (conj buscar_primera (conj _ (conj _ _))).
  - intros nombre Hc. unfold calorias_por_100g. cbn [buscar].
    unfold coincide at 1. now rewrite Hc.
  - reflexivity.
  - unfold calorias_por_100g. repeat constructor.
Qed.

End PrimeraCoincidencia.

Section RecetaVacia.
Context `{PyRuntime}.

(** Dividing zero by a positive float gives a zero. *)
Lemma cero_entre_positivo (f : float) :
  PrimFloat.ltb PrimFloat.zero f = true ->
  PrimFloat.eqb f PrimFloat.zero = false /\
  exists s, FloatOps.Prim2SF (PrimFloat.div PrimFloat.zero f) = SpecFloat.S754_zero s.
Proof.
  rewrite FloatAxioms.ltb_spec, FloatAxioms.eqb_spec, FloatAxioms.div_spec.
  change (FloatOps.Prim2SF PrimFloat.zero) with (SpecFloat.S754_zero false).
  destruct (FloatOps.Prim2SF f) as [s|s| |s m e]; cbn; try discriminate;
    destruct s; try discriminate; intros _; split; try reflexivity; eexists; reflexivity.
Qed.

(** X6.  A recipe without ingredients is not an error: for every number of
    portions (an int, a bool or a float, positive or not) the report has no
    breakdown lines and shows 0 kcal in total and per portion.  An empty
    string or an empty dict given as the ingredients is taken for the empty
    list; portions that are not a number raise [TypeError]. *)
Theorem empty_recipe_gives_the_zero_report (num_porciones : pyval) :
  (forall n, como_numero num_porciones = Some n ->
     calcular_calorias (PList []) num_porciones
     = Ret (informe [] 0 num_porciones 0)) /\
  (como_numero num_porciones = None ->
     calcular_calorias (PList []) num_porciones = Raise TypeError) /\
  calcular_calorias (PStr "") num_porciones
  = calcular_calorias (PList []) num_porciones /\
  calcular_calorias (PDict []) num_porciones
  = calcular_calorias (PList []) num_porciones.
Proof.
  refine (conj _ (conj _ (conj _ _))); try reflexivity.
  - intros n Hn. unfold calcular_calorias. cbn [py_iter res_bind bucle_ingredientes].
    unfold py_gt_cero. rewrite Hn. cbn [res_bind].
    destruct n as [z|f]; cbn [num_positivo].
    + destruct (0 <? z) eqn:Hz; [|reflexivity].
      unfold py_truediv. rewrite Hn. cbn [como_numero num_truediv].
      destruct z as [|p|p]; try discriminate Hz.
      cbn [Z.eqb sf_of_Z SpecFloat.SFdiv xorb].
      vm_compute (FloatOps.SF2Prim (SpecFloat.S754_zero false)).
      reflexivity.
    + destruct (PrimFloat.ltb PrimFloat.zero f) eqn:Hf; [|reflexivity].
      destruct (cero_entre_positivo f Hf) as (He & s & Hs).
      unfold py_truediv. rewrite Hn. cbn [como_numero num_truediv a_float].
      change (float_of_int 0) with (Ret PrimFloat.zero : res float).
      cbn [res_bind]. rewrite He. cbn [res_bind py_int como_numero num_int].
      rewrite Hs. reflexivity.
  - intros Hn. unfold calcular_calorias. cbn [py_iter res_bind bucle_ingredientes].
    unfold py_gt_cero. rewrite Hn. reflexivity.
Qed.

End RecetaVacia.

Section IngredienteMalFormado.
Context `{PyRuntime}.

Lemma bucle_ingredientes_app (ings1 ings2 : list pyval) acc :
  bucle_ingredientes (ings1 ++ ings2) acc
  = let* acc' := bucle_ingredientes ings1 acc in bucle_ingredientes ings2 acc'.
Proof.
  revert acc. induction ings1 as [|ing ings1 IH]; intros acc; [reflexivity|].
  cbn [app bucle_ingredientes].
  destruct (paso_ingrediente ing acc) as [acc'|e]; [|reflexivity].
  cbn [res_bind]. apply IH.
Qed.

(** X24.  One malformed ingredient spoils the whole report.  The ingredients
    are read in order, before the number of portions is looked at: if those
    before it go through, an ingredient on which the loop raises makes
    [calcular_calorias] raise the same exception, whatever follows it and
    whatever the portions are.  What is raised: [TypeError] for an
    ingredient that is not a dict, [KeyError] for one without [nombre],
    [AttributeError] for a [nombre] that is not a string, and [KeyError]
    for one without [cantidad_gramos]. *)
Theorem malformed_ingredient_aborts_the_report :
  (forall pre bad post num_porciones acc e,
     bucle_ingredientes pre (PInt 0, []) = Ret acc ->
     paso_ingrediente bad acc = Raise e ->
     calcular_calorias (PList (pre ++ bad :: post)) num_porciones = Raise e) /\
  (forall bad acc,
     match bad with
     | PDict d =>
         match dict_get d "nombre" with
         | None => paso_ingrediente bad acc = Raise KeyError
         | Some (PStr _) =>
             dict_get d "cantidad_gramos" = None ->
             paso_ingrediente bad acc = Raise KeyError
         | Some _ => paso_ingrediente bad acc = Raise AttributeError
         end
     | _ => paso_ingrediente bad acc = Raise TypeError
     end).
Proof.
  split.
  - intros pre bad post np acc e Hpre Hbad. unfold calcular_calorias.
    cbn [py_iter res_bind]. rewrite bucle_ingredientes_app, Hpre.
    cbn [res_bind bucle_ingredientes]. now rewrite Hbad.
  - intros bad [total detalles]. unfold paso_ingrediente.
    destruct bad as [| | | | |l|d]; try reflexivity.
    cbn [py_getitem]. destruct (dict_get d "nombre") as [v|]; [|reflexivity].
    cbn [res_bind]. destruct v; try reflexivity.
    intros Hg. cbn [py_lower res_bind]. now rewrite Hg.
Qed.

End IngredienteMalFormado.

(* ===================================================================== *)
(** ** Further properties of the agents                                   *)
(* ===================================================================== *)

Import Vocabulario.

Section SinHerramientas.
Context `{PyRuntime} {W : Type} `{Reloj W} `{LLMClient W}.

Lemma pensar_sin_herramientas fuel msg verbose (a : Agente.t) (w : W) :
  Agente.tools a = [] ->
  AgenteConHerramientas.pensar fuel msg verbose (a, w) = AgenteBase.pensar msg (a, w).
Proof.
  intros Ht. unfold AgenteConHerramientas.pensar, AgenteBase.pensar. desplegar.
  unfold Agente.append at 1. cbn [Agente.tools Agente.con_messages]. rewrite Ht.
  reflexivity.
Qed.

(** [AgenteBase.pensar] reads the history and the model, nothing else. *)
Lemma base_pensar_igual msg (a b : Agente.t) (w : W) :
  Agente.messages a = Agente.messages b -> Agente.model a = Agente.model b ->
  fst (AgenteBase.pensar msg (a, w)) = fst (AgenteBase.pensar msg (b, w)) /\
  snd (snd (AgenteBase.pensar msg (a, w))) = snd (snd (AgenteBase.pensar msg (b, w))) /\
  Agente.messages (fst (snd (AgenteBase.pensar msg (a, w))))
  = Agente.messages (fst (snd (AgenteBase.pensar msg (b, w)))).
Proof.
  intros Hms Hm. unfold AgenteBase.pensar. desplegar.
  cbn [Agente.messages Agente.model Agente.append Agente.con_messages].
  rewrite Hms, Hm.
  destruct (chat _ _ w) as [[r|e] w']; cbn; now rewrite ?Hms.
Qed.

(** What a session of a tool-less [AgenteConHerramientas] and of an
    [AgenteBase] have in common. *)
Lemma sesion_sin_herramientas ops (a b : Agente.t) (w : W) :
  Agente.clase a = ClaseConHerramientas -> Agente.clase b = ClaseBase ->
  Agente.tools a = [] ->
  Agente.model a = Agente.model b ->
  Agente.system_prompt a = Agente.system_prompt b ->
  Agente.messages a = Agente.messages b ->
  snd (sesion_agente ops (a, w)) = snd (sesion_agente ops (b, w)) /\
  Agente.messages (fst (sesion_agente ops (a, w)))
  = Agente.messages (fst (sesion_agente ops (b, w))).
Proof.
  revert a b w. induction ops as [|op ops IH]; intros a b w Ha Hb Ht Hm Hsp Hms.
  - split; [reflexivity | exact Hms].
  - cbn [sesion_agente fold_left]. fold (sesion_agente ops).
    destruct op as [fuel msg verbose|]; cbn [paso_agente fst snd].
    + unfold pensar_de. rewrite Ha, Hb.
      rewrite (pensar_sin_herramientas fuel msg verbose a w Ht).
      destruct (base_pensar_igual msg a b w Hms Hm) as (_ & Hw & Hh).
      destruct (base_pensar_crece msg a w) as (Hc1 & Hp1 & Hm1 & Ht1 & _).
      destruct (base_pensar_crece msg b w) as (Hc2 & Hp2 & Hm2 & Ht2 & _).
      destruct (AgenteBase.pensar msg (a, w)) as [ra [a' wa]].
      destruct (AgenteBase.pensar msg (b, w)) as [rb [b' wb]].
      cbn [fst snd] in *. subst wb. apply IH; congruence.
    + apply IH; cbn; congruence.
Qed.

(** X7.  An [AgenteConHerramientas] without tools is a plain agent: its
    [pensar] is [AgenteBase.pensar] (one [chat] call, no loop, so no bound is
    needed and [verbose] plays no part), and through any sequence of calls an
    agent built with [tools=None] or [tools=[]] leaves the same history and
    the same world as an [AgenteBase] built with the same prompt. *)
Theorem agent_without_tools_is_a_plain_agent :
  (forall fuel msg verbose (a : Agente.t) (w : W),
     Agente.tools a = [] ->
     AgenteConHerramientas.pensar fuel msg verbose (a, w)
     = AgenteBase.pensar msg (a, w)) /\
  (forall sp ts m ops (w : W),
     ts = None \/ ts = Some [] ->
     let s1 := sesion_agente ops (AgenteConHerramientas.init sp ts m, w) in
     let s2 := sesion_agente ops (AgenteBase.init sp m, w) in
     snd s1 = snd s2 /\ Agente.messages (fst s1) = Agente.messages (fst s2)).
Proof.
  split; [exact pensar_sin_herramientas|].
  intros sp ts m ops w Hts.
  apply sesion_sin_herramientas; try reflexivity.
  destruct Hts as [-> | ->]; reflexivity.
Qed.

End SinHerramientas.

Section Conversacion.
Import Stub.
Context `{PyRuntime} (c : LLMClient mundo) `{!Guionizado c}.

(** One answered question of a plain agent under the scripted provider. *)
Lemma base_pensar_guion msg (a : Agente.t) (w : mundo) r rest :
  respuestas_chat w = r :: rest ->
  AgenteBase.pensar msg (a, w) =
  (Returned r,
   (Agente.append (mensaje "assistant" (de_texto r))
      (Agente.append (mensaje "user" msg) a),
    {| respuestas_tools := respuestas_tools w; respuestas_chat := rest;
       hora := hora w;
       llamadas := (llamadas w
                    ++ [Chat (Agente.messages a ++ [mensaje "user" msg])
                             (Agente.model a)])%list |})).
Proof.
  intros Hr. unfold AgenteBase.pensar. desplegar.
  rewrite chat_guion. unfold stub_chat. rewrite Hr. reflexivity.
Qed.

(** X8.  A plain agent keeps the whole conversation and sends all of it each
    time: after [n] questions answered by the provider, the history is the
    old one followed by the [n] question/answer pairs in order, and the
    [k]-th request carried the history with the first [k-1] pairs and the
    [k]-th question; each question costs exactly one [chat] call. *)
Theorem plain_agent_sends_the_whole_conversation
    fuel verbose (msgs : list pyval) (resps rest : list texto)
    (a : Agente.t) (w : mundo) :
  Agente.clase a = ClaseBase ->
  respuestas_chat w = (resps ++ rest)%list ->
  length msgs = length resps ->
  let s' := sesion_agente (map (fun m => Pensar fuel m verbose) msgs) (a, w) in
  Agente.messages (fst s') = (Agente.messages a ++ pares_chat msgs resps)%list /\
  llamadas (snd s')
  = (llamadas w ++ llamadas_chat (Agente.model a) (Agente.messages a) msgs resps)%list /\
  respuestas_chat (snd s') = rest /\
  respuestas_tools (snd s') = respuestas_tools w.
Proof.
  revert resps a w.
  induction msgs as [|m ms IH]; intros [|r rs] a w Hc Hr Hl; try discriminate Hl.
  - cbn. rewrite !app_nil_r. now repeat split.
  - injection Hl as Hl.
    set (a1 := Agente.append (mensaje "assistant" (de_texto r))
                 (Agente.append (mensaje "user" m) a)).
    set (w1 := {| respuestas_tools := respuestas_tools w;
                  respuestas_chat := (rs ++ rest)%list;
                  hora := hora w;
                  llamadas := (llamadas w
                               ++ [Chat (Agente.messages a ++ [mensaje "user" m])
                                        (Agente.model a)])%list |}).
    assert (Hpaso : sesion_agente (map (fun m => Pensar fuel m verbose) (m :: ms)) (a, w)
                    = sesion_agente (map (fun m => Pensar fuel m verbose) ms) (a1, w1)).
    { cbn [map sesion_agente fold_left paso_agente fst snd].
      unfold pensar_de. rewrite Hc.
      now rewrite (base_pensar_guion m a w r (rs ++ rest)%list Hr). }
    intros s'. subst s'. rewrite Hpaso.
    destruct (IH rs a1 w1 Hc eq_refl Hl) as (Hm & Hll & Hrc & Hrt).
    refine (conj _ (conj _ (conj Hrc Hrt))).
    + rewrite Hm. subst a1.
      cbn [Agente.append Agente.con_messages Agente.messages pares_chat].
      now rewrite <- !app_assoc.
    + rewrite Hll. subst a1 w1.
      cbn [Agente.append Agente.con_messages Agente.messages Agente.model
           llamadas llamadas_chat].
      now rewrite <- !app_assoc.
Qed.

End Conversacion.

Section MensajeDelUsuario.
Context `{PyRuntime} {W : Type} `{Reloj W} `{LLMClient W}.

(** A list that extends [l ++ [x]] and ends with [y <> x] has [y] at the end
    of the extension. *)
Lemma extension_termina {A} (l k l1 : list A) (x y : A) :
  x <> y -> ((l ++ [x]) ++ k = l1 ++ [y])%list -> exists pre, k = (pre ++ [y])%list.
Proof.
  intros Hxy He. destruct k as [|z k'] using rev_ind.
  - rewrite app_nil_r in He. apply app_inj_tail in He as [_ Hx]. contradiction.
  - clear IHk'. rewrite app_assoc in He. apply app_inj_tail in He as [_ ->].
    now exists k'.
Qed.

(** X9.  The user's message stays in the history however the call ends: after
    [procesar] (and after [pensar] of either agent class) the history is the
    old one, then the user message, then whatever the turn added; when the
    call returns a text, the last entry is that text as the assistant
    message.  In particular, if the provider fails on the first request the
    exception goes through and the history has grown by the user message
    alone, so asking again sends the question twice. *)
Theorem user_message_stays_however_the_call_ends :
  (forall fuel msg verbose (o o' : AgenteOrquestador.t) (w w' : W) r,
     AgenteOrquestador.procesar fuel msg verbose (o, w) = (r, (o', w')) ->
     exists extra,
       AgenteOrquestador.messages o'
       = (AgenteOrquestador.messages o ++ mensaje "user" (PStr msg) :: extra)%list /\
       forall t, r = Returned t ->
         exists pre, extra = (pre ++ [mensaje "assistant" (de_texto t)])%list) /\
  (forall fuel e msg verbose (a a' : Agente.t) (w w' : W) r,
     pensar_de fuel e msg verbose (a, w) = (r, (a', w')) ->
     exists extra,
       Agente.messages a' = (Agente.messages a ++ mensaje "user" msg :: extra)%list /\
       forall t, r = Returned t ->
         exists pre, extra = (pre ++ [mensaje "assistant" (de_texto t)])%list) /\
  (forall fuel msg verbose (o : AgenteOrquestador.t) (w w' : W) e,
     chat_with_tools (AgenteOrquestador.messages o ++ [mensaje "user" (PStr msg)])%list
       TOOLS_DEFINITION (AgenteOrquestador.model o) w = (Raise e, w') ->
     AgenteOrquestador.procesar (S fuel) msg verbose (o, w)
     = (Raised e, (AgenteOrquestador.append (mensaje "user" (PStr msg)) o, w'))).
Proof.
  refine (conj _ (conj _ _)).
  - intros fuel msg verbose o o' w w' r Hp.
    unfold AgenteOrquestador.procesar in Hp. rewrite bind_eq in Hp.
    cbn [mutar fst snd] in Hp.
    pose proof (orquestador_bucle_crece fuel fuel verbose
                  (AgenteOrquestador.append (mensaje "user" (PStr msg)) o) w) as Hc.
    rewrite Hp in Hc. cbn [fst snd] in Hc.
    destruct Hc as (_ & _ & [k Hk] & _).
    cbn [AgenteOrquestador.append AgenteOrquestador.con_messages
         AgenteOrquestador.messages] in Hk.
    exists k. split; [rewrite Hk; now rewrite <- app_assoc|].
    intros t ->.
    apply orquestador_bucle_Returned in Hp as (o1 & w0 & w1 & r1 & _ & _ & _ & Hs).
    injection Hs as -> ->.
    cbn [AgenteOrquestador.append AgenteOrquestador.con_messages
         AgenteOrquestador.messages] in Hk.
    eapply extension_termina; [|symmetry; exact Hk]. discriminate.
  - intros fuel e msg verbose a a' w w' r Hp.
    assert (Hbase : forall r a' w',
              AgenteBase.pensar msg (a, w) = (r, (a', w')) ->
              exists extra,
                Agente.messages a' = (Agente.messages a ++ mensaje "user" msg :: extra)%list /\
                forall t, r = Returned t ->
                  exists pre, extra = (pre ++ [mensaje "assistant" (de_texto t)])%list).
    { clear. intros r a' w'. unfold AgenteBase.pensar. desplegar.
      destruct (chat _ _ w) as [[t|ex] w1]; cbn [fst snd]; intros [= <- <- <-].
      - exists [mensaje "assistant" (de_texto t)].
        cbn [Agente.append Agente.con_messages Agente.messages].
        split; [now rewrite <- app_assoc|]. intros t' [= <-]. now exists [].
      - exists []. split; [reflexivity|]. discriminate. }
    unfold pensar_de in Hp. destruct (Agente.clase e); [exact (Hbase _ _ _ Hp)|].
    destruct (Agente.tools a) as [|ts0 ts] eqn:Ht.
    { rewrite (pensar_sin_herramientas fuel msg verbose a w Ht) in Hp.
      exact (Hbase _ _ _ Hp). }
    assert (Hb : AgenteConHerramientas.bucle fuel verbose
                   (Agente.append (mensaje "user" msg) a, w) = (r, (a', w'))).
    { rewrite <- Hp. unfold AgenteConHerramientas.pensar. desplegar.
      change (Agente.tools (Agente.append (mensaje "user" msg) a))
        with (Agente.tools a).
      rewrite Ht. reflexivity. }
    clear Hp.
    pose proof (agente_bucle_crece fuel verbose
                  (Agente.append (mensaje "user" msg) a) w) as Hc.
    rewrite Hb in Hc. cbn [fst snd] in Hc.
    destruct Hc as (_ & _ & _ & _ & [k Hk]).
    cbn [Agente.append Agente.con_messages Agente.messages] in Hk.
    exists k. split; [rewrite Hk; now rewrite <- app_assoc|].
    intros t ->.
    apply agente_bucle_Returned in Hb as (a1 & w0 & w1 & r1 & _ & _ & _ & Hs).
    injection Hs as -> ->.
    cbn [Agente.append Agente.con_messages Agente.messages] in Hk.
    eapply extension_termina; [|symmetry; exact Hk]. discriminate.
  - intros fuel msg verbose o w w' e Hc.
    unfold AgenteOrquestador.procesar. rewrite bind_eq. cbn [mutar fst snd].
    cbn [AgenteOrquestador.bucle]. desplegar.
    cbn [AgenteOrquestador.append AgenteOrquestador.con_messages
         AgenteOrquestador.messages AgenteOrquestador.model].
    rewrite Hc. reflexivity.
Qed.

End MensajeDelUsuario.

Section Expertos.
Context `{PyRuntime} {W : Type} `{Reloj W} `{LLMClient W}.

Lemma expertos_crecen_refl o : expertos_crecen o o.
Proof.
  intros k. destruct (AgenteOrquestador.expertos o !! k); [apply crece_refl | exact I].
Qed.

Lemma expertos_crecen_trans o1 o2 o3 :
  expertos_crecen o1 o2 -> expertos_crecen o2 o3 -> expertos_crecen o1 o3.
Proof.
  intros H12 H23 k. specialize (H12 k). specialize (H23 k).
  destruct (AgenteOrquestador.expertos o1 !! k),
           (AgenteOrquestador.expertos o2 !! k),
           (AgenteOrquestador.expertos o3 !! k); try tauto.
  eapply crece_trans; eassumption.
Qed.

Lemma paso_orquestador_expertos s op :
  expertos_crecen (fst s) (fst (paso_orquestador s op)) /\
  AgenteOrquestador.system_prompt (fst (paso_orquestador s op))
  = AgenteOrquestador.system_prompt (fst s) /\
  AgenteOrquestador.model (fst (paso_orquestador s op))
  = AgenteOrquestador.model (fst s).
Proof.
  destruct s as [o w]. destruct op as [fuel msg verbose|]; cbn [paso_orquestador fst snd].
  - destruct (procesar_crece fuel msg verbose o w) as (Hp & Hm & _ & He).
    exact (conj He (conj Hp Hm)).
  - exact (conj (expertos_crecen_refl o) (conj eq_refl eq_refl)).
Qed.

Lemma sesion_orquestador_expertos ops s :
  expertos_crecen (fst s) (fst (sesion_orquestador ops s)) /\
  AgenteOrquestador.system_prompt (fst (sesion_orquestador ops s))
  = AgenteOrquestador.system_prompt (fst s) /\
  AgenteOrquestador.model (fst (sesion_orquestador ops s))
  = AgenteOrquestador.model (fst s).
Proof.
  revert s. induction ops as [|op ops IH]; intros s.
  - exact (conj (expertos_crecen_refl (fst s)) (conj eq_refl eq_refl)).
  - change (sesion_orquestador (op :: ops) s)
      with (sesion_orquestador ops (paso_orquestador s op)).
    destruct (paso_orquestador_expertos s op) as (He & Hp & Hm).
    destruct (IH (paso_orquestador s op)) as (He' & Hp' & Hm').
    refine (conj _ (conj _ _)).
    + eapply expertos_crecen_trans; eassumption.
    + now rewrite Hp'.
    + now rewrite Hm'.
Qed.

(** X10.  The experts outlive the orchestrator's conversations.  Through any
    sequence of [procesar] and [nueva_conversacion] calls no expert is added,
    removed or replaced: each keeps its class, prompt, model and tools, and
    its history is never cut, not even by [nueva_conversacion], which
    resets the orchestrator's history only; the orchestrator's prompt and
    model stay as well.  For a freshly built orchestrator the experts are
    therefore always the four of the constructor, of which only [cocina] is
    a tool-using agent, and each of them calls the provider with the
    client's default model, whatever model the orchestrator was given. *)
Theorem experts_outlive_the_conversations :
  (forall ops (s : AgenteOrquestador.t * W),
     let o' := fst (sesion_orquestador ops s) in
     expertos_crecen (fst s) o' /\
     AgenteOrquestador.system_prompt o' = AgenteOrquestador.system_prompt (fst s) /\
     AgenteOrquestador.model o' = AgenteOrquestador.model (fst s)) /\
  (forall o, AgenteOrquestador.expertos (AgenteOrquestador.nueva_conversacion o)
             = AgenteOrquestador.expertos o) /\
  (forall m ops (w : W) k,
     let o' := fst (sesion_orquestador ops (AgenteOrquestador.init m, w)) in
     match AgenteOrquestador.expertos o' !! k with
     | Some e =>
         Agente.model e = None /\
         ((k = "cocina" /\ Agente.clase e = ClaseConHerramientas /\
           Agente.tools e = TOOLS_COCINERO /\ Agente.system_prompt e = PROMPT_COCINERO) \/
          ((k = "matematicas" /\ Agente.system_prompt e = PROMPT_MATEMATICAS \/
            k = "escritura" /\ Agente.system_prompt e = PROMPT_ESCRITURA \/
            k = "codigo" /\ Agente.system_prompt e = PROMPT_CODIGO) /\
           Agente.clase e = ClaseBase /\ Agente.tools e = []))
     | None => ~ In k ["matematicas"; "escritura"; "codigo"; "cocina"]
     end).
Proof.
  refine (conj _ (conj _ _)).
  - intros ops s. apply sesion_orquestador_expertos.
  - reflexivity.
  - intros m ops w k o'.
    destruct (sesion_orquestador_expertos ops (AgenteOrquestador.init m, w)) as (He & _).
    specialize (He k). fold o' in He. cbn [fst] in He.
    unfold AgenteOrquestador.init in He. cbn [AgenteOrquestador.expertos] in He.
    rewrite !lookup_insert, lookup_empty in He.
    destruct (AgenteOrquestador.expertos o' !! k) as [e|].
    + repeat case_decide; subst; try contradiction;
        destruct He as (Hc & Hp & Hm & Ht & _); rewrite Hc, Hp, Hm, Ht;
        (split; [reflexivity|]).
      * right. split; [left; split; reflexivity | split; reflexivity].
      * right. split; [right; left; split; reflexivity | split; reflexivity].
      * right. split; [right; right; split; reflexivity | split; reflexivity].
      * left. repeat split.
    + repeat case_decide; subst; try contradiction.
      cbn. intros [?|[?|[?|[?|[]]]]]; congruence.
Qed.

End Expertos.

Section DelegacionMalFormada.
Context `{PyRuntime} {W : Type} `{Reloj W} `{LLMClient W}.

Lemma orquestador_llamadas_sin_tipo fuel verbose tc rest
    (o : AgenteOrquestador.t) (w : W) :
  ToolCall.name tc = "consultar_agente_experto" ->
  dict_get (ToolCall.arguments tc) "tipo_experto" = None ->
  AgenteOrquestador.ejecutar_llamadas fuel verbose (tc :: rest) (o, w)
  = (Raised KeyError, (o, w)).
Proof.
  intros Hn Ht. apply String.eqb_eq in Hn as Hb.
  cbn [AgenteOrquestador.ejecutar_llamadas]. rewrite Hb, !bind_eq.
  cbn [py_getitem]. rewrite Ht. reflexivity.
Qed.

Lemma orquestador_llamadas_sin_consulta fuel verbose tc rest
    (o : AgenteOrquestador.t) (w : W) tipo_experto :
  ToolCall.name tc = "consultar_agente_experto" ->
  dict_get (ToolCall.arguments tc) "tipo_experto" = Some tipo_experto ->
  dict_get (ToolCall.arguments tc) "consulta" = None ->
  AgenteOrquestador.ejecutar_llamadas fuel verbose (tc :: rest) (o, w)
  = (Raised KeyError, (o, w)).
Proof.
  intros Hn Ht Hc. apply String.eqb_eq in Hn as Hb.
  cbn [AgenteOrquestador.ejecutar_llamadas]. rewrite Hb, !bind_eq.
  cbn [py_getitem]. rewrite Ht. cbn [puro]. unfold ret at 1. rewrite bind_eq, Hc.
  reflexivity.
Qed.

(** X11.  A delegation call is not validated either.  If the arguments lack
    [tipo_experto] or [consulta], reading them raises [KeyError]; if
    [tipo_experto] is a list or a dict, looking it up raises [TypeError];
    in both cases the turn stops there with nothing appended for the call.
    If [tipo_experto] is any other value that is not a string ([None], a
    bool, a number), no expert is consulted and the tool result is the text
    that no such expert exists, after which the loop goes on. *)
Theorem malformed_delegation fuel verbose tc rest (o : AgenteOrquestador.t) (w : W) :
  ToolCall.name tc = "consultar_agente_experto" ->
  (dict_get (ToolCall.arguments tc) "tipo_experto" = None ->
   AgenteOrquestador.ejecutar_llamadas fuel verbose (tc :: rest) (o, w)
   = (Raised KeyError, (o, w))) /\
  (forall tipo_experto,
     dict_get (ToolCall.arguments tc) "tipo_experto" = Some tipo_experto ->
     dict_get (ToolCall.arguments tc) "consulta" = None ->
     AgenteOrquestador.ejecutar_llamadas fuel verbose (tc :: rest) (o, w)
     = (Raised KeyError, (o, w))) /\
  (forall tipo_experto consulta,
     dict_get (ToolCall.arguments tc) "tipo_experto" = Some tipo_experto ->
     dict_get (ToolCall.arguments tc) "consulta" = Some consulta ->
     match tipo_experto with
     | PList _ | PDict _ =>
         AgenteOrquestador.ejecutar_llamadas fuel verbose (tc :: rest) (o, w)
         = (Raised TypeError, (o, w))
     | PStr _ => True
     | _ =>
         AgenteOrquestador.ejecutar_llamadas fuel verbose (tc :: rest) (o, w)
         = AgenteOrquestador.ejecutar_llamadas fuel verbose rest
             (AgenteOrquestador.append
                (create_tool_result_message (ToolCall.id tc)
                   (Some ("Error: no existe el experto '" +:+ py_str tipo_experto +:+ "'"))
                   "consultar_agente_experto") o, w)
     end).
Proof.
  intros Hn. refine (conj _ (conj _ _)).
  - intros Ht. now apply orquestador_llamadas_sin_tipo.
  - intros t Ht Hc. now apply (orquestador_llamadas_sin_consulta _ _ _ _ _ _ t).
  - intros t c Ht Hc.
    pose proof (orquestador_llamadas_cons_experto fuel verbose tc rest o w t c Hn Ht Hc)
      as Hcons.
    destruct t; try exact I; rewrite Hcons; reflexivity.
Qed.

End DelegacionMalFormada.

(* ===================================================================== *)
(** ** What a history is made of                                          *)
(* ===================================================================== *)

Section Origen.
Context `{PyRuntime} {W : Type} `{Reloj W} `{LLMClient W}.

Lemma anade_refl (l : list Message) : anade l l.
Proof. exists []. split; [now rewrite app_nil_r | constructor]. Qed.

Lemma anade_trans (l1 l2 l3 : list Message) : anade l1 l2 -> anade l2 l3 -> anade l1 l3.
Proof.
  intros (k1 & -> & H1') (k2 & -> & H2'). exists (k1 ++ k2)%list.
  split; [now rewrite app_assoc | now apply Forall_app].
Qed.

Lemma anade_luego (l1 l2 l3 : list Message) : anade l2 l3 -> anade l1 l2 -> anade l1 l3.
Proof. intros H23 H12. eapply anade_trans; eassumption. Qed.

Lemma anade_append (l : list Message) m : origen m -> anade l (l ++ [m])%list.
Proof. intros Hm. exists [m]. split; [reflexivity | now constructor]. Qed.

Lemma anade_agente m (a : Agente.t) :
  origen m -> anade (Agente.messages a) (Agente.messages (Agente.append m a)).
Proof. apply anade_append. Qed.

Lemma base_pensar_anade msg (a : Agente.t) (w : W) :
  anade (Agente.messages a) (Agente.messages (fst (snd (AgenteBase.pensar msg (a, w))))).
Proof.
  unfold AgenteBase.pensar. desplegar.
  destruct (chat _ _ w) as [[r|e] w']; cbn [fst snd].
  - eapply anade_luego; apply anade_agente; constructor.
  - apply anade_agente; constructor.
Qed.

Lemma agente_llamadas_anade verbose calls (a : Agente.t) (w : W) :
  anade (Agente.messages a)
    (Agente.messages
       (fst (snd (AgenteConHerramientas.ejecutar_llamadas verbose calls (a, w))))).
Proof.
  revert a w. induction calls as [|tc rest IH]; intros a w; [apply anade_refl|].
  rewrite agente_llamadas_cons.
  destruct (ejecutar_herramienta _ _ w) as [[r|e] w']; [|apply anade_refl].
  destruct (verbose && _); [apply anade_refl|].
  eapply anade_luego; [apply IH | apply anade_agente; constructor].
Qed.

Lemma agente_bucle_anade fuel verbose (a : Agente.t) (w : W) :
  anade (Agente.messages a)
    (Agente.messages (fst (snd (AgenteConHerramientas.bucle fuel verbose (a, w))))).
Proof.
  revert a w. induction fuel as [|fuel IH]; intros a w; [apply anade_refl|].
  cbn [AgenteConHerramientas.bucle]. desplegar.
  destruct (chat_with_tools _ _ _ w) as [[r|e] w']; [|apply anade_refl].
  destruct (LLMResponse.tool_calls r) as [|tc calls] eqn:Hc.
  - apply anade_agente; constructor.
  - pose proof (agente_llamadas_anade verbose (tc :: calls)
                  (Agente.append (create_assistant_message_with_tools r) a) w') as Hl.
    destruct (AgenteConHerramientas.ejecutar_llamadas _ _ _) as [[[]|e|] [a2 w2]];
      cbn [fst snd] in Hl.
    + eapply anade_luego; [apply IH|].
      eapply anade_luego; [exact Hl | apply anade_agente; constructor].
    + eapply anade_luego; [exact Hl | apply anade_agente; constructor].
    + eapply anade_luego; [exact Hl | apply anade_agente; constructor].
Qed.

Lemma pensar_de_anade fuel e msg verbose (a : Agente.t) (w : W) :
  anade (Agente.messages a)
    (Agente.messages (fst (snd (pensar_de fuel e msg verbose (a, w))))).
Proof.
  unfold pensar_de. destruct (Agente.clase e); [apply base_pensar_anade|].
  unfold AgenteConHerramientas.pensar. desplegar.
  destruct (Agente.tools (Agente.append _ a)) as [|t ts]; cbn [fst snd].
  - destruct (chat _ _ w) as [[r|ex] w']; cbn [fst snd].
    + eapply anade_luego; apply anade_agente; constructor.
    + apply anade_agente; constructor.
  - eapply anade_luego; [apply agente_bucle_anade | apply anade_agente; constructor].
Qed.

Lemma anade_orquestador_refl o : anade_orquestador o o.
Proof.
  split; [apply anade_refl|]. intros k.
  destruct (AgenteOrquestador.expertos o !! k); [apply anade_refl | exact I].
Qed.

Lemma anade_orquestador_trans o1 o2 o3 :
  anade_orquestador o1 o2 -> anade_orquestador o2 o3 -> anade_orquestador o1 o3.
Proof.
  intros [Ha H12] [Hb H23]. split; [eapply anade_trans; eassumption|].
  intros k. specialize (H12 k). specialize (H23 k).
  destruct (AgenteOrquestador.expertos o1 !! k),
           (AgenteOrquestador.expertos o2 !! k),
           (AgenteOrquestador.expertos o3 !! k); try tauto.
  eapply anade_trans; eassumption.
Qed.

Lemma anade_orquestador_luego o1 o2 o3 :
  anade_orquestador o2 o3 -> anade_orquestador o1 o2 -> anade_orquestador o1 o3.
Proof. intros H23 H12. eapply anade_orquestador_trans; eassumption. Qed.

Lemma anade_orquestador_append m o :
  origen m -> anade_orquestador o (AgenteOrquestador.append m o).
Proof.
  intros Hm. split; [now apply anade_append|]. intros k. cbn.
  destruct (AgenteOrquestador.expertos o !! k); [apply anade_refl | exact I].
Qed.

Lemma anade_orquestador_experto o k e e' :
  AgenteOrquestador.expertos o !! k = Some e ->
  anade (Agente.messages e) (Agente.messages e') ->
  anade_orquestador o
    (AgenteOrquestador.con_expertos o (<[k := e']> (AgenteOrquestador.expertos o))).
Proof.
  intros Hk He. split; [apply anade_refl|]. cbn.
  intros k'. destruct (decide (k = k')) as [<-|Hne].
  - rewrite lookup_insert_eq, Hk. exact He.
  - rewrite lookup_insert_ne by exact Hne.
    destruct (AgenteOrquestador.expertos o !! k'); [apply anade_refl | exact I].
Qed.

Lemma consultar_experto_anade fuel tipo_experto consulta verbose
    (o : AgenteOrquestador.t) (w : W) :
  anade_orquestador o
    (fst (snd (AgenteOrquestador._consultar_experto fuel tipo_experto consulta
                 verbose (o, w)))).
Proof.
  unfold AgenteOrquestador._consultar_experto.
  destruct (negb (hashable tipo_experto)); [apply anade_orquestador_refl|].
  desplegar.
  destruct (AgenteOrquestador.expertos_get o tipo_experto) as [[k e]|] eqn:Hg;
    [|apply anade_orquestador_refl].
  apply expertos_get_Some in Hg as [_ Hk].
  unfold AgenteOrquestador.en_experto. cbn [fst snd].
  pose proof (pensar_de_anade fuel e consulta verbose e w) as Hc.
  destruct (pensar_de fuel e consulta verbose (e, w)) as [[r|ex|] [e' w']];
    cbn [fst snd] in *; eapply anade_orquestador_experto; eassumption.
Qed.

Lemma orquestador_llamadas_anade fuel verbose calls (o : AgenteOrquestador.t) (w : W) :
  anade_orquestador o
    (fst (snd (AgenteOrquestador.ejecutar_llamadas fuel verbose calls (o, w)))).
Proof.
  revert o w. induction calls as [|tc rest IH]; intros o w;
    [apply anade_orquestador_refl|].
  destruct (String.eqb_spec (ToolCall.name tc) "consultar_agente_experto") as [Hn|Hn].
  - cbn [AgenteOrquestador.ejecutar_llamadas].
    apply String.eqb_eq in Hn as Hb. rewrite Hb. rewrite !bind_eq.
    destruct (py_getitem (PDict (ToolCall.arguments tc)) "tipo_experto") as [t|e];
      [|apply anade_orquestador_refl].
    cbn [puro]. unfold ret at 1. rewrite bind_eq.
    destruct (py_getitem (PDict (ToolCall.arguments tc)) "consulta") as [c|e];
      [|apply anade_orquestador_refl].
    cbn [puro]. unfold ret at 1.
    pose proof (consultar_experto_anade fuel t c verbose o w) as Hc.
    destruct (AgenteOrquestador._consultar_experto fuel t c verbose (o, w))
      as [[r|e|] [o' w']]; cbn [fst snd] in Hc; try exact Hc.
    rewrite bind_eq. cbn [mutar fst snd].
    eapply anade_orquestador_luego; [apply IH|].
    eapply anade_orquestador_luego;
      [apply anade_orquestador_append; constructor | exact Hc].
  - rewrite orquestador_llamadas_cons_normal by exact Hn.
    destruct (ejecutar_herramienta _ _ w) as [[r|e] w'];
      [|apply anade_orquestador_refl].
    eapply anade_orquestador_luego;
      [apply IH | apply anade_orquestador_append; constructor].
Qed.

Lemma orquestador_bucle_anade fuel_expertos fuel verbose
    (o : AgenteOrquestador.t) (w : W) :
  anade_orquestador o
    (fst (snd (AgenteOrquestador.bucle fuel_expertos fuel verbose (o, w)))).
Proof.
  revert o w. induction fuel as [|fuel IH]; intros o w;
    [apply anade_orquestador_refl|].
  cbn [AgenteOrquestador.bucle]. desplegar.
  destruct (chat_with_tools _ _ _ w) as [[r|e] w']; [|apply anade_orquestador_refl].
  destruct (LLMResponse.tool_calls r) as [|tc calls] eqn:Hc.
  - apply anade_orquestador_append; constructor.
  - pose proof (orquestador_llamadas_anade fuel_expertos verbose (tc :: calls)
                  (AgenteOrquestador.append (create_assistant_message_with_tools r) o)
                  w') as Hl.
    destruct (AgenteOrquestador.ejecutar_llamadas _ _ _ _) as [[[]|e|] [o2 w2]];
      cbn [fst snd] in Hl.
    + eapply anade_orquestador_luego; [apply IH|].
      eapply anade_orquestador_luego;
        [exact Hl | apply anade_orquestador_append; constructor].
    + eapply anade_orquestador_luego;
        [exact Hl | apply anade_orquestador_append; constructor].
    + eapply anade_orquestador_luego;
        [exact Hl | apply anade_orquestador_append; constructor].
Qed.

Lemma procesar_anade fuel msg verbose (o : AgenteOrquestador.t) (w : W) :
  anade_orquestador o
    (fst (snd (AgenteOrquestador.procesar fuel msg verbose (o, w)))).
Proof.
  unfold AgenteOrquestador.procesar. rewrite bind_eq. cbn [mutar fst snd].
  eapply anade_orquestador_luego;
    [apply orquestador_bucle_anade | apply anade_orquestador_append; constructor].
Qed.

Lemma historial_de_anade sp (l l' : list Message) :
  historial_de sp l -> anade l l' -> historial_de sp l'.
Proof.
  intros (resto & -> & Hr) (k & -> & Hk). exists (resto ++ k)%list.
  split; [reflexivity | now apply Forall_app].
Qed.

Lemma historial_de_inicial sp : historial_de sp [mensaje "system" (PStr sp)].
Proof. exists []. split; [reflexivity | constructor]. Qed.

Lemma paso_agente_forma s op : forma_agente (fst s) -> forma_agente (fst (paso_agente s op)).
Proof.
  destruct s as [a w]. unfold forma_agente.
  destruct op as [fuel msg verbose|]; cbn [paso_agente fst snd]; intros Hf.
  - destruct (pensar_de_crece fuel a msg verbose a w) as (_ & -> & _).
    eapply historial_de_anade; [exact Hf | apply pensar_de_anade].
  - apply historial_de_inicial.
Qed.

Lemma sesion_agente_forma ops s :
  forma_agente (fst s) -> forma_agente (fst (sesion_agente ops s)).
Proof.
  revert s. induction ops as [|op ops IH]; intros s Hf; [exact Hf|].
  change (sesion_agente (op :: ops) s) with (sesion_agente ops (paso_agente s op)).
  now apply IH, paso_agente_forma.
Qed.

Lemma paso_orquestador_forma s op :
  forma_orquestador (fst s) -> forma_orquestador (fst (paso_orquestador s op)).
Proof.
  destruct s as [o w]. unfold forma_orquestador.
  destruct op as [fuel msg verbose|]; cbn [paso_orquestador fst snd]; intros [Hf He].
  - destruct (procesar_crece fuel msg verbose o w) as (Hp & _ & _ & Hc).
    destruct (procesar_anade fuel msg verbose o w) as [Ha Hx].
    split; [rewrite Hp; eapply historial_de_anade; eassumption|].
    intros k e' Hk. specialize (Hc k). specialize (Hx k). rewrite Hk in Hc, Hx.
    destruct (AgenteOrquestador.expertos o !! k) as [e|] eqn:Hko; [|contradiction].
    destruct Hc as (_ & Hsp & _). unfold forma_agente. rewrite Hsp.
    eapply historial_de_anade; [exact (He k e Hko) | exact Hx].
  - split; [apply historial_de_inicial | exact He].
Qed.

Lemma sesion_orquestador_forma ops s :
  forma_orquestador (fst s) -> forma_orquestador (fst (sesion_orquestador ops s)).
Proof.
  revert s. induction ops as [|op ops IH]; intros s Hf; [exact Hf|].
  change (sesion_orquestador (op :: ops) s)
    with (sesion_orquestador ops (paso_orquestador s op)).
  now apply IH, paso_orquestador_forma.
Qed.

Lemma init_forma_orquestador m : forma_orquestador (AgenteOrquestador.init m).
Proof.
  split; [apply historial_de_inicial|].
  intros k e. unfold AgenteOrquestador.init. cbn [AgenteOrquestador.expertos].
  rewrite !lookup_insert, lookup_empty.
  repeat case_decide; intros [= <-]; apply historial_de_inicial.
Qed.

(** X12.  What a history is made of.  Through any sequence of calls, however
    each ends, the history of an agent, of the orchestrator and of each of
    its experts is the system message of its own prompt followed only by
    user texts, assistant texts and the client's encodings of a tool-call
    turn and of a tool result: the system message occurs once, at the head,
    and nothing else is ever stored. *)
Theorem histories_hold_only_the_four_kinds :
  (forall sp m ops (w : W),
     historial_de sp (Agente.messages (fst (sesion_agente ops (AgenteBase.init sp m, w))))) /\
  (forall sp ts m ops (w : W),
     historial_de sp
       (Agente.messages
          (fst (sesion_agente ops (AgenteConHerramientas.init sp ts m, w))))) /\
  (forall m ops (w : W),
     let o := fst (sesion_orquestador ops (AgenteOrquestador.init m, w)) in
     historial_de PROMPT_ORQUESTADOR (AgenteOrquestador.messages o) /\
     forall k e, AgenteOrquestador.expertos o !! k = Some e ->
       historial_de (Agente.system_prompt e) (Agente.messages e)).
Proof.
  refine (conj _ (conj _ _)).
  - intros sp m ops w.
    pose proof (sesion_agente_forma ops (AgenteBase.init sp m, w)
                  (historial_de_inicial sp)) as Hf.
    pose proof (sesion_agente_inv sp ops (AgenteBase.init sp m, w)
                  (conj eq_refl eq_refl)) as [Hsp _].
    unfold forma_agente in Hf. now rewrite Hsp in Hf.
  - intros sp ts m ops w.
    pose proof (sesion_agente_forma ops (AgenteConHerramientas.init sp ts m, w)
                  (historial_de_inicial sp)) as Hf.
    pose proof (sesion_agente_inv sp ops (AgenteConHerramientas.init sp ts m, w)
                  (conj eq_refl eq_refl)) as [Hsp _].
    unfold forma_agente in Hf. now rewrite Hsp in Hf.
  - intros m ops w o.
    pose proof (sesion_orquestador_forma ops (AgenteOrquestador.init m, w)
                  (init_forma_orquestador m)) as [Hf He].
    pose proof (sesion_orquestador_inv PROMPT_ORQUESTADOR ops
                  (AgenteOrquestador.init m, w) (init_inv_orquestador m)) as [Hsp _].
    fold o in Hf, He, Hsp. rewrite Hsp in Hf. split; [exact Hf | exact He].
Qed.

End Origen.

(* ===================================================================== *)
(** ** What [verbose] changes                                             *)
(* ===================================================================== *)

Section Verbose.
Context `{PyRuntime} {W : Type} `{Reloj W} `{LLMClient W}.

Lemma igual_o_TypeError_refl {S A} (r : outcome A * S) : igual_o_TypeError r r.
Proof. now left. Qed.

Lemma agente_llamadas_verbose calls (a : Agente.t) (w : W) :
  igual_o_TypeError (AgenteConHerramientas.ejecutar_llamadas true calls (a, w))
                    (AgenteConHerramientas.ejecutar_llamadas false calls (a, w)).
Proof.
  revert a w. induction calls as [|tc rest IH]; intros a w; [now left|].
  rewrite !agente_llamadas_cons.
  destruct (ejecutar_herramienta _ _ w) as [[[r|]|e] w']; cbn [andb negb].
  - rewrite bool_decide_true by (now eexists). cbn [negb]. apply IH.
  - rewrite bool_decide_false by (intros [? ?]; discriminate). cbn [negb].
    right. now eexists.
  - now left.
Qed.

Lemma agente_bucle_verbose fuel (a : Agente.t) (w : W) :
  igual_o_TypeError (AgenteConHerramientas.bucle fuel true (a, w))
                    (AgenteConHerramientas.bucle fuel false (a, w)).
Proof.
  revert a w. induction fuel as [|fuel IH]; intros a w; [now left|].
  destruct (chat_with_tools (Agente.messages a) (Agente.tools a) (Agente.model a) w)
    as [[r|e] w1] eqn:Hr.
  - destruct (LLMResponse.tool_calls r) as [|tc calls] eqn:Hc.
    + rewrite !(agente_bucle_final fuel _ a w w1 r Hr Hc). now left.
    + rewrite !(agente_bucle_llamadas fuel _ a w w1 r Hr)
        by (rewrite Hc; discriminate).
      destruct (agente_llamadas_verbose (LLMResponse.tool_calls r)
                  (Agente.append (create_assistant_message_with_tools r) a) w1)
        as [Heq|[s' Hs]].
      * rewrite Heq.
        destruct (AgenteConHerramientas.ejecutar_llamadas false _ _) as [[[]|e|] [a2 w2]];
          [apply IH | now left | now left].
      * rewrite Hs. right. now eexists.
  - cbn [AgenteConHerramientas.bucle]. desplegar. rewrite Hr. now left.
Qed.

Lemma pensar_de_verbose fuel e msg (a : Agente.t) (w : W) :
  igual_o_TypeError (pensar_de fuel e msg true (a, w))
                    (pensar_de fuel e msg false (a, w)).
Proof.
  unfold pensar_de. destruct (Agente.clase e); [now left|].
  destruct (Agente.tools a) as [|t ts] eqn:Ht.
  - rewrite !(pensar_sin_herramientas fuel msg _ a w Ht). now left.
  - assert (Hb : forall verbose,
              AgenteConHerramientas.pensar fuel msg verbose (a, w)
              = AgenteConHerramientas.bucle fuel verbose
                  (Agente.append (mensaje "user" msg) a, w)).
    { intros verbose. unfold AgenteConHerramientas.pensar. desplegar.
      change (Agente.tools (Agente.append (mensaje "user" msg) a))
        with (Agente.tools a).
      now rewrite Ht. }
    rewrite !Hb. apply agente_bucle_verbose.
Qed.

Lemma consultar_experto_verbose fuel tipo_experto consulta
    (o : AgenteOrquestador.t) (w : W) :
  igual_o_TypeError
    (AgenteOrquestador._consultar_experto fuel tipo_experto consulta true (o, w))
    (AgenteOrquestador._consultar_experto fuel tipo_experto consulta false (o, w)).
Proof.
  unfold AgenteOrquestador._consultar_experto.
  destruct (negb (hashable tipo_experto)); [now left|].
  desplegar.
  destruct (AgenteOrquestador.expertos_get o tipo_experto) as [[k e]|]; [|now left].
  unfold AgenteOrquestador.en_experto. cbn [fst snd].
  destruct (pensar_de_verbose fuel e consulta e w) as [Heq|[[e' w'] Hs]].
  - rewrite Heq. now left.
  - rewrite Hs. right. now eexists.
Qed.

Lemma orquestador_llamadas_verbose fuel calls (o : AgenteOrquestador.t) (w : W) :
  igual_o_TypeError (AgenteOrquestador.ejecutar_llamadas fuel true calls (o, w))
                    (AgenteOrquestador.ejecutar_llamadas fuel false calls (o, w)).
Proof.
  revert o w. induction calls as [|tc rest IH]; intros o w; [now left|].
  destruct (String.eqb_spec (ToolCall.name tc) "consultar_agente_experto") as [Hn|Hn].
  - destruct (dict_get (ToolCall.arguments tc) "tipo_experto") as [t|] eqn:Ht.
    + destruct (dict_get (ToolCall.arguments tc) "consulta") as [c|] eqn:Hc.
      * rewrite !(orquestador_llamadas_cons_experto fuel _ tc rest o w t c Hn Ht Hc).
        destruct (consultar_experto_verbose fuel t c o w) as [Heq|[s' Hs]].
        -- rewrite Heq.
           destruct (AgenteOrquestador._consultar_experto fuel t c false (o, w))
             as [[r|e|] [o' w']]; [apply IH | now left | now left].
        -- rewrite Hs. right. now eexists.
      * left.
        now rewrite !(orquestador_llamadas_sin_consulta fuel _ tc rest o w t Hn Ht Hc).
    + left. now rewrite !(orquestador_llamadas_sin_tipo fuel _ tc rest o w Hn Ht).
  - rewrite !(orquestador_llamadas_cons_normal fuel _ tc rest o w Hn).
    destruct (ejecutar_herramienta _ _ w) as [[r|e] w']; [apply IH | now left].
Qed.

Lemma orquestador_bucle_verbose fuel_expertos fuel (o : AgenteOrquestador.t) (w : W) :
  igual_o_TypeError (AgenteOrquestador.bucle fuel_expertos fuel true (o, w))
                    (AgenteOrquestador.bucle fuel_expertos fuel false (o, w)).
Proof.
  revert o w. induction fuel as [|fuel IH]; intros o w; [now left|].
  destruct (chat_with_tools (AgenteOrquestador.messages o) TOOLS_DEFINITION
              (AgenteOrquestador.model o) w) as [[r|e] w1] eqn:Hr.
  - destruct (LLMResponse.tool_calls r) as [|tc calls] eqn:Hc.
    + rewrite !(orquestador_bucle_final fuel_expertos fuel _ o w w1 r Hr Hc). now left.
    + rewrite !(orquestador_bucle_llamadas fuel_expertos fuel _ o w w1 r Hr)
        by (rewrite Hc; discriminate).
      destruct (orquestador_llamadas_verbose fuel_expertos (LLMResponse.tool_calls r)
                  (AgenteOrquestador.append (create_assistant_message_with_tools r) o)
                  w1) as [Heq|[s' Hs]].
      * rewrite Heq.
        destruct (AgenteOrquestador.ejecutar_llamadas fuel_expertos false _ _)
          as [[[]|e|] [o2 w2]]; [apply IH | now left | now left].
      * rewrite Hs. right. now eexists.
  - cbn [AgenteOrquestador.bucle]. desplegar. rewrite Hr. now left.
Qed.

(** X23.  [verbose] is for printing.  A call with [verbose=True] ends as the
    same call with [verbose=False] would, with the same result, the same
    histories and the same world (so the provider and the tools were called
    in the same way), unless it ends in [TypeError]: this holds for [pensar]
    of either agent class, for a delegation and for [procesar].  (The one
    way the outcomes differ is the preview of a tool result that is [None],
    which only a tool-using agent builds.) *)
Theorem verbose_changes_nothing_but_a_TypeError :
  (forall fuel e msg (a : Agente.t) (w : W),
     pensar_de fuel e msg true (a, w) = pensar_de fuel e msg false (a, w) \/
     exists s', pensar_de fuel e msg true (a, w) = (Raised TypeError, s')) /\
  (forall fuel tipo_experto consulta (o : AgenteOrquestador.t) (w : W),
     AgenteOrquestador._consultar_experto fuel tipo_experto consulta true (o, w)
     = AgenteOrquestador._consultar_experto fuel tipo_experto consulta false (o, w) \/
     exists s',
       AgenteOrquestador._consultar_experto fuel tipo_experto consulta true (o, w)
       = (Raised TypeError, s')) /\
  (forall fuel msg (o : AgenteOrquestador.t) (w : W),
     AgenteOrquestador.procesar fuel msg true (o, w)
     = AgenteOrquestador.procesar fuel msg false (o, w) \/
     exists s', AgenteOrquestador.procesar fuel msg true (o, w) = (Raised TypeError, s')) /\
  (forall fuel calls (o : AgenteOrquestador.t) (w : W),
     Forall (fun tc => ToolCall.name tc <> "consultar_agente_experto") calls ->
     AgenteOrquestador.ejecutar_llamadas fuel true calls (o, w)
     = AgenteOrquestador.ejecutar_llamadas fuel false calls (o, w)).
Proof.
  refine (conj _ (conj _ (conj _ _))).
  - intros. apply pensar_de_verbose.
  - intros. apply consultar_experto_verbose.
  - intros fuel msg o w. unfold AgenteOrquestador.procesar. rewrite !bind_eq.
    cbn [mutar fst snd]. apply orquestador_bucle_verbose.
  - intros fuel calls o w Hf. revert o w.
    induction Hf as [|tc rest Hn Hf IH]; intros o w; [reflexivity|].
    rewrite !(orquestador_llamadas_cons_normal fuel _ tc rest o w Hn).
    destruct (ejecutar_herramienta _ _ w) as [[r|e] w']; [apply IH | reflexivity].
Qed.

End Verbose.

(* ===================================================================== *)
(** ** The Gemini client                                                  *)
(* ===================================================================== *)

Section Contenidos.
Import Gemini.

Lemma bucle_contents_app (ms1 ms2 : list Message) acc :
  bucle_contents (ms1 ++ ms2) acc
  = let* acc' := bucle_contents ms1 acc in bucle_contents ms2 acc'.
Proof.
  revert acc. induction ms1 as [|m ms1 IH]; intros acc; [reflexivity|].
  cbn [app bucle_contents]. destruct (paso_contents m acc) as [acc'|e]; [|reflexivity].
  cbn [res_bind]. apply IH.
Qed.

(** Appending one message to a history that translates. *)
Lemma build_contents_snoc (ms : list Message) m si cs :
  _build_contents ms = Ret (si, cs) ->
  _build_contents (ms ++ [m]) = paso_contents m (si, cs).
Proof.
  intros Hb. unfold _build_contents in *. rewrite bucle_contents_app, Hb.
  cbn [res_bind bucle_contents]. now destruct (paso_contents m (si, cs)).
Qed.

Lemma bucle_contents_Raise (ms1 ms2 : list Message) acc e :
  bucle_contents ms1 acc = Raise e -> bucle_contents (ms1 ++ ms2) acc = Raise e.
Proof. intros Hr. now rewrite bucle_contents_app, Hr. Qed.

Lemma rol_es_desconocido (r s : string) :
  ~ In r ROLES_CONOCIDOS -> In s ROLES_CONOCIDOS -> rol_es (PStr r) s = false.
Proof.
  intros Hr Hs. cbn [rol_es]. apply String.eqb_neq. intros ->. now apply Hr.
Qed.

(** X13.  How [_build_contents] reads a history.  It works message by
    message, so the translation of a longer history extends that of a
    shorter one.  A system message sets the system instruction and leaves no
    content (the last one wins); a user message becomes one user content; an
    assistant message becomes one model content unless its content is empty
    or [None], in which case it leaves no trace, as does a message with a
    role the function does not know.  A dict without [role] raises
    [KeyError], and a history holding a provider-native message object (as
    the OpenAI client stores for a tool-call turn) cannot be translated at
    all. *)
Theorem build_contents_reads_message_by_message :
  (forall ms1 ms2,
     _build_contents (ms1 ++ ms2)
     = let* acc := _build_contents ms1 in bucle_contents ms2 acc) /\
  (forall ms si cs, _build_contents ms = Ret (si, cs) ->
     (forall c, _build_contents (ms ++ [mensaje "system" c]) = Ret (c, cs)) /\
     (forall c, _build_contents (ms ++ [mensaje "user" c])
                = Ret (si, (cs ++ [{| role := "user"; parts := [from_text c] |}])%list)) /\
     (forall c, _build_contents (ms ++ [mensaje "assistant" c])
                = Ret (si, if py_bool c
                           then (cs ++ [{| role := "model";
                                           parts := [from_text c] |}])%list
                           else cs)) /\
     (forall r c, ~ In r ROLES_CONOCIDOS ->
                  _build_contents (ms ++ [mensaje r c]) = Ret (si, cs)) /\
     (forall d, dict_get d "role" = None ->
                _build_contents (ms ++ [MDict d]) = Raise KeyError)) /\
  (forall ms o, In (MObject o) ms -> exists e, _build_contents ms = Raise e).
Proof.
  refine (conj _ (conj _ _)).
  - intros ms1 ms2. apply bucle_contents_app.
  - intros ms si cs Hb. refine (conj _ (conj _ (conj _ (conj _ _)))).
    + intros c. now rewrite (build_contents_snoc ms _ si cs Hb).
    + intros c. now rewrite (build_contents_snoc ms _ si cs Hb).
    + intros c. rewrite (build_contents_snoc ms _ si cs Hb).
      unfold paso_contents, mensaje. cbn [py_getitem dict_get String.eqb Ascii.eqb
        Bool.eqb res_bind rol_es orb dict_get_or]. now destruct (py_bool c).
    + intros r c Hr. rewrite (build_contents_snoc ms _ si cs Hb).
      unfold paso_contents, mensaje. cbn [py_getitem dict_get String.eqb Ascii.eqb
        Bool.eqb res_bind].
      rewrite !(rol_es_desconocido r) by (exact Hr || (cbn; tauto)).
      reflexivity.
    + intros d Hd. rewrite (build_contents_snoc ms _ si cs Hb).
      unfold paso_contents. cbn [py_getitem]. now rewrite Hd.
  - intros ms o Hin. apply in_split in Hin as (l1 & l2 & ->).
    unfold _build_contents. rewrite bucle_contents_app.
    destruct (bucle_contents l1 (PNone, [])) as [[si cs]|e]; [|now exists e].
    exists TypeError. reflexivity.
Qed.

End Contenidos.

Section DialectoGemini.
Import Gemini.
Context `{PyRuntime} {W : Type} `{Reloj W}.
Variable transport_chat : list Message -> option string -> W -> res texto * W.
Variable transport_tools :
  list Message -> list ToolSpec -> option string -> W -> res LLMResponse.t * W.

Let cliente_gemini : LLMClient W := GeminiClient transport_chat transport_tools.
#[local] Existing Instance cliente_gemini.

Lemma partes_de_llamadas_map (calls : list ToolCall.t) :
  partes_de_llamadas
    (map (fun tc => PDict [("name", PStr (ToolCall.name tc));
                           ("args", PDict (ToolCall.arguments tc))]) calls)
  = Ret (map (fun tc => from_function_call (PStr (ToolCall.name tc))
                          (PDict (ToolCall.arguments tc))) calls).
Proof.
  induction calls as [|tc calls IH]; [reflexivity|].
  cbn [map partes_de_llamadas py_getitem dict_get String.eqb Ascii.eqb Bool.eqb res_bind].
  now rewrite IH.
Qed.

Lemma paso_contents_resultado id r n si cs :
  paso_contents (create_tool_result_message id r n) (si, cs)
  = Ret (si, (cs ++ [content_de_resultado r n])%list).
Proof. reflexivity. Qed.

Lemma paso_contents_llamadas resp si cs :
  paso_contents (create_assistant_message_with_tools resp) (si, cs)
  = Ret (si, (cs ++ [content_de_llamadas (LLMResponse.tool_calls resp)])%list).
Proof.
  cbn [create_assistant_message_with_tools cliente_gemini GeminiClient].
  unfold paso_contents.
  cbn [py_getitem dict_get String.eqb Ascii.eqb Bool.eqb res_bind rol_es orb
       dict_get_or py_iter].
  now rewrite partes_de_llamadas_map.
Qed.

(** X14.  The two encodings of the Gemini client are read back by its own
    [_build_contents]: a tool result becomes one user content with a
    function response under the tool's name (under [tool] when the name is
    empty) holding the result, and a tool-call turn becomes one model
    content with one function call per tool call, in call order, with the
    same names and arguments.  The call identifiers are not part of what
    Gemini receives. *)
Theorem gemini_encodings_are_read_back (ms : list Message) si cs :
  _build_contents ms = Ret (si, cs) ->
  (forall id r n,
     _build_contents (ms ++ [create_tool_result_message id r n])
     = Ret (si, (cs ++ [content_de_resultado r n])%list)) /\
  (forall resp,
     _build_contents (ms ++ [create_assistant_message_with_tools resp])
     = Ret (si, (cs ++ [content_de_llamadas (LLMResponse.tool_calls resp)])%list)).
Proof.
  intros Hb. split.
  - intros id r n. rewrite (build_contents_snoc ms _ si cs Hb).
    apply paso_contents_resultado.
  - intros resp. rewrite (build_contents_snoc ms _ si cs Hb).
    apply paso_contents_llamadas.
Qed.

(** None of the four kinds of entries fails or touches the system
    instruction, and each adds at most one content. *)
Lemma paso_contents_origen m si cs :
  origen m ->
  exists cs', paso_contents m (si, cs) = Ret (si, cs') /\
              (length cs' <= S (length cs))%nat.
Proof.
  intros [c|c|id r n|resp].
  - eexists. split; [reflexivity|]. rewrite length_app. cbn. lia.
  - unfold paso_contents, mensaje.
    cbn [py_getitem dict_get String.eqb Ascii.eqb Bool.eqb res_bind rol_es orb
         dict_get_or].
    destruct (py_bool c); eexists; (split; [reflexivity|]);
      rewrite ?length_app; cbn; lia.
  - rewrite paso_contents_resultado. eexists. split; [reflexivity|].
    rewrite length_app. cbn. lia.
  - rewrite paso_contents_llamadas. eexists. split; [reflexivity|].
    rewrite length_app. cbn. lia.
Qed.

Lemma bucle_contents_origen resto si cs :
  Forall origen resto ->
  exists cs', bucle_contents resto (si, cs) = Ret (si, cs') /\
              (length cs' <= length cs + length resto)%nat.
Proof.
  intros Hf. revert cs. induction Hf as [|m resto Hm Hf IH]; intros cs.
  - exists cs. split; [reflexivity | cbn; lia].
  - destruct (paso_contents_origen m si cs Hm) as (cs1 & H1' & Hl1).
    destruct (IH cs1) as (cs2 & H2' & Hl2).
    exists cs2. cbn [bucle_contents]. rewrite H1'. cbn [res_bind].
    split; [exact H2' | cbn; lia].
Qed.

Lemma build_contents_historial sp ms :
  historial_de sp ms ->
  exists cs, _build_contents ms = Ret (PStr sp, cs) /\
             (length cs < length ms)%nat.
Proof.
  intros (resto & -> & Hf).
  destruct (bucle_contents_origen resto (PStr sp) [] Hf) as (cs & Hb & Hl).
  exists cs. split; [exact Hb | cbn in *; lia].
Qed.

(** X15.  With the Gemini client, every history the agents build can be
    translated: whatever the sequence of calls and however each ended,
    [_build_contents] accepts the history of the orchestrator and of each
    expert without raising, the system instruction it extracts is the
    agent's own prompt, and there are fewer contents than messages. *)
Theorem gemini_histories_always_translate :
  (forall sp ms, historial_de sp ms ->
     exists cs, _build_contents ms = Ret (PStr sp, cs) /\
                (length cs < length ms)%nat) /\
  (forall m ops (w : W),
     let o := fst (sesion_orquestador ops (AgenteOrquestador.init m, w)) in
     (exists cs, _build_contents (AgenteOrquestador.messages o)
                 = Ret (PStr PROMPT_ORQUESTADOR, cs)) /\
     forall k e, AgenteOrquestador.expertos o !! k = Some e ->
       exists cs, _build_contents (Agente.messages e)
                  = Ret (PStr (Agente.system_prompt e), cs)).
Proof.
  split; [exact build_contents_historial|].
  intros m ops w o.
  pose proof (sesion_orquestador_forma ops (AgenteOrquestador.init m, w)
                (init_forma_orquestador m)) as [Hf He].
  pose proof (sesion_orquestador_inv PROMPT_ORQUESTADOR ops
                (AgenteOrquestador.init m, w) (init_inv_orquestador m)) as [Hsp _].
  fold o in Hf, He, Hsp. rewrite Hsp in Hf. split.
  - destruct (build_contents_historial _ _ Hf) as (cs & Hcs & _). now exists cs.
  - intros k e Hk.
    destruct (build_contents_historial _ _ (He k e Hk)) as (cs & Hcs & _).
    now exists cs.
Qed.

End DialectoGemini.

Section Identificadores.
Import Gemini.
Local Open Scope nat_scope.

Lemma gemini_call_inj (n m : nat) : gemini_call n = gemini_call m -> n = m.
Proof.
  unfold gemini_call. intros He.
  apply (inj (String.app "gemini_call_")) in He. now apply (inj pretty) in He.
Qed.

Lemma numerar_app n fcs1 fcs2 :
  numerar n (fcs1 ++ fcs2) = (numerar n fcs1 ++ numerar (n + length fcs1) fcs2)%list.
Proof.
  revert n. induction fcs1 as [|fc fcs1 IH]; intros n.
  - cbn. now rewrite Nat.add_0_r.
  - cbn [app numerar length]. rewrite IH. now rewrite Nat.add_succ_r.
Qed.

Lemma numerar_length n fcs : length (numerar n fcs) = length fcs.
Proof. revert n. induction fcs as [|fc fcs IH]; intros n; cbn; [|rewrite IH]; reflexivity. Qed.

Lemma numerar_ids n fcs :
  map ToolCall.id (numerar n fcs) = map gemini_call (seq (S n) (length fcs)).
Proof.
  revert n. induction fcs as [|fc fcs IH]; intros n; [reflexivity|].
  cbn [numerar map length seq ToolCall.id]. now rewrite IH.
Qed.

(** The loop over the parts, from any state of its three variables. *)
Lemma fold_paso_parte ps n calls content :
  fold_left (fun acc p => paso_parte p acc) ps (n, calls, content)
  = (n + length (llamadas_de ps),
     (calls ++ numerar n (llamadas_de ps))%list,
     match last (textos_de ps) with Some t => Some t | None => content end).
Proof.
  revert n calls content. induction ps as [|p ps IH]; intros n calls content.
  - cbn. now rewrite Nat.add_0_r, app_nil_r.
  - cbn [fold_left]. unfold paso_parte at 2.
    unfold llamadas_de, textos_de, texto_de in *. cbn [omap list_omap].
    destruct (function_call p) as [fc|].
    + rewrite IH. cbn [length numerar]. rewrite <- app_assoc. cbn [app].
      now rewrite Nat.add_succ_r.
    + destruct (text p) as [[|c s]|]; rewrite IH; try reflexivity.
      rewrite last_cons. now destruct (last _).
Qed.

Lemma procesar_respuesta_partes n response ps :
  partes_de response = Some ps ->
  procesar_respuesta n response
  = Ret ({| LLMResponse.content := last (textos_de ps);
            LLMResponse.tool_calls := numerar n (llamadas_de ps);
            LLMResponse.raw_message := referencia response |},
         n + length (llamadas_de ps)).
Proof.
  unfold partes_de, procesar_respuesta. intros Hp.
  destruct (candidates response) as [[|c cs]|]; try (injection Hp as <-; cbn;
    now rewrite Nat.add_0_r).
  destruct (content c) as [rc|]; [|injection Hp as <-; cbn; now rewrite Nat.add_0_r].
  rewrite Hp, fold_paso_parte. cbn [app]. now destruct (last (textos_de ps)).
Qed.

Lemma ids_distintos n1 k1 n2 k2 :
  n1 + k1 <= n2 ->
  NoDup (map gemini_call (seq (S n1) k1) ++ map gemini_call (seq (S n2) k2)).
Proof.
  intros Hle.
  change (NoDup ((gemini_call <$> seq (S n1) k1) ++ (gemini_call <$> seq (S n2) k2))).
  rewrite <- fmap_app.
  apply (NoDup_fmap_2_strong gemini_call).
  - intros x y _ _. apply gemini_call_inj.
  - apply NoDup_app. split; [apply NoDup_seq|]. split; [|apply NoDup_seq].
    intros x Hx Hx'. apply elem_of_seq in Hx. apply elem_of_seq in Hx'. lia.
Qed.

Lemma procesar_respuesta_None n response :
  partes_de response = None -> procesar_respuesta n response = Raise TypeError.
Proof.
  unfold partes_de, procesar_respuesta.
  destruct (candidates response) as [[|c cs]|]; try discriminate.
  destruct (content c) as [rc|]; try discriminate.
  now intros ->.
Qed.

Lemma procesar_respuesta_numerado n response r n' :
  procesar_respuesta n response = Ret (r, n') ->
  n' = n + length (LLMResponse.tool_calls r) /\
  map ToolCall.id (LLMResponse.tool_calls r)
  = map gemini_call (seq (S n) (length (LLMResponse.tool_calls r))).
Proof.
  intros Hp. destruct (partes_de response) as [ps|] eqn:Hps.
  - rewrite (procesar_respuesta_partes n response ps Hps) in Hp.
    injection Hp as <- <-. cbn [LLMResponse.tool_calls].
    now rewrite numerar_length, numerar_ids.
  - rewrite (procesar_respuesta_None n response Hps) in Hp. discriminate.
Qed.

Lemma procesar_respuesta_distintos n1 n2 n3 n4 response1 response2 r1 r2 :
  procesar_respuesta n1 response1 = Ret (r1, n2) ->
  n2 <= n3 ->
  procesar_respuesta n3 response2 = Ret (r2, n4) ->
  NoDup (map ToolCall.id (LLMResponse.tool_calls r1 ++ LLMResponse.tool_calls r2)).
Proof.
  intros H1' Hle H2'.
  apply procesar_respuesta_numerado in H1' as [-> Hi1].
  apply procesar_respuesta_numerado in H2' as [_ Hi2].
  rewrite map_app, Hi1, Hi2. now apply ids_distintos.
Qed.

(** X16.  What the Gemini client makes of a response.  When there is no
    candidate, or the first one has no content, the answer has no tool calls
    and no text.  Otherwise every part with a function call becomes a tool
    call, in order, with the call's name and arguments (none for empty or
    missing arguments), and the text is that of the last part that has a
    non-empty text and no function call; a content whose parts are missing
    raises [TypeError].  The identifiers are [gemini_call_k] with [k]
    running on from the client's counter, which advances by the number of
    tool calls: so they are pairwise distinct within a response and across
    the responses of one client. *)
Theorem gemini_tool_calls_are_numbered_on :
  (forall n response,
     match partes_de response with
     | Some ps =>
         procesar_respuesta n response
         = Ret ({| LLMResponse.content := last (textos_de ps);
                   LLMResponse.tool_calls := numerar n (llamadas_de ps);
                   LLMResponse.raw_message := referencia response |},
                n + length (llamadas_de ps))
     | None => procesar_respuesta n response = Raise TypeError
     end) /\
  (forall n response r n',
     procesar_respuesta n response = Ret (r, n') ->
     n' = n + length (LLMResponse.tool_calls r) /\
     map ToolCall.id (LLMResponse.tool_calls r)
     = map gemini_call (seq (S n) (length (LLMResponse.tool_calls r)))) /\
  (forall n1 n2 n3 n4 response1 response2 r1 r2,
     procesar_respuesta n1 response1 = Ret (r1, n2) ->
     n2 <= n3 ->
     procesar_respuesta n3 response2 = Ret (r2, n4) ->
     NoDup (map ToolCall.id (LLMResponse.tool_calls r1 ++ LLMResponse.tool_calls r2))).
Proof.
  refine (conj _ (conj procesar_respuesta_numerado procesar_respuesta_distintos)).
  intros n response. destruct (partes_de response) as [ps|] eqn:Hps.
  - now apply procesar_respuesta_partes.
  - now apply procesar_respuesta_None.
Qed.

End Identificadores.

Section ClienteGemini.
Import Gemini.
Local Open Scope nat_scope.
Context {W : Type}.
Variable generate_content :
  string -> list Content -> option Config -> W -> res Response * W.

(** X17.  The Gemini client around the API call.  A history that cannot be
    translated makes both calls raise before the API is reached, leaving the
    world and the counter as they were.  [chat] never moves the counter.
    When [chat_with_tools] returns, the counter has advanced by the number
    of tool calls in the answer, so that the answers of two successive
    calls, with any [chat] calls in between, never share an identifier. *)
Theorem gemini_client_keeps_its_counter :
  (forall ms ts model (s : W * nat) e,
     _build_contents ms = Raise e ->
     chat generate_content ms model s = (Raise e, s) /\
     chat_with_tools generate_content ms ts model s = (Raise e, s)) /\
  (forall ms model (s : W * nat),
     snd (snd (chat generate_content ms model s)) = snd s) /\
  (forall ms ts model (s s' : W * nat) r,
     chat_with_tools generate_content ms ts model s = (Ret r, s') ->
     snd s' = snd s + length (LLMResponse.tool_calls r) /\
     map ToolCall.id (LLMResponse.tool_calls r)
     = map gemini_call (seq (S (snd s)) (length (LLMResponse.tool_calls r)))) /\
  (forall ms1 ts1 model1 ms2 ts2 model2 (s1 s1' s2 s2' : W * nat) r1 r2,
     chat_with_tools generate_content ms1 ts1 model1 s1 = (Ret r1, s1') ->
     snd s1' <= snd s2 ->
     chat_with_tools generate_content ms2 ts2 model2 s2 = (Ret r2, s2') ->
     NoDup (map ToolCall.id (LLMResponse.tool_calls r1 ++ LLMResponse.tool_calls r2))).
Proof.
  assert (Hret : forall ms ts model (s s' : W * nat) r,
            chat_with_tools generate_content ms ts model s = (Ret r, s') ->
            exists response, procesar_respuesta (snd s) response = Ret (r, snd s')).
  { intros ms ts model s s' r. unfold chat_with_tools.
    destruct (_build_contents ms) as [[si cs]|e]; [|discriminate].
    destruct (generate_content _ _ _ _) as [[response|e] w']; [|discriminate].
    destruct (procesar_respuesta (snd s) response) as [[resp n']|e] eqn:Hp;
      [|discriminate].
    intros [= <- <-]. now exists response. }
  refine (conj _ (conj _ (conj _ _))).
  - intros ms ts model s e Hb. unfold chat, chat_with_tools. now rewrite Hb.
  - intros ms model s. unfold chat.
    destruct (_build_contents ms) as [[si cs]|e]; [|reflexivity].
    now destruct (generate_content _ _ _ _) as [r w'].
  - intros ms ts model s s' r Hc. apply Hret in Hc as [response Hp].
    now apply procesar_respuesta_numerado in Hp.
  - intros ms1 ts1 model1 ms2 ts2 model2 s1 s1' s2 s2' r1 r2 H1' Hle H2'.
    apply Hret in H1' as [response1 Hp1]. apply Hret in H2' as [response2 Hp2].
    exact (procesar_respuesta_distintos _ _ _ _ _ _ _ _ Hp1 Hle Hp2).
Qed.

End ClienteGemini.

(* ===================================================================== *)
(** ** The catalogue against the code                                     *)
(* ===================================================================== *)

Section CatalogoYCodigo.
Import Catalogo.
Context `{PyRuntime}.

(** X18.  The catalogue shown to the model agrees with the code behind it.
    Its four entries are function tools named after the four names the
    dispatcher has a branch for, each listing as required exactly the
    parameters its schema declares; the operations the schema of
    [calculadora] allows are the keys of its table of operations, in order,
    and the experts the schema of [consultar_agente_experto] allows are the
    keys of the orchestrator's expert dict.  The conversion for Gemini keeps
    all four entries in order, with their names and parameter schemas. *)
Theorem catalogue_agrees_with_the_code :
  Forall2 (fun tool spec => resumen tool = Ret spec /\
                            propiedades tool = Ret (required spec))
          TOOLS_DEFINITION_JSON TOOLS_DEFINITION /\
  (forall nombre, In nombre (map tool_name TOOLS_DEFINITION)
                  <-> In nombre NOMBRES_RECONOCIDOS) /\
  (exists tool, nth_error TOOLS_DEFINITION_JSON 0 = Some tool /\
     enum_de tool "operacion" = Ret (map (fun kv => PStr (fst kv)) operaciones)) /\
  (exists tool enum, nth_error TOOLS_DEFINITION_JSON 2 = Some tool /\
     enum_de tool "tipo_experto" = Ret enum /\
     forall m k, In (PStr k) enum
                 <-> is_Some (AgenteOrquestador.expertos (AgenteOrquestador.init m) !! k)) /\
  (exists ds, _convert_tools_to_gemini TOOLS_DEFINITION_JSON = Ret ds /\
     map fd_name ds = map (fun spec => PStr (tool_name spec)) TOOLS_DEFINITION /\
     Forall2 (fun tool d => (let* f := py_getitem tool "function" in
                             py_getitem f "parameters") = Ret (fd_parameters d))
             TOOLS_DEFINITION_JSON ds).
Proof.
  refine (conj _ (conj _ (conj _ (conj _ _)))).
  - unfold TOOLS_DEFINITION_JSON, TOOLS_DEFINITION.
    repeat (constructor; [split; reflexivity|]). constructor.
  - intros nombre. cbn. tauto.
  - eexists. split; reflexivity.
  - eexists. eexists. split; [reflexivity|]. split; [reflexivity|].
    intros m k. unfold AgenteOrquestador.init. cbn [AgenteOrquestador.expertos].
    rewrite !lookup_insert, lookup_empty. cbn [In]. split.
    + intros [Hk|[Hk|[Hk|[Hk|[]]]]]; injection Hk as <-;
        repeat case_decide; try congruence; eexists; reflexivity.
    + repeat case_decide; subst; intros [e He]; try discriminate He; tauto.
  - eexists. split; [reflexivity|]. split; [reflexivity|].
    repeat (constructor; [reflexivity|]). constructor.
Qed.

End CatalogoYCodigo.

Section Conversion.
Import Catalogo.

Lemma convert_app (tools1 tools2 : list pyval) :
  _convert_tools_to_gemini (tools1 ++ tools2)
  = let* ds1 := _convert_tools_to_gemini tools1 in
    let* ds2 := _convert_tools_to_gemini tools2 in
    Ret (ds1 ++ ds2)%list.
Proof.
  induction tools1 as [|tool tools1 IH].
  - cbn. now destruct (_convert_tools_to_gemini tools2).
  - cbn [app _convert_tools_to_gemini].
    destruct (py_getitem tool "type") as [ty|e]; [|reflexivity]. cbn [res_bind].
    destruct (es_funcion ty); [|exact IH].
    destruct (py_getitem tool "function") as [func|e]; [|reflexivity]. cbn [res_bind].
    destruct (py_getitem func "name") as [name|e]; [|reflexivity]. cbn [res_bind].
    destruct (py_getitem func "description") as [desc|e]; [|reflexivity].
    cbn [res_bind]. rewrite IH.
    destruct (_convert_tools_to_gemini tools1) as [ds1|e]; [|reflexivity].
    cbn [res_bind].
    now destruct (_convert_tools_to_gemini tools2).
Qed.

Lemma convert_Ret (tools : list pyval) ds :
  _convert_tools_to_gemini tools = Ret ds ->
  Forall2 declara (filter (fun t => es_herramienta_funcion t = true) tools) ds.
Proof.
  revert ds. induction tools as [|tool tools IH]; intros ds.
  - intros [= <-]. constructor.
  - cbn [_convert_tools_to_gemini]. unfold es_herramienta_funcion at 1.
    rewrite filter_cons. unfold es_herramienta_funcion at 1.
    destruct (py_getitem tool "type") as [ty|e]; [|discriminate]. cbn [res_bind].
    destruct (es_funcion ty).
    + rewrite decide_True by reflexivity.
      destruct (py_getitem tool "function") as [func|e] eqn:Hf; [|discriminate].
      cbn [res_bind].
      destruct (py_getitem func "name") as [name|e] eqn:Hn; [|discriminate].
      cbn [res_bind].
      destruct (py_getitem func "description") as [desc|e] eqn:Hd; [|discriminate].
      cbn [res_bind].
      destruct (_convert_tools_to_gemini tools) as [ds'|e]; [|discriminate].
      intros [= <-]. constructor; [|now apply IH].
      exists func. now repeat split.
    + rewrite decide_False by discriminate. apply IH.
Qed.

(** X22.  The conversion of a catalogue for Gemini keeps the function tools
    and only them: when it returns, its result has one declaration for each
    tool whose [type] is [function], in the order of the catalogue, made of
    that tool's name, description and parameters (an empty dict when the
    tool declares none); tools of any other type are skipped.  It works tool
    by tool, so converting two catalogues joined is joining their
    conversions, and it raises [KeyError] on a tool without [type], or on a
    function tool without [function], [name] or [description]. *)
Theorem conversion_keeps_the_function_tools :
  (forall tools ds,
     _convert_tools_to_gemini tools = Ret ds ->
     Forall2 declara (filter (fun t => es_herramienta_funcion t = true) tools) ds) /\
  (forall tools1 tools2,
     _convert_tools_to_gemini (tools1 ++ tools2)
     = let* ds1 := _convert_tools_to_gemini tools1 in
       let* ds2 := _convert_tools_to_gemini tools2 in
       Ret (ds1 ++ ds2)%list) /\
  (forall tools1 tools2 d ds1,
     _convert_tools_to_gemini tools1 = Ret ds1 ->
     (dict_get d "type" = None ->
      _convert_tools_to_gemini (tools1 ++ PDict d :: tools2) = Raise KeyError) /\
     (dict_get d "type" = Some (PStr "function") ->
      (dict_get d "function" = None \/
       exists f, dict_get d "function" = Some (PDict f) /\
                 (dict_get f "name" = None \/ dict_get f "description" = None)) ->
      _convert_tools_to_gemini (tools1 ++ PDict d :: tools2) = Raise KeyError)).
Proof.
  refine (conj convert_Ret (conj convert_app _)).
  intros tools1 tools2 d ds1 H1'. split.
  - intros Ht. rewrite convert_app, H1'. cbn [res_bind _convert_tools_to_gemini py_getitem].
    now rewrite Ht.
  - intros Ht Hf. rewrite convert_app, H1'.
    cbn [res_bind _convert_tools_to_gemini py_getitem]. rewrite Ht.
    cbn [res_bind es_funcion String.eqb Ascii.eqb Bool.eqb].
    destruct Hf as [Hf|(f & Hf & [Hn|Hd])]; rewrite Hf; cbn [res_bind py_getitem];
      try reflexivity.
    + now rewrite Hn.
    + rewrite Hd. now destruct (dict_get f "name").
Qed.

End Conversion.

(* ===================================================================== *)
(** ** Choosing the client, and the REPL                                  *)
(* ===================================================================== *)

Section Seleccion.
Import Fabrica Main.
Context `{PyRuntime} {W : Type} `{Reloj W}.
Variable construir : ClaseCliente -> string -> res (LLMClient W).

(** Lower-casing leaves the two provider names as they are; true of
    [str.lower]. *)
Hypothesis lower_openai : str_lower "openai" = "openai".
Hypothesis lower_gemini : str_lower "gemini" = "gemini".

(** X19.  Which client is built.  [crear_cliente] compares the provider name
    in lower case: it raises [ValueError], without calling any constructor,
    exactly when that is neither [openai] nor [gemini].  [obtener_cliente]
    takes the provider from [LLM_PROVIDER] ([openai] when unset), again in
    lower case, and the key from [OPENAI_API_KEY] or [GOOGLE_API_KEY]
    accordingly: it gives up with [(None, None)] when the provider is
    neither or the key is unset or empty, and otherwise calls the
    constructor of the chosen class with the key; the name it returns is the
    lower-cased one.  So the factory's [ValueError] never comes out of
    [obtener_cliente]: what it raises, the constructor raised. *)
Theorem client_selection :
  (forall proveedor api_key,
     crear_cliente construir proveedor api_key =
     if String.eqb (str_lower proveedor) "openai" then construir ClaseOpenAI api_key
     else if String.eqb (str_lower proveedor) "gemini" then construir ClaseGemini api_key
     else Raise ValueError) /\
  (forall env,
     let proveedor :=
       str_lower (match env !! "LLM_PROVIDER" with Some v => v | None => "openai" end) in
     obtener_cliente construir env =
     match (if String.eqb proveedor "openai"
            then Some (ClaseOpenAI, env !! "OPENAI_API_KEY")
            else if String.eqb proveedor "gemini"
                 then Some (ClaseGemini, env !! "GOOGLE_API_KEY")
                 else None) with
     | Some (clase, Some (String c k)) =>
         let* cliente := construir clase (String c k) in
         Ret (Some (cliente, proveedor))
     | _ => Ret None
     end) /\
  (forall env e,
     obtener_cliente construir env = Raise e ->
     exists clase api_key, api_key <> "" /\ construir clase api_key = Raise e) /\
  (forall env cliente proveedor,
     obtener_cliente construir env = Ret (Some (cliente, proveedor)) ->
     proveedor = "openai" \/ proveedor = "gemini").
Proof.
  assert (Hcrear : forall proveedor api_key,
            crear_cliente construir proveedor api_key =
            if String.eqb (str_lower proveedor) "openai"
            then construir ClaseOpenAI api_key
            else if String.eqb (str_lower proveedor) "gemini"
                 then construir ClaseGemini api_key
                 else Raise ValueError).
  { intros proveedor api_key. unfold crear_cliente, proveedores.
    cbn [proveedores_get].
    rewrite (String.eqb_sym "openai"), (String.eqb_sym "gemini").
    destruct (String.eqb (str_lower proveedor) "openai"); [reflexivity|].
    now destruct (String.eqb (str_lower proveedor) "gemini"). }
  assert (Hobtener : forall env,
     obtener_cliente construir env =
     match (if String.eqb
                 (str_lower (match env !! "LLM_PROVIDER" with
                             | Some v => v | None => "openai" end)) "openai"
            then Some (ClaseOpenAI, env !! "OPENAI_API_KEY")
            else if String.eqb
                      (str_lower (match env !! "LLM_PROVIDER" with
                                  | Some v => v | None => "openai" end)) "gemini"
                 then Some (ClaseGemini, env !! "GOOGLE_API_KEY")
                 else None) with
     | Some (clase, Some (String c k)) =>
         let* cliente := construir clase (String c k) in
         Ret (Some (cliente,
                    str_lower (match env !! "LLM_PROVIDER" with
                               | Some v => v | None => "openai" end)))
     | _ => Ret None
     end).
  { intros env. unfold obtener_cliente.
    set (p := str_lower _).
    destruct (String.eqb_spec p "openai") as [Hp|Hp].
    - destruct (env !! "OPENAI_API_KEY") as [[|c k]|]; try reflexivity.
      rewrite Hcrear, Hp, lower_openai. reflexivity.
    - destruct (String.eqb_spec p "gemini") as [Hg|Hg]; [|reflexivity].
      destruct (env !! "GOOGLE_API_KEY") as [[|c k]|]; try reflexivity.
      rewrite Hcrear, Hg, lower_gemini. reflexivity. }
  refine (conj Hcrear (conj Hobtener (conj _ _))).
  - intros env e. rewrite Hobtener.
    destruct (String.eqb _ "openai").
    + destruct (env !! "OPENAI_API_KEY") as [[|c k]|]; try discriminate.
      destruct (construir ClaseOpenAI (String c k)) eqn:Hc; [discriminate|].
      intros [= <-]. exists ClaseOpenAI, (String c k). split; [discriminate | exact Hc].
    + destruct (String.eqb _ "gemini"); [|discriminate].
      destruct (env !! "GOOGLE_API_KEY") as [[|c k]|]; try discriminate.
      destruct (construir ClaseGemini (String c k)) eqn:Hc; [discriminate|].
      intros [= <-]. exists ClaseGemini, (String c k). split; [discriminate | exact Hc].
  - intros env cliente proveedor. rewrite Hobtener.
    destruct (String.eqb_spec (str_lower (match env !! "LLM_PROVIDER" with
                                          | Some v => v | None => "openai" end))
                "openai") as [Hp|Hp].
    + destruct (env !! "OPENAI_API_KEY") as [[|c k]|]; try discriminate.
      destruct (construir ClaseOpenAI (String c k)); [|discriminate].
      intros [= _ <-]. now left.
    + destruct (String.eqb_spec (str_lower (match env !! "LLM_PROVIDER" with
                                            | Some v => v | None => "openai" end))
                  "gemini") as [Hg|Hg]; [|discriminate].
      destruct (env !! "GOOGLE_API_KEY") as [[|c k]|]; try discriminate.
      destruct (construir ClaseGemini (String c k)); [|discriminate].
      intros [= _ <-]. now right.
Qed.

End Seleccion.

Section Repl.
Import Fabrica Main.
Context `{PyRuntime} {W : Type} `{Reloj W} `{LLMClient W}.
Variable str_strip : string -> string.

Lemma bucle_principal_sesion fuel entradas (s : AgenteOrquestador.t * W) :
  fst (bucle_principal str_strip fuel entradas s) <> SinFin ->
  snd (bucle_principal str_strip fuel entradas s)
  = sesion_orquestador (map (fun m => Procesar fuel m true)
                            (aceptadas str_strip entradas)) s.
Proof.
  revert s. induction entradas as [|linea resto IH]; intros s; [reflexivity|].
  cbn [bucle_principal aceptadas].
  destruct (es_salida (str_strip linea)); [reflexivity|].
  destruct (String.eqb (str_strip linea) ""); [apply IH|].
  cbn [map]. change (sesion_orquestador (?op :: ?ops) s)
    with (sesion_orquestador ops (paso_orquestador s op)).
  cbn [paso_orquestador].
  destruct (AgenteOrquestador.procesar fuel (str_strip linea) true s) as [[t|e|] s'];
    cbn [fst snd]; try apply IH. congruence.
Qed.

Lemma bucle_principal_crece fuel entradas (o : AgenteOrquestador.t) (w : W) :
  crece_orquestador o (fst (snd (bucle_principal str_strip fuel entradas (o, w)))).
Proof.
  revert o w. induction entradas as [|linea resto IH]; intros o w;
    [apply crece_orquestador_refl|].
  cbn [bucle_principal].
  destruct (es_salida (str_strip linea)); [apply crece_orquestador_refl|].
  destruct (String.eqb (str_strip linea) ""); [apply IH|].
  pose proof (procesar_crece fuel (str_strip linea) true o w) as Hc.
  destruct (AgenteOrquestador.procesar fuel (str_strip linea) true (o, w))
    as [[t|e|] [o' w']]; cbn [fst snd] in *;
    try (eapply crece_orquestador_trans; [exact Hc | apply IH]).
  exact Hc.
Qed.

Lemma bucle_principal_fin fuel entradas (s : AgenteOrquestador.t * W) :
  match fst (bucle_principal str_strip fuel entradas s) with
  | Adios => Exists (fun linea => es_salida (str_strip linea) = true) entradas
  | FinDeEntrada => Forall (fun linea => es_salida (str_strip linea) = false) entradas
  | SinFin => True
  | _ => False
  end.
Proof.
  revert s. induction entradas as [|linea resto IH]; intros s; [constructor|].
  cbn [bucle_principal].
  destruct (es_salida (str_strip linea)) eqn:Hs; [now constructor|].
  assert (Hpaso : forall s',
            match fst (bucle_principal str_strip fuel resto s') with
            | Adios => Exists (fun linea => es_salida (str_strip linea) = true)
                              (linea :: resto)
            | FinDeEntrada => Forall (fun linea => es_salida (str_strip linea) = false)
                                     (linea :: resto)
            | SinFin => True
            | _ => False
            end).
  { intros s'. specialize (IH s').
    destruct (fst (bucle_principal str_strip fuel resto s')); try exact IH.
    - now apply Exists_cons_tl.
    - now constructor. }
  destruct (String.eqb (str_strip linea) ""); [apply Hpaso|].
  destruct (AgenteOrquestador.procesar fuel (str_strip linea) true s) as [[t|e|] s'];
    cbn [fst]; try apply Hpaso. exact I.
Qed.

(** X20.  The REPL is one long conversation.  Reading its input line by
    line, [main]'s loop hands to [procesar], in order, the stripped lines
    that are not empty, up to the first line that is an exit word in any
    letter case, and nothing after it; an exception inside [procesar] does
    not end the loop, which goes on with the same orchestrator.  So the
    state it leaves is that of the session made of those [procesar] calls,
    the orchestrator's and the experts' histories only ever grow during a
    run (nothing resets them), and the loop ends with the farewell only if
    an exit word was read, and by running out of input only if none was. *)
Theorem repl_is_one_conversation fuel entradas (o : AgenteOrquestador.t) (w : W) :
  let fin := fst (bucle_principal str_strip fuel entradas (o, w)) in
  let s' := snd (bucle_principal str_strip fuel entradas (o, w)) in
  (fin <> SinFin ->
   s' = sesion_orquestador (map (fun m => Procesar fuel m true)
                                (aceptadas str_strip entradas)) (o, w)) /\
  crece_orquestador o (fst s') /\
  match fin with
  | Adios => Exists (fun linea => es_salida (str_strip linea) = true) entradas
  | FinDeEntrada => Forall (fun linea => es_salida (str_strip linea) = false) entradas
  | SinFin => True
  | _ => False
  end.
Proof.
  intros fin s'. refine (conj _ (conj _ _)).
  - apply bucle_principal_sesion.
  - apply bucle_principal_crece.
  - apply bucle_principal_fin.
Qed.

End Repl.

Section Programa.
Import Fabrica Main.
Context `{PyRuntime} {W : Type} `{Reloj W}.
Variable str_strip : string -> string.
Variable construir : ClaseCliente -> string -> res (LLMClient W).

(** X21.  [main] as a whole.  Without a client (unsupported provider, or key
    unset or empty) it returns at once, before any orchestrator exists.  If
    [obtener_cliente] raises, so does [main].  Otherwise the banner never
    fails (the provider name is a key of [MODELOS_DISPONIBLES]) and [main]
    is its loop run on a fresh orchestrator with the default model: in
    particular an exception of a [procesar] call never comes out of
    [main]. *)
Theorem main_runs_the_loop_on_a_fresh_orchestrator fuel env entradas (w : W) :
  match obtener_cliente construir env with
  | Raise e => main str_strip construir fuel env entradas w = (Excepcion e, None)
  | Ret None => main str_strip construir fuel env entradas w = (SinCliente, None)
  | Ret (Some (client, _)) =>
      main str_strip construir fuel env entradas w =
      (fst (@bucle_principal _ _ _ str_strip client fuel entradas
              (AgenteOrquestador.init None, w)),
       Some (snd (@bucle_principal _ _ _ str_strip client fuel entradas
                    (AgenteOrquestador.init None, w)))) /\
      forall e, fst (main str_strip construir fuel env entradas w) <> Excepcion e
  end.
Proof.
  unfold main.
  destruct (obtener_cliente construir env) as [[[client proveedor]|]|e] eqn:Ho;
    try reflexivity.
  assert (Hp : proveedor = "openai" \/ proveedor = "gemini").
  { revert Ho. unfold obtener_cliente. set (p := str_lower _).
    destruct (String.eqb_spec p "openai") as [Hp|Hp].
    - destruct (env !! "OPENAI_API_KEY") as [[|c k]|]; try discriminate.
      destruct (crear_cliente _ _ _); [|discriminate]. intros [= _ <-]. now left.
    - destruct (String.eqb_spec p "gemini") as [Hg|Hg]; [|discriminate].
      destruct (env !! "GOOGLE_API_KEY") as [[|c k]|]; try discriminate.
      destruct (crear_cliente _ _ _); [|discriminate]. intros [= _ <-]. now right. }
  assert (Hm : exists ms, modelos_get MODELOS_DISPONIBLES proveedor = Some ms)
    by (destruct Hp as [-> | ->]; eexists; reflexivity).
  destruct Hm as [ms ->].
  pose proof (bucle_principal_fin (H1 := client) str_strip fuel entradas
                (AgenteOrquestador.init None, w)) as Hfin.
  destruct (bucle_principal str_strip fuel entradas (AgenteOrquestador.init None, w))
    as [fin s'] eqn:Hb.
  cbn [fst snd] in *. split; [reflexivity|].
  intros e ->. exact Hfin.
Qed.

End Programa.

(* ===================================================================== *)
(** ** Further worked runs                                                *)
(* ===================================================================== *)

Section OtrasCorridas.
Import Stub Ejemplos Casos Fabrica Main.
#[local] Existing Instance runtime.
#[local] Existing Instance openai.

Lemma argument_order_witness :
  ejecutar_herramienta "calculadora" suma_desordenada guion_suma
  = ejecutar_herramienta "calculadora" (ToolCall.arguments suma_2_3) guion_suma.
Proof.
  apply (@argument_order_is_irrelevant runtime mundo reloj).
  - apply (bool_decide_unpack _). vm_compute. exact I.
  - unfold suma_desordenada. cbn.
    etrans; [apply Permutation_cons; [reflexivity | apply perm_swap] | apply perm_swap].
Defined.

Lemma dispatcher_binding_witness :
  exists operacion a b,
    dict_get suma_desordenada "operacion" = Some operacion /\
    dict_get suma_desordenada "a" = Some a /\
    dict_get suma_desordenada "b" = Some b /\
    ejecutar_herramienta "calculadora" suma_desordenada guion_suma
    = (let* r := calculadora operacion a b in Ret (Some r), guion_suma).
Proof.
  apply (proj1 (@dispatcher_binds_exactly_the_parameters runtime mundo reloj)).
  intros k. cbn. tauto.
Defined.

Lemma clock_tool_witness :
  snd (ejecutar_herramienta "calculadora" suma_desordenada guion_suma) = guion_suma /\
  fst (ejecutar_herramienta "calculadora" suma_desordenada guion_suma)
  = fst (ejecutar_herramienta "calculadora" suma_desordenada guion_cocina).
Proof.
  apply (@only_the_clock_tool_reads_the_world runtime mundo reloj). discriminate.
Defined.

Lemma first_match_witness :
  buscar calorias_por_100g "pechuga de pollo" = Some 165.
Proof.
  apply (proj1 (proj2 first_matching_entry_wins)). reflexivity.
Defined.

Lemma empty_recipe_witness :
  calcular_calorias (PList []) (PInt 4) = Ret (informe [] 0 (PInt 4) 0).
Proof.
  apply (proj1 (@empty_recipe_gives_the_zero_report runtime (PInt 4)) (NInt 4)).
  reflexivity.
Defined.

Lemma agent_without_tools_witness :
  AgenteConHerramientas.pensar 0 (PStr "hola") true
    (AgenteConHerramientas.init "sp" None None, guion [] [Some "buenas"])
  = AgenteBase.pensar (PStr "hola")
      (AgenteConHerramientas.init "sp" None None, guion [] [Some "buenas"]).
Proof.
  apply (proj1 (@agent_without_tools_is_a_plain_agent runtime mundo reloj openai)).
  reflexivity.
Defined.

Lemma plain_agent_witness :
  let s' := sesion_agente [Pensar 0 (PStr "uno") false; Pensar 0 (PStr "dos") false]
              (ExpertoMatematicas, guion [] [Some "a"; Some "b"; Some "c"]) in
  Agente.messages (fst s')
  = (Agente.messages ExpertoMatematicas
     ++ pares_chat [PStr "uno"; PStr "dos"] [Some "a"; Some "b"])%list /\
  llamadas (snd s')
  = ([] ++ llamadas_chat None (Agente.messages ExpertoMatematicas)
             [PStr "uno"; PStr "dos"] [Some "a"; Some "b"])%list /\
  respuestas_chat (snd s') = [Some "c"] /\
  respuestas_tools (snd s') = [].
Proof.
  apply (@plain_agent_sends_the_whole_conversation runtime openai openai_guionizado
           0 false [PStr "uno"; PStr "dos"] [Some "a"; Some "b"] [Some "c"]
           ExpertoMatematicas (guion [] [Some "a"; Some "b"; Some "c"]));
    reflexivity.
Defined.

Lemma user_message_witness :
  AgenteOrquestador.procesar 1 "hola" false (AgenteOrquestador.init None, guion [] [])
  = (Raised ProviderError,
     (AgenteOrquestador.append (mensaje "user" (PStr "hola")) (AgenteOrquestador.init None),
      snd (stub_chat_with_tools
             (AgenteOrquestador.messages (AgenteOrquestador.init None)
              ++ [mensaje "user" (PStr "hola")])%list
             TOOLS_DEFINITION None (guion [] [])))).
Proof.
  apply (proj2 (proj2 (@user_message_stays_however_the_call_ends
                         runtime mundo reloj openai))).
  reflexivity.
Defined.

Lemma malformed_delegation_witness :
  AgenteOrquestador.ejecutar_llamadas 1 false [delegar_sin_tipo]
    (AgenteOrquestador.init None, guion_cocina)
  = (Raised KeyError, (AgenteOrquestador.init None, guion_cocina)).
Proof.
  apply (proj1 (@malformed_delegation runtime mundo reloj openai 1 false
                  delegar_sin_tipo [] (AgenteOrquestador.init None) guion_cocina
                  eq_refl)).
  reflexivity.
Defined.

Lemma build_contents_witness :
  Gemini._build_contents ([mensaje "system" (PStr "s")] ++ [mensaje "assistant" PNone])
  = Ret (PStr "s", if Gemini.py_bool PNone
                   then ([] ++ [{| Gemini.role := "model";
                                   Gemini.parts := [Gemini.from_text PNone] |}])%list
                   else []).
Proof.
  apply (proj1 (proj2 (proj2 (proj1 (proj2 build_contents_reads_message_by_message)
                                [mensaje "system" (PStr "s")] (PStr "s") [] eq_refl)))).
Defined.

Lemma gemini_encodings_witness :
  Gemini._build_contents
    ([mensaje "system" (PStr "s")]
     ++ [@create_tool_result_message _ gemini "gemini_call_1" (Some "5") "calculadora"])
  = Ret (PStr "s", ([] ++ [content_de_resultado (Some "5") "calculadora"])%list).
Proof.
  apply (proj1 (@gemini_encodings_are_read_back mundo stub_chat stub_chat_with_tools
                  [mensaje "system" (PStr "s")] (PStr "s") [] eq_refl)).
Defined.

Lemma gemini_histories_witness :
  exists cs,
    Gemini._build_contents
      [mensaje "system" (PStr "s"); mensaje "user" (PStr "hola");
       @create_assistant_message_with_tools _ gemini (pide None [suma_2_3]);
       @create_tool_result_message _ gemini "gemini_call_1" (Some "5") "calculadora";
       mensaje "assistant" (PStr "5")]
    = Ret (PStr "s", cs) /\ (length cs < 5)%nat.
Proof.
  apply (proj1 (@gemini_histories_always_translate runtime mundo reloj
                  stub_chat stub_chat_with_tools)).
  eexists. split; [reflexivity|].
  constructor; [apply origen_user|].
  constructor; [apply (@origen_llamadas _ gemini)|].
  constructor; [apply (@origen_resultado _ gemini)|].
  constructor; [apply origen_assistant | constructor].
Defined.

Lemma gemini_numbering_witness :
  (2 = 0 + length (LLMResponse.tool_calls respuesta_esperada))%nat /\
  map ToolCall.id (LLMResponse.tool_calls respuesta_esperada)
  = map Gemini.gemini_call
      (seq 1 (length (LLMResponse.tool_calls respuesta_esperada))).
Proof.
  apply (proj1 (proj2 gemini_tool_calls_are_numbered_on) 0%nat respuesta_gemini
           respuesta_esperada 2%nat).
  vm_compute. reflexivity.
Defined.

Lemma gemini_client_witness :
  (snd (tt, 2%nat) = snd (tt, 0%nat) + length (LLMResponse.tool_calls respuesta_esperada))%nat /\
  map ToolCall.id (LLMResponse.tool_calls respuesta_esperada)
  = map Gemini.gemini_call
      (seq (S (snd (tt, 0%nat))) (length (LLMResponse.tool_calls respuesta_esperada))).
Proof.
  apply (proj1 (proj2 (proj2 (@gemini_client_keeps_its_counter unit api_fija)))
           [mensaje "system" (PStr "s"); mensaje "user" (PStr "hola")]
           TOOLS_DEFINITION None (tt, 0%nat) (tt, 2%nat) respuesta_esperada).
  vm_compute. reflexivity.
Defined.

Lemma conversion_witness :
  Forall2 declara
    (filter (fun t => es_herramienta_funcion t = true) catalogo_mixto)
    [declaracion_hora].
Proof.
  apply (proj1 conversion_keeps_the_function_tools catalogo_mixto [declaracion_hora]).
  reflexivity.
Defined.

Lemma client_selection_witness :
  obtener_cliente construir_guion entorno_gemini = Ret (Some (gemini, "gemini")) /\
  ("gemini" = "openai" \/ "gemini" = "gemini").
Proof.
  assert (Ho : obtener_cliente construir_guion entorno_gemini
               = Ret (Some (gemini, "gemini"))) by (vm_compute; reflexivity).
  split; [exact Ho|].
  exact (proj2 (proj2 (proj2 (@client_selection runtime mundo construir_guion
                                eq_refl eq_refl)))
           entorno_gemini gemini "gemini" Ho).
Defined.

Lemma repl_witness :
  snd (bucle_principal recortar 3 entradas_repl (AgenteOrquestador.init None, guion_repl))
  = sesion_orquestador
      (map (fun m => Procesar 3 m true) (aceptadas recortar entradas_repl))
      (AgenteOrquestador.init None, guion_repl).
Proof.
  apply (proj1 (@repl_is_one_conversation runtime mundo reloj openai recortar 3
                  entradas_repl (AgenteOrquestador.init None) guion_repl)).
  vm_compute. discriminate.
Defined.

Lemma verbose_witness :
  AgenteOrquestador.ejecutar_llamadas 1 true [suma_2_3; traducir]
    (AgenteOrquestador.init None, guion_suma)
  = AgenteOrquestador.ejecutar_llamadas 1 false [suma_2_3; traducir]
      (AgenteOrquestador.init None, guion_suma).
Proof.
  apply (proj2 (proj2 (proj2 (@verbose_changes_nothing_but_a_TypeError
                                runtime mundo reloj openai)))).
  repeat constructor; discriminate.
Defined.

Lemma malformed_ingredient_witness :
  calcular_calorias
    (PList ([ingrediente_pollo] ++ ingrediente_sin_nombre :: [ingrediente_pollo]))
    (PStr "dos")
  = Raise KeyError.
Proof.
  pose proof (proj2 (@malformed_ingredient_aborts_the_report runtime)
                ingrediente_sin_nombre) as Hbad.
  cbn [ingrediente_sin_nombre dict_get String.eqb Ascii.eqb Bool.eqb] in Hbad.
  destruct (bucle_ingredientes [ingrediente_pollo] (PInt 0, [])) as [acc|e] eqn:Hpre;
    [|vm_compute in Hpre; discriminate Hpre].
  exact (proj1 (@malformed_ingredient_aborts_the_report runtime)
           [ingrediente_pollo] ingrediente_sin_nombre [ingrediente_pollo] (PStr "dos")
           acc KeyError Hpre (Hbad acc)).
Defined.

End OtrasCorridas.
